(** * Position-level risk rules of the BIDBACK trading tool

    A shallow embedding of the rule engine found in
      - [source/py/dynamic_regime_system.py]
          (DynamicRegimeManager, AdaptiveStopManager),
      - [backend/risk_management/integrated_overlay_system.py]
          (IntegratedRiskOverlay),
      - [backend/risk_management/profit_taking_system.py]
          (RegimeProfitTakingManager),
      - [source/py/ultimate_implementation.py]
          (TradePosition, UltimateRiskManager),
      - [source/py/stop_loss_matrix.py] (RegimeStopLossManager),
      - [backend/risk_management/multilayer_backtesting_simple.py]
          (MultiLayerBacktester.analyze_regime_performance),
      - [backend/services.py] (the checks of RiskManagementService),
    followed by the properties of the specification that concern them.

    Modelling conventions.
      - Python floats and ints used as prices, percentages and multipliers
        are exact rationals [Q]; rounding, infinities and NaN of IEEE
        arithmetic are not modelled.  Equality of numbers is [Qeq] ([==]).
        A quantity the source computes back from an already rounded one
        (the [stop_distance_pct] reported by [open_position]) can differ
        from its exact value in the last digits, a price lying exactly on
        a computed threshold can compare differently, and a decimal tie
        can be rendered differently by [format_f]; no property below rests
        on such a value.
      - A Python exception is a value of [exn]; a method that can raise
        and mutate its object is a function [S -> S * (exn + A)], so the
        state left behind by a call that raises is part of the model.
      - Dictionaries with a fixed set of keys (rule bundles) are records
        whose fields are options: [None] is an absent key.  Dictionaries
        keyed by caller data (market data, price data, the active
        positions) are [gmap string _].
      - [datetime.now()] stamps of log entries are left out. *)

From stdpp Require Import gmap strings list pretty.
From Stdlib Require Import QArith Qabs Qround Lqa.

Local Open Scope Q_scope.

(** ** Python numerics *)

Module Py.

(** The exceptions the modelled code can raise. *)
Inductive exn : Type :=
  | ValueError (msg : string)
  | ZeroDivisionError
  | KeyError (key : string)
  | IndexError.

(** A computation that returns or raises. *)
Definition Res (A : Type) : Type := (exn + A)%type.

(** A method on a mutable object of type [S]. *)
Definition M (S A : Type) : Type := S -> S * Res A.

Definition ret {S A} (a : A) : M S A := fun s => (s, inr a).
Definition raise {S A} (e : exn) : M S A := fun s => (s, inl e).
Definition bind {S A B} (m : M S A) (k : A -> M S B) : M S B :=
  fun s => match m s with
           | (s', inr a) => k a s'
           | (s', inl e) => (s', inl e)
           end.
Definition get {S} : M S S := fun s => (s, inr s).
Definition modify {S} (f : S -> S) : M S unit := fun s => (f s, inr tt).
Definition lift {S A} (r : Res A) : M S A := fun s => (s, r).

(** Run a method of a sub-object [T] held in a field of [S]. *)
Definition zoom {S T A} (proj : S -> T) (inj : T -> S -> S) (m : M T A) : M S A :=
  fun s => let '(t', r) := m (proj s) in (inj t' s, r).

Definition rbind {A B} (r : Res A) (k : A -> Res B) : Res B :=
  match r with
  | inr a => k a
  | inl e => inl e
  end.

(** [a < b], [a > b], [a <= b], [a >= b], [a == b] on numbers. *)
Definition lt (a b : Q) : bool := negb (Qle_bool b a).
Definition gt (a b : Q) : bool := lt b a.
Definition le (a b : Q) : bool := Qle_bool a b.
Definition ge (a b : Q) : bool := Qle_bool b a.

(** [max(a, b)] keeps [a] unless [b > a]; [min(a, b)] keeps [a] unless
    [b < a]. *)
Definition max (a b : Q) : Q := if gt b a then b else a.
Definition min (a b : Q) : Q := if lt b a then b else a.

(** [a / b] on floats raises on a zero divisor. *)
Definition div (a b : Q) : Res Q :=
  if Qeq_bool b 0 then inl ZeroDivisionError else inr (a / b).

(** [int(x)]: truncation toward zero. *)
Definition int (x : Q) : Z := Z.quot (Qnum x) (Zpos (Qden x)).

(** [np.mean] of a list (callers only pass non-empty lists). *)
Definition mean (l : list Q) : Q :=
  foldr Qplus 0 l / inject_Z (Z.of_nat (length l)).

(** [l[i]] for [i >= 0]. *)
Definition index {A} (l : list A) (i : nat) : Res A :=
  match l !! i with
  | Some a => inr a
  | None => inl IndexError
  end.

(** [d[key]] on a rule bundle. *)
Definition item {A} (key : string) (field : option A) : Res A :=
  match field with
  | Some a => inr a
  | None => inl (KeyError key)
  end.

(** [l[-n:]]. *)
Definition last_n {A} (n : nat) (l : list A) : list A :=
  drop (length l - n) l.

(** [f"{x:.<prec>f}"]: fixed-point rendering, rounding half to even on the
    exact value. *)
Definition pad_zeros (width : nat) (s : string) : string :=
  String.concat "" (replicate (width - String.length s) "0"%string) +:+ s.

Definition format_f (prec : nat) (x : Q) : string :=
  let scale := (10 ^ Z.of_nat prec)%Z in
  let a := Qabs x * inject_Z scale in
  let fl := Qfloor a in
  let rem := a - inject_Z fl in
  let r := if gt rem (1 # 2) then (fl + 1)%Z
           else if Qeq_bool rem (1 # 2)
                then (if Z.even fl then fl else (fl + 1)%Z)
                else fl in
  (if lt x 0 then "-" else "")
    +:+ pretty (r / scale)%Z
    +:+ (match prec with
         | O => ""
         | _ => "." +:+ pad_zeros prec (pretty (r mod scale)%Z)
         end).

End Py.

Notation "'let*' x ':=' c 'in' k" := (Py.bind c (fun x => k))
  (at level 10, x pattern, c at level 100, k at level 200).
Notation "'let?' x ':=' c 'in' k" := (Py.rbind c (fun x => k))
  (at level 10, x pattern, c at level 100, k at level 200).


(** ** dynamic_regime_system.py *)

Inductive RegimeType : Type :=
  | CRISIS_OPPORTUNITY
  | HIGH_VOL_STRESS
  | BULL_NORMAL
  | LOW_VOL_COMPLACENCY.

#[global] Instance RegimeType_eq_dec : EqDecision RegimeType.
Proof. solve_decision. Defined.

(** [RegimeType.value] *)
Definition RegimeType_value (r : RegimeType) : string :=
  match r with
  | CRISIS_OPPORTUNITY => "crisis_opportunity"
  | HIGH_VOL_STRESS => "high_vol_stress"
  | BULL_NORMAL => "bull_normal"
  | LOW_VOL_COMPLACENCY => "low_vol_complacency"
  end.

Record MarketState : Type := mkMarketState {
  vix_level : Q;
  t2108_level : option Q;
  momentum_ratio : option Q;
  day : Z;
  regime : RegimeType
}.

(** [MarketState(vix_level=.., t2108_level=.., momentum_ratio=.., day=..)]:
    the [regime] field keeps its dataclass default. *)
Definition MarketState_new (vix : Q) (t2108 momentum : option Q) (d : Z) : MarketState :=
  mkMarketState vix t2108 momentum d BULL_NORMAL.

Record RuleAdjustment : Type := mkRuleAdjustment {
  stop_multiplier : Q;
  profit_multiplier : Q;
  urgency_factor : Q;
  reason : string
}.

(** [RuleAdjustment()] *)
Definition RuleAdjustment_default : RuleAdjustment :=
  mkRuleAdjustment 1.0 1.0 1.0 "".

(** Upper end of a [vix_range]: a number or [float('inf')]. *)
Inductive bound : Type :=
  | Fin (q : Q)
  | Inf.

(** [x < b] *)
Definition lt_bound (x : Q) (b : bound) : bool :=
  match b with
  | Fin q => Py.lt x q
  | Inf => true
  end.

(** A rule bundle (the per-regime [Dict] handed around as [base_rules],
    [config], [adjusted_rules]). *)
Record Rules : Type := mkRules {
  vix_range : option (Q * bound);
  stop_loss_pct : option Q;
  profit_levels : option (list Q);
  position_scaling : option (list Q);
  tr_stop_multiplier : option Q;
  tr_profit_multipliers : option (list Q);
  max_hold_override : option Z;
  description : option string
}.

(** One entry of [DynamicRegimeManager.adjustment_history]. *)
Record TransitionLog : Type := mkTransitionLog {
  tl_day : Z;
  tl_old_regime : string;
  tl_new_regime : string;
  tl_vix : Q;
  tl_t2108 : option Q;
  tl_momentum : option Q;
  tl_stop_adj : Q;
  tl_profit_adj : Q;
  tl_urgency : Q;
  tl_reason : string
}.

(** The mutable part of a [DynamicRegimeManager]; [regime_history] and
    [market_state_history] are never written. *)
Record DynamicRegimeManager : Type := mkDynamicRegimeManager {
  adjustment_history : list TransitionLog
}.

Definition DynamicRegimeManager_init : DynamicRegimeManager :=
  mkDynamicRegimeManager [].

Module transition_thresholds.
Definition vix_major_change : Q := 15.0.
Definition vix_crisis_threshold : Q := 45.0.
Definition vix_calm_threshold : Q := 12.0.
Definition t2108_collapse : Q := -25.0.
Definition t2108_explosion : Q := 20.0.
Definition momentum_extreme : Q := 10.0.
End transition_thresholds.

(** [emergency_rules]: the three protocols with their constants, in the
    order (stop, profit, urgency). *)
Module emergency_rules.
Definition breadth_collapse : Q * Q * Q := (0.6, 0.7, 2.0).
Definition volatility_explosion : Q * Q * Q := (1.5, 1.4, 0.7).
Definition momentum_collapse : Q * Q * Q := (0.5, 0.6, 3.0).
End emergency_rules.

Definition _classify_regime_comprehensive (state : MarketState) : RegimeType :=
  let vix := vix_level state in
  let primary_regime :=
    if Py.ge vix 50 then CRISIS_OPPORTUNITY
    else if Py.ge vix 30 then HIGH_VOL_STRESS
    else if Py.ge vix 15 then BULL_NORMAL
    else LOW_VOL_COMPLACENCY in
  match t2108_level state, momentum_ratio state with
  | Some t2108, Some momentum =>
      if Py.lt t2108 20 && Py.lt momentum 0.8 then
        match primary_regime with
        | BULL_NORMAL => HIGH_VOL_STRESS
        | LOW_VOL_COMPLACENCY => BULL_NORMAL
        | r => r
        end
      else if Py.gt t2108 60 && Py.gt momentum 2.0 then
        match primary_regime with
        | HIGH_VOL_STRESS => BULL_NORMAL
        | BULL_NORMAL => if Py.lt vix 20 then LOW_VOL_COMPLACENCY else BULL_NORMAL
        | r => r
        end
      else primary_regime
  | _, _ => primary_regime
  end.

(** The three blocks of [_calculate_transition_adjustments], each an
    in-place update of the local [adjustment]. *)
Definition adjust_for_vix (current previous : MarketState) (a : RuleAdjustment) : RuleAdjustment :=
  let vix_change := vix_level current - vix_level previous in
  if Py.gt (Qabs vix_change) transition_thresholds.vix_major_change then
    if Py.gt vix_change 0 then
      mkRuleAdjustment (1.2 + vix_change / 50) (1.1 + vix_change / 100)
        (urgency_factor a)
        (reason a +:+ "VIX spike +" +:+ Py.format_f 1 vix_change +:+ "; ")
    else
      mkRuleAdjustment (0.9 + vix_change / 100) (0.95 + vix_change / 200)
        (urgency_factor a)
        (reason a +:+ "VIX decline " +:+ Py.format_f 1 vix_change +:+ "; ")
  else a.

Definition adjust_for_t2108 (current previous : MarketState) (a : RuleAdjustment) : RuleAdjustment :=
  match t2108_level current, t2108_level previous with
  | Some c, Some p =>
      let t2108_change := c - p in
      if Py.lt t2108_change transition_thresholds.t2108_collapse then
        mkRuleAdjustment (stop_multiplier a * 0.7) (profit_multiplier a * 0.8) 2.0
          (reason a +:+ "Breadth collapse " +:+ Py.format_f 1 t2108_change +:+ "; ")
      else if Py.gt t2108_change transition_thresholds.t2108_explosion then
        mkRuleAdjustment (stop_multiplier a) (profit_multiplier a * 1.3) (urgency_factor a)
          (reason a +:+ "Breadth surge +" +:+ Py.format_f 1 t2108_change +:+ "; ")
      else a
  | _, _ => a
  end.

Definition adjust_for_momentum (current previous : MarketState) (a : RuleAdjustment) : Py.Res RuleAdjustment :=
  match momentum_ratio current, momentum_ratio previous with
  | Some c, Some p =>
      let? momentum_change := Py.div c p in
      if Py.lt momentum_change 0.5 then
        inr (mkRuleAdjustment (stop_multiplier a * 0.8) (profit_multiplier a)
               (Py.max (urgency_factor a) 1.5)
               (reason a +:+ "Momentum collapse " +:+ Py.format_f 2 momentum_change +:+ "x; "))
      else if Py.gt momentum_change 2.0 then
        inr (mkRuleAdjustment (stop_multiplier a) (profit_multiplier a * 1.2)
               (urgency_factor a)
               (reason a +:+ "Momentum surge " +:+ Py.format_f 2 momentum_change +:+ "x; "))
      else inr a
  | _, _ => inr a
  end.

Definition _calculate_transition_adjustments
    (current previous : MarketState) (new_regime old_regime : RegimeType) : Py.Res RuleAdjustment :=
  let adjustment := RuleAdjustment_default in
  let adjustment := adjust_for_vix current previous adjustment in
  let adjustment := adjust_for_t2108 current previous adjustment in
  adjust_for_momentum current previous adjustment.

Definition emergency_adjustment (rules : Q * Q * Q) (why : string) : RuleAdjustment :=
  let '(stop, profit, urgency) := rules in
  mkRuleAdjustment stop profit urgency why.

Definition breadth_collapse_protocol : RuleAdjustment :=
  emergency_adjustment emergency_rules.breadth_collapse
    "EMERGENCY: Breadth collapse protocol activated".
Definition volatility_explosion_protocol : RuleAdjustment :=
  emergency_adjustment emergency_rules.volatility_explosion
    "EMERGENCY: Volatility explosion protocol activated".
Definition momentum_collapse_protocol : RuleAdjustment :=
  emergency_adjustment emergency_rules.momentum_collapse
    "EMERGENCY: Momentum collapse protocol activated".

(** The guards of the three protocols. *)
Definition breadth_collapse_cond (current previous : MarketState) : bool :=
  match t2108_level current, t2108_level previous with
  | Some c, Some p => Py.lt (c - p) (-30)
  | _, _ => false
  end.

Definition volatility_explosion_cond (current previous : MarketState) : bool :=
  Py.gt (vix_level current) 60 && Py.gt (vix_level current - vix_level previous) 20.

Definition momentum_collapse_cond (current previous : MarketState) : bool :=
  match momentum_ratio current, momentum_ratio previous with
  | Some c, Some p => Py.lt c 0.1 && Py.gt p 1.0
  | _, _ => false
  end.

Definition _check_emergency_protocols (current previous : MarketState) : option RuleAdjustment :=
  if breadth_collapse_cond current previous then Some breadth_collapse_protocol
  else if volatility_explosion_cond current previous then Some volatility_explosion_protocol
  else if momentum_collapse_cond current previous then Some momentum_collapse_protocol
  else None.

Definition _combine_adjustments (base emergency : RuleAdjustment) : RuleAdjustment :=
  mkRuleAdjustment
    (stop_multiplier base * stop_multiplier emergency)
    (profit_multiplier base * profit_multiplier emergency)
    (Py.max (urgency_factor base) (urgency_factor emergency))
    (reason base +:+ " + " +:+ reason emergency).

Definition _log_transition (old_regime new_regime : RegimeType) (state : MarketState)
    (adjustment : RuleAdjustment) : Py.M DynamicRegimeManager unit :=
  Py.modify (fun self =>
    mkDynamicRegimeManager
      (adjustment_history self ++
       [mkTransitionLog (day state) (RegimeType_value old_regime) (RegimeType_value new_regime)
          (vix_level state) (t2108_level state) (momentum_ratio state)
          (stop_multiplier adjustment) (profit_multiplier adjustment)
          (urgency_factor adjustment) (reason adjustment)])).

Definition detect_regime_transition (current_state : MarketState) (previous_state : option MarketState)
    : Py.M DynamicRegimeManager (bool * RegimeType * RuleAdjustment) :=
  let new_regime := _classify_regime_comprehensive current_state in
  match previous_state with
  | None => Py.ret (true, new_regime, RuleAdjustment_default)
  | Some previous_state =>
      let previous_regime := regime previous_state in
      let transition_detected := bool_decide (new_regime <> previous_regime) in
      let* rule_adjustment :=
        Py.lift (_calculate_transition_adjustments current_state previous_state
                   new_regime previous_regime) in
      let rule_adjustment :=
        match _check_emergency_protocols current_state previous_state with
        | Some emergency => _combine_adjustments rule_adjustment emergency
        | None => rule_adjustment
        end in
      let* _ :=
        (if transition_detected
         then _log_transition previous_regime new_regime current_state rule_adjustment
         else Py.ret tt) in
      Py.ret (transition_detected, new_regime, rule_adjustment)
  end.

Definition apply_dynamic_adjustments (base_rules : Rules) (adjustment : RuleAdjustment) : Rules :=
  mkRules
    (vix_range base_rules)
    ((fun x => x * stop_multiplier adjustment) <$> stop_loss_pct base_rules)
    (map (fun level => level * profit_multiplier adjustment) <$> profit_levels base_rules)
    (position_scaling base_rules)
    ((fun x => x * stop_multiplier adjustment) <$> tr_stop_multiplier base_rules)
    (map (fun mult => mult * profit_multiplier adjustment) <$> tr_profit_multipliers base_rules)
    (match max_hold_override base_rules with
     | Some h =>
         if Py.gt (urgency_factor adjustment) 1.0
         then Some (Z.max 1 (Py.int (inject_Z h / urgency_factor adjustment)))
         else Some h
     | None => None
     end)
    (description base_rules).

(** *** AdaptiveStopManager *)

(** An [AdaptiveStopManager] holds a reference to the regime manager it was
    built with and its own per-symbol True-Range history. *)
Record AdaptiveStopManager : Type := mkAdaptiveStopManager {
  regime_manager : DynamicRegimeManager;
  rolling_true_ranges : gmap string (list Q)
}.

Definition AdaptiveStopManager_init : AdaptiveStopManager :=
  mkAdaptiveStopManager DynamicRegimeManager_init ∅.

Definition set_regime_manager (rm : DynamicRegimeManager) (self : AdaptiveStopManager)
    : AdaptiveStopManager :=
  mkAdaptiveStopManager rm (rolling_true_ranges self).

Definition set_rolling_true_ranges (r : gmap string (list Q)) (self : AdaptiveStopManager)
    : AdaptiveStopManager :=
  mkAdaptiveStopManager (regime_manager self) r.

(** The dictionary returned by [calculate_adaptive_stop]. *)
Record StopData : Type := mkStopData {
  sd_stop_level : Q;
  sd_stop_pct : Q;
  sd_regime : string;
  sd_base_stop : Q;
  sd_tr_stop : Q;
  sd_volatility_factor : Q;
  sd_adjustment_applied : string;
  sd_transition_detected : bool
}.

(** [s if s else "none"] *)
Definition or_none (s : string) : string :=
  if bool_decide (s = "") then "none" else s.

(** Append the observation and keep the last five. *)
Definition update_rolling (symbol : string) (current_true_range : Q)
    (r : gmap string (list Q)) : gmap string (list Q) :=
  let l := default [] (r !! symbol) ++ [current_true_range] in
  <[symbol := if bool_decide (5 < length l)%nat then Py.last_n 5 l else l]> r.

(** The division by [entry_price] raises here on a zero divisor.  (When the
    dividend has become a numpy scalar the interpreter yields an infinity
    instead, the clamp turns it into -25, and the same divisor raises a few
    lines later in [calculate_dynamic_profits]; [open_position] ends with
    the same exception and the same state either way.) *)
Definition calculate_adaptive_stop (symbol : string) (entry_price current_true_range : Q)
    (base_rules : Rules) (market_state : MarketState) (previous_state : option MarketState)
    : Py.M AdaptiveStopManager StopData :=
  let* (transition_detected, new_regime, adjustment) :=
    Py.zoom regime_manager set_regime_manager
      (detect_regime_transition market_state previous_state) in
  let adjusted_rules := apply_dynamic_adjustments base_rules adjustment in
  let* _ := Py.modify (fun self =>
    set_rolling_true_ranges
      (update_rolling symbol current_true_range (rolling_true_ranges self)) self) in
  let* self := Py.get in
  let rolling_tr := Py.mean (default [] (rolling_true_ranges self !! symbol)) in
  let* volatility_factor :=
    Py.lift (if Py.gt rolling_tr 0 then Py.div current_true_range rolling_tr else inr 1.0) in
  let base_stop_pct := default (-8.0) (stop_loss_pct adjusted_rules) in
  let tr_multiplier := default 1.8 (tr_stop_multiplier adjusted_rules) in
  let adjusted_tr_multiplier := tr_multiplier * volatility_factor in
  let tr_stop_distance := current_true_range * adjusted_tr_multiplier in
  let* d := Py.lift (Py.div tr_stop_distance entry_price) in
  let tr_stop_pct := - d * 100 in
  let final_stop_pct := Py.min base_stop_pct tr_stop_pct in
  let final_stop_pct := Py.max final_stop_pct (-25.0) in
  let final_stop_pct := Py.min final_stop_pct (-2.0) in
  let stop_level := entry_price * (1 + final_stop_pct / 100) in
  Py.ret (mkStopData stop_level final_stop_pct (RegimeType_value new_regime)
            base_stop_pct tr_stop_pct volatility_factor
            (or_none (reason adjustment)) transition_detected).

(** ** integrated_overlay_system.py *)

Module IntegratedRiskOverlay.

(** [regime_configurations], in insertion order. *)
Definition regime_configurations : list (string * Rules) :=
  [ ("crisis_opportunity"%string,
     mkRules (Some (50, Inf)) (Some (-15.0)) (Some [20; 35; 50]) (Some [25; 50; 100])
       (Some 2.5) (Some [3.0; 5.0; 7.0]) (Some 4%Z)
       (Some "Crisis: Erweiterte Stops + Aggressive Profit-Taking"%string));
    ("high_vol_stress"%string,
     mkRules (Some (30, Fin 50)) (Some (-12.0)) (Some [15; 28; 45]) (Some [25; 50; 100])
       (Some 2.0) (Some [2.5; 4.0; 6.0]) (Some 3%Z)
       (Some "High-Vol: Moderate Balance beider Komponenten"%string));
    ("bull_normal"%string,
     mkRules (Some (15, Fin 30)) (Some (-8.0)) (Some [12; 25; 40]) (Some [25; 50; 100])
       (Some 1.8) (Some [2.0; 3.5; 5.5]) (Some 3%Z)
       (Some "Bull: Standard defensive + moderate offensive"%string));
    ("low_vol_complacency"%string,
     mkRules (Some (0, Fin 15)) (Some (-5.0)) (Some [8; 15; 25]) (Some [30; 60; 100])
       (Some 1.2) (Some [1.8; 3.0; 4.5]) (Some 2%Z)
       (Some "Low-Vol: Enge Stops + frühe Gewinnmitnahme"%string)) ].

(** [d[key]] on a dictionary kept in insertion order. *)
Fixpoint getitem {A} (d : list (string * A)) (key : string) : Py.Res A :=
  match d with
  | [] => inl (Py.KeyError key)
  | (k, v) :: d' => if bool_decide (k = key) then inr v else getitem d' key
  end.

(** The loop of [classify_regime] over [items()]. *)
Fixpoint classify_regime_in (items : list (string * Rules)) (vix_level : Q) : Py.Res string :=
  match items with
  | [] => inr "bull_normal"%string
  | (regime, config) :: items' =>
      let? (vix_min, vix_max) := Py.item "vix_range" (vix_range config) in
      if Py.le vix_min vix_level && lt_bound vix_level vix_max
      then inr regime
      else classify_regime_in items' vix_level
  end.

Definition classify_regime (vix_level : Q) : Py.Res string :=
  classify_regime_in regime_configurations vix_level.

Inductive method : Type := tr_based | pct_based.

(** The dictionary returned by [calculate_dynamic_stop]. *)
Record DynamicStop : Type := mkDynamicStop {
  ds_price : Q;
  ds_pct : Q;
  ds_method : method
}.

Definition calculate_dynamic_stop (entry_price : Q) (config : Rules) (true_range : Q)
    (t2108_level : option Q) : Py.Res DynamicStop :=
  let? base_stop_pct := Py.item "stop_loss_pct" (stop_loss_pct config) in
  let? m := Py.item "tr_stop_multiplier" (tr_stop_multiplier config) in
  let? d := Py.div (true_range * m) entry_price in
  let tr_stop_pct := - d * 100 in
  let final_stop_pct := Py.min base_stop_pct tr_stop_pct in
  let final_stop_pct :=
    match t2108_level with
    | Some t2108_level =>
        if Py.lt t2108_level 20 then final_stop_pct * 0.8
        else if Py.gt t2108_level 60 then final_stop_pct * 1.2
        else final_stop_pct
    | None => final_stop_pct
    end in
  inr (mkDynamicStop (entry_price * (1 + final_stop_pct / 100)) final_stop_pct
         (if Py.lt tr_stop_pct base_stop_pct then tr_based else pct_based)).

(** One element of the list returned by [calculate_dynamic_profits]. *)
Record ProfitTarget : Type := mkProfitTarget {
  pt_level : nat;
  pt_price : Q;
  pt_pct : Q;
  pt_position_to_close : Q;
  pt_method : method
}.

(** The body of the loop of [calculate_dynamic_profits] at index [i]. *)
Definition profit_target_at (entry_price : Q) (config : Rules) (true_range : Q)
    (i : nat) (base_pct tr_multiplier : Q) : Py.Res ProfitTarget :=
  let base_target := entry_price * (1 + base_pct / 100) in
  let tr_target := entry_price + true_range * tr_multiplier in
  let final_price := Py.max base_target tr_target in
  let? d := Py.div (final_price - entry_price) entry_price in
  let final_pct := d * 100 in
  let? scaling := Py.item "position_scaling" (position_scaling config) in
  let? s_i := Py.index scaling i in
  let? s_prev := (if bool_decide (0 < i)%nat then Py.index scaling (i - 1) else inr 0) in
  inr (mkProfitTarget (i + 1) final_price final_pct (s_i - s_prev)
         (if Py.gt tr_target base_target then tr_based else pct_based)).

Fixpoint profit_targets_from (entry_price : Q) (config : Rules) (true_range : Q)
    (i : nat) (pairs : list (Q * Q)) : Py.Res (list ProfitTarget) :=
  match pairs with
  | [] => inr []
  | (base_pct, tr_multiplier) :: pairs' =>
      let? t := profit_target_at entry_price config true_range i base_pct tr_multiplier in
      let? ts := profit_targets_from entry_price config true_range (S i) pairs' in
      inr (t :: ts)
  end.

Definition calculate_dynamic_profits (entry_price : Q) (config : Rules) (true_range : Q)
    : Py.Res (list ProfitTarget) :=
  let? levels := Py.item "profit_levels" (profit_levels config) in
  let? multipliers := Py.item "tr_profit_multipliers" (tr_profit_multipliers config) in
  profit_targets_from entry_price config true_range 0 (zip levels multipliers).

(** *** The daily loop of the overlay *)

(** [d[key]] on a price dictionary. *)
Definition getkey (key : string) (d : gmap string Q) : Py.Res Q :=
  match d !! key with
  | Some v => inr v
  | None => inl (Py.KeyError key)
  end.

Definition calculate_true_range (price_data : list (gmap string Q)) : Py.Res Q :=
  if bool_decide (length price_data < 2)%nat then
    let? day0 := Py.index price_data 0 in
    let? high := getkey "high" day0 in
    let? low := getkey "low" day0 in
    inr (high - low)
  else
    let? day1 := Py.index price_data 1 in
    let? high := getkey "high" day1 in
    let? low := getkey "low" day1 in
    let tr1 := high - low in
    let? day0 := Py.index price_data 0 in
    let? close := getkey "close" day0 in
    let tr2 := Qabs (high - close) in
    let tr3 := Qabs (low - close) in
    inr (Py.max (Py.max tr1 tr2) tr3).

(** Entries of [execution_log]. *)
Inductive LogEntry : Type :=
  | STOP_LOSS_TRIGGERED (day : nat) (price position_affected pnl_impact : Q)
  | PROFIT_TAKING (level day : nat) (price position_affected pnl_impact profit_pct : Q).

(** The dictionary [results] of [execute_integrated_overlay] during its
    loop. *)
Record Results : Type := mkResults {
  res_regime : string;
  res_entry_price : Q;
  res_stop_level : Q;
  res_profit_targets : list Q;
  res_stop_triggered : bool;
  res_profit_levels_hit : list nat;
  res_remaining_position : Q;
  res_total_return : Q;
  res_exit_reason : string;
  res_execution_log : list LogEntry;
  res_regime_adjusted : option bool;
  res_new_regime : option string
}.

(** The dictionary returned by [process_daily_prices]: the keys to
    overwrite; [None] is a key it does not carry. *)
Record DayResults : Type := mkDayResults {
  day_stop_triggered : option bool;
  day_profit_levels_hit : option (list nat);
  day_remaining_position : option Q;
  day_total_return : option Q;
  day_exit_reason : option string;
  day_execution_log : option (list LogEntry)
}.

(** [results.update(day_results)] *)
Definition results_update (results : Results) (day_results : DayResults) : Results :=
  mkResults (res_regime results) (res_entry_price results) (res_stop_level results)
    (res_profit_targets results)
    (default (res_stop_triggered results) (day_stop_triggered day_results))
    (default (res_profit_levels_hit results) (day_profit_levels_hit day_results))
    (default (res_remaining_position results) (day_remaining_position day_results))
    (default (res_total_return results) (day_total_return day_results))
    (default (res_exit_reason results) (day_exit_reason day_results))
    (default (res_execution_log results) (day_execution_log day_results))
    (res_regime_adjusted results) (res_new_regime results).

(** PRIORITAET 2 of [process_daily_prices]: the loop over
    [enumerate(profit_levels)] from index [i] on; it returns at the first
    level that executes. *)
Fixpoint process_profit_levels (day : nat) (high : Q) (current_results : Results)
    (i : nat) (profit_levels : list ProfitTarget) : Py.Res DayResults :=
  match profit_levels with
  | [] =>
      inr (mkDayResults None None None None None
             (Some (res_execution_log current_results ++ [])))
  | profit_target :: profit_levels' =>
      if Py.ge high (pt_price profit_target)
         && bool_decide (i ∉ res_profit_levels_hit current_results)
         && Py.gt (res_remaining_position current_results) 0
      then
        let position_to_close := pt_position_to_close profit_target in
        let? profit_per_unit :=
          Py.div (pt_price profit_target - res_entry_price current_results)
            (res_entry_price current_results) in
        let profit_realized := profit_per_unit * (position_to_close / 100) in
        let execution_log :=
          [PROFIT_TAKING (i + 1) (day + 1) (pt_price profit_target) position_to_close
             profit_realized (profit_per_unit * 100)] in
        let new_remaining := res_remaining_position current_results - position_to_close in
        let new_total_return := res_total_return current_results + profit_realized in
        let new_levels_hit := res_profit_levels_hit current_results ++ [i] in
        inr (mkDayResults None (Some new_levels_hit) (Some (Py.max 0 new_remaining))
               (Some new_total_return)
               (Some (if Qeq_bool new_remaining 0 then "profit_taking"%string
                      else res_exit_reason current_results))
               (Some (res_execution_log current_results ++ execution_log)))
      else process_profit_levels day high current_results (S i) profit_levels'
  end.

Definition process_daily_prices (day : nat) (price_data : gmap string Q)
    (current_results : Results) (stop_level : DynamicStop)
    (profit_levels : list ProfitTarget) (config : Rules) : Py.Res DayResults :=
  let? low := getkey "low" price_data in
  if Py.le low (ds_price stop_level)
     && negb (res_stop_triggered current_results)
     && Py.gt (res_remaining_position current_results) 0
  then
    let? loss_amount :=
      Py.div (ds_price stop_level - res_entry_price current_results)
        (res_entry_price current_results) in
    let pnl_impact := loss_amount * (res_remaining_position current_results / 100) in
    let execution_log :=
      [STOP_LOSS_TRIGGERED (day + 1) (ds_price stop_level)
         (res_remaining_position current_results) pnl_impact] in
    inr (mkDayResults (Some true) None (Some 0)
           (Some (res_total_return current_results + pnl_impact))
           (Some ("stop_loss_day_" +:+ pretty (day + 1)%nat))
           (Some (res_execution_log current_results ++ execution_log)))
  else
    match profit_levels with
    | [] =>
        inr (mkDayResults None None None None None
               (Some (res_execution_log current_results ++ [])))
    | _ :: _ =>
        let? high := getkey "high" price_data in
        process_profit_levels day high current_results 0 profit_levels
    end.

(** The dictionary returned by [calculate_final_performance]. *)
Record FinalPerformance : Type := mkFinalPerformance {
  fp_total_return_pct : Q;
  fp_annualized_return : Q;
  fp_profit_taking_efficiency : Q;
  fp_risk_management_triggered : bool
}.

Definition calculate_final_performance (results : Results)
    (final_price_data : gmap string Q) : Py.Res FinalPerformance :=
  let? total_return :=
    (if Py.gt (res_remaining_position results) 0 && negb (res_stop_triggered results) then
       let? close := getkey "close" final_price_data in
       let? d := Py.div (close - res_entry_price results) (res_entry_price results) in
       let remaining_pnl := d * (res_remaining_position results / 100) in
       inr (res_total_return results + remaining_pnl)
     else inr (res_total_return results)) in
  inr (mkFinalPerformance (total_return * 100) (total_return * 73)
         (inject_Z (Z.of_nat (length (res_profit_levels_hit results))) / 3)
         (res_stop_triggered results)).

(** [detect_significant_regime_change], [get_updated_vix] and
    [adjust_for_regime_change] are placeholders in the source. *)
Definition detect_significant_regime_change (original_vix : Q) (current_day : nat) : bool :=
  false.

Definition get_updated_vix (day : nat) : Q := 20.0.

(** The dictionary returned by [adjust_for_regime_change]. *)
Record Adjustment : Type := mkAdjustment {
  adj_regime_adjusted : bool;
  adj_new_regime : string
}.

Definition adjust_for_regime_change (current_results : Results) (new_regime : string)
    (entry_price true_range : Q) : Adjustment :=
  mkAdjustment true new_regime.

(** [results.update(adjustment_results)] *)
Definition results_adjust (results : Results) (adjustment_results : Adjustment) : Results :=
  mkResults (res_regime results) (res_entry_price results) (res_stop_level results)
    (res_profit_targets results) (res_stop_triggered results)
    (res_profit_levels_hit results) (res_remaining_position results)
    (res_total_return results) (res_exit_reason results) (res_execution_log results)
    (Some (adj_regime_adjusted adjustment_results))
    (Some (adj_new_regime adjustment_results)).

(** The monitoring loop of [execute_integrated_overlay] over
    [enumerate(daily_prices)], from day index [day] on. *)
Fixpoint monitor (entry_price vix_level true_range : Q) (regime : string)
    (day : nat) (daily_prices : list (gmap string Q)) (results : Results)
    (stop_level : DynamicStop) (profit_levels : list ProfitTarget) (config : Rules)
    : Py.Res Results :=
  match daily_prices with
  | [] => inr results
  | price_data :: daily_prices' =>
      let? day_results :=
        process_daily_prices day price_data results stop_level profit_levels config in
      let results := results_update results day_results in
      if res_stop_triggered results || Qeq_bool (res_remaining_position results) 0
      then inr results
      else
        let? results :=
          (if bool_decide (0 < day)%nat && detect_significant_regime_change vix_level day
           then
             let? new_regime := classify_regime (get_updated_vix day) in
             if bool_decide (new_regime <> regime)
             then inr (results_adjust results
                         (adjust_for_regime_change results new_regime entry_price true_range))
             else inr results
           else inr results) in
        monitor entry_price vix_level true_range regime (S day) daily_prices' results
          stop_level profit_levels config
  end.

(** [execute_integrated_overlay]; its first argument [trade_data] is not
    read.  The result is the final [results] with its ["final_performance"]
    entry beside it. *)
Definition execute_integrated_overlay (entry_price : Q) (daily_prices : list (gmap string Q))
    (vix_level : Q) (t2108_level momentum_ratio : option Q)
    : Py.Res (Results * FinalPerformance) :=
  let? regime := classify_regime vix_level in
  let? config := getitem regime_configurations regime in
  let? true_range := calculate_true_range (take 2 daily_prices) in
  let? stop_level := calculate_dynamic_stop entry_price config true_range t2108_level in
  let? profit_levels := calculate_dynamic_profits entry_price config true_range in
  let results :=
    mkResults regime entry_price (ds_price stop_level) (map pt_price profit_levels)
      false [] 100 0 "original_system" [] None None in
  let? results :=
    monitor entry_price vix_level true_range regime 0 daily_prices results stop_level
      profit_levels config in
  let? final_price_data :=
    (match last daily_prices with
     | Some d => inr d
     | None => inl Py.IndexError
     end) in
  let? final_performance := calculate_final_performance results final_price_data in
  inr (results, final_performance).

End IntegratedRiskOverlay.


(** ** profit_taking_system.py *)

Module RegimeProfitTakingManager.

(** An entry of [regime_rules]; every entry has all three lists. *)
Record Rules : Type := mkRules {
  profit_levels : list Q;
  position_scaling : list Q;
  true_range_multipliers : list Q;
  description : string
}.

Definition regime_rules : list (string * Rules) :=
  [ ("crisis_opportunity"%string,
     mkRules [20; 35; 50] [25; 50; 100] [3.0; 5.0; 7.0]
       "Crisis: Aggressive Profit-Taking für Rebound-Opportunities");
    ("high_vol_stress"%string,
     mkRules [15; 28; 45] [25; 50; 100] [2.5; 4.0; 6.0]
       "High-Vol: Moderate Profit-Taking bei Volatilität");
    ("bull_normal"%string,
     mkRules [12; 25; 40] [25; 50; 100] [2.0; 3.5; 5.5]
       "Bull: Standard Profit-Taking für normale Bedingungen");
    ("low_vol_complacency"%string,
     mkRules [8; 15; 25] [30; 60; 100] [1.8; 3.0; 4.5]
       "Low-Vol: Konservative Profit-Taking bei geringer Volatilität") ].

Definition classify_regime (vix_level : Q) : string :=
  if Py.ge vix_level 50 then "crisis_opportunity"
  else if Py.ge vix_level 30 then "high_vol_stress"
  else if Py.ge vix_level 15 then "bull_normal"
  else "low_vol_complacency".

(** One element of [profit_targets]. *)
Record ProfitTarget : Type := mkProfitTarget {
  level : nat;
  price_target : Q;
  profit_pct : Q;
  position_to_close : Q;
  cumulative_closed : Q;
  remaining_position : Q;
  base_target : Q;
  tr_target : Q;
  method : IntegratedRiskOverlay.method
}.

(** The loop of [calculate_profit_levels]: [profit_targets] is the list
    built so far, which the body reads back at index [i-1]. *)
Fixpoint profit_targets_from (entry_price true_range : Q) (i : nat)
    (triples : list (Q * Q * Q)) (profit_targets : list ProfitTarget)
    : Py.Res (list ProfitTarget) :=
  match triples with
  | [] => inr profit_targets
  | (base_pct, position_pct, tr_multiplier) :: triples' =>
      let base_target := entry_price * (1 + base_pct / 100) in
      let tr_target := entry_price + true_range * tr_multiplier in
      let final_target := Py.max base_target tr_target in
      let? d := Py.div (final_target - entry_price) entry_price in
      let final_pct := d * 100 in
      let? prev :=
        (if bool_decide (0 < i)%nat
         then let? t := Py.index profit_targets (i - 1) in inr (position_to_close t)
         else inr 0) in
      profit_targets_from entry_price true_range (S i) triples'
        (profit_targets ++
         [mkProfitTarget (i + 1) final_target final_pct (position_pct - prev)
            position_pct (100 - position_pct) base_target tr_target
            (if Py.gt tr_target base_target
             then IntegratedRiskOverlay.tr_based else IntegratedRiskOverlay.pct_based)])
  end.

(** The dictionary returned by [calculate_profit_levels]. *)
Record ProfitLevels : Type := mkProfitLevels {
  pl_regime : string;
  pl_profit_targets : list ProfitTarget;
  pl_rules_used : Rules
}.

Definition calculate_profit_levels (entry_price vix_level true_range : Q)
    (regime : option string) : Py.Res ProfitLevels :=
  let regime := default (classify_regime vix_level) regime in
  let? rules := IntegratedRiskOverlay.getitem regime_rules regime in
  let? profit_targets :=
    profit_targets_from entry_price true_range 0
      (zip (zip (profit_levels rules) (position_scaling rules)) (true_range_multipliers rules))
      [] in
  inr (mkProfitLevels regime profit_targets rules).

(** *** simulate_profit_taking *)

(** One element of [executed_levels]. *)
Record Executed : Type := mkExecuted {
  ex_level : nat;
  ex_day : nat;
  ex_price : Q;
  ex_position_closed : Q;
  ex_profit_realized : Q;
  ex_profit_pct : Q
}.

(** The local variables of [simulate_profit_taking]. *)
Record Simulation : Type := mkSimulation {
  executed_levels : list Executed;
  sim_remaining_position : Q;
  total_profit : Q
}.

(** The inner loop over [profit_targets] on one day; it stops at the
    first level that executes ([break]). *)
Fixpoint simulate_day (entry_price : Q) (day : nat) (high_price : Q)
    (profit_targets : list ProfitTarget) (sim : Simulation) : Simulation :=
  match profit_targets with
  | [] => sim
  | target :: profit_targets' =>
      if Py.ge high_price (price_target target)
         && bool_decide (level target ∉ map ex_level (executed_levels sim))
      then
        let profit_per_share := price_target target - entry_price in
        let position_closed := position_to_close target in
        let profit_realized := profit_per_share * (position_closed / 100) in
        mkSimulation
          (executed_levels sim ++
           [mkExecuted (level target) (day + 1) (price_target target) position_closed
              profit_realized (profit_pct target)])
          (remaining_position target)
          (total_profit sim + profit_realized)
      else simulate_day entry_price day high_price profit_targets' sim
  end.

(** The outer loop over [enumerate(daily_highs)], from day index [day]. *)
Fixpoint simulate_days (entry_price : Q) (day : nat) (daily_highs : list Q)
    (profit_targets : list ProfitTarget) (sim : Simulation) : Simulation :=
  match daily_highs with
  | [] => sim
  | high_price :: daily_highs' =>
      simulate_days entry_price (S day) daily_highs' profit_targets
        (simulate_day entry_price day high_price profit_targets sim)
  end.

(** The result carries [executed_levels], [remaining_position],
    [total_profit_realized]; [partial_exits] is the length of the first. *)
Definition simulate_profit_taking (entry_price : Q) (daily_highs : list Q)
    (profit_targets : list ProfitTarget) : Simulation :=
  simulate_days entry_price 0 daily_highs profit_targets (mkSimulation [] 100 0).

End RegimeProfitTakingManager.

(** ** stop_loss_matrix.py *)

Module RegimeStopLossManager.

(** An entry of [regime_rules]. *)
Record Rules : Type := mkRules {
  vix_range : Q * bound;
  stop_loss_pct : Q;
  true_range_multiplier : Q;
  description : string
}.

Definition regime_rules : list (string * Rules) :=
  [ ("crisis_opportunity"%string,
     mkRules (50, Inf) (-15.0) 2.5
       "Crisis-Regime: Erweiterte Stops für Rebound-Opportunities");
    ("high_vol_stress"%string,
     mkRules (30, Fin 50) (-12.0) 2.0
       "High-Volatility: Moderate Stops bei erhöhtem Risiko");
    ("bull_normal"%string,
     mkRules (15, Fin 30) (-8.0) 1.8
       "Bull-Normal: Standard Stops für normale Marktbedingungen");
    ("low_vol_complacency"%string,
     mkRules (0, Fin 15) (-5.0) 1.2
       "Low-Vol: Enge Stops bei geringer Volatilität") ].

(** The loop of [classify_regime] over [items()]. *)
Fixpoint classify_regime_in (items : list (string * Rules)) (vix_level : Q) : string :=
  match items with
  | [] => "bull_normal"
  | (regime, rules) :: items' =>
      let '(vix_min, vix_max) := vix_range rules in
      if Py.le vix_min vix_level && lt_bound vix_level vix_max
      then regime
      else classify_regime_in items' vix_level
  end.

Definition classify_regime (vix_level : Q) : string :=
  classify_regime_in regime_rules vix_level.

(** The dictionary returned by [calculate_stop_level]. *)
Record StopLevel : Type := mkStopLevel {
  stop_level : Q;
  stop_pct : Q;
  regime : string;
  base_stop : Q;
  tr_adjustment : Q
}.

Definition calculate_stop_level (entry_price vix_level true_range : Q)
    (t2108_level : option Q) : Py.Res StopLevel :=
  let regime := classify_regime vix_level in
  let? rules := IntegratedRiskOverlay.getitem regime_rules regime in
  let base_stop_pct := stop_loss_pct rules in
  let tr_adjustment := true_range * true_range_multiplier rules in
  let? d := Py.div tr_adjustment entry_price in
  let tr_stop_pct := - d * 100 in
  let final_stop_pct := Py.min base_stop_pct tr_stop_pct in
  let final_stop_pct :=
    match t2108_level with
    | Some t2108_level =>
        if Py.lt t2108_level 20 then final_stop_pct * 0.8
        else if Py.gt t2108_level 60 then final_stop_pct * 1.2
        else final_stop_pct
    | None => final_stop_pct
    end in
  inr (mkStopLevel (entry_price * (1 + final_stop_pct / 100)) final_stop_pct regime
         base_stop_pct tr_stop_pct).

End RegimeStopLossManager.

(** ** multilayer_backtesting_simple.py *)

Module MultiLayerBacktester.

(** An element of [trade_results], by the two keys
    [analyze_regime_performance] reads with [get]; [None] is a missing
    key. *)
Record Trade : Type := mkTrade {
  tr_regime : option string;
  tr_return_pct : option Q
}.

(** An entry of [regime_stats]; [avg_return] is set by the second loop. *)
Record RegimeStats : Type := mkRegimeStats {
  rs_trades : nat;
  rs_total_return : Q;
  rs_avg_return : option Q
}.

(** The body of the first loop of [analyze_regime_performance]. *)
Definition count_trade (regime_stats : gmap string RegimeStats) (trade : Trade)
    : gmap string RegimeStats :=
  let regime := default "unknown" (tr_regime trade) in
  let regime_stats :=
    if bool_decide (is_Some (regime_stats !! regime)) then regime_stats
    else <[regime := mkRegimeStats 0 0.0 None]> regime_stats in
  let regime_stats :=
    alter (fun stats =>
      mkRegimeStats (rs_trades stats + 1) (rs_total_return stats) (rs_avg_return stats))
      regime regime_stats in
  alter (fun stats =>
    mkRegimeStats (rs_trades stats)
      (rs_total_return stats + default 0.0 (tr_return_pct trade)) (rs_avg_return stats))
    regime regime_stats.

(** The body of the second loop. *)
Definition with_average (stats : RegimeStats) : RegimeStats :=
  mkRegimeStats (rs_trades stats) (rs_total_return stats)
    (Some (if bool_decide (0 < rs_trades stats)%nat
           then rs_total_return stats / inject_Z (Z.of_nat (rs_trades stats))
           else 0.0)).

(** [trade_results] is [backtest_results.get("trade_results", [])]. *)
Definition analyze_regime_performance (trade_results : list Trade)
    : gmap string RegimeStats :=
  with_average <$> foldl count_trade ∅ trade_results.

(** The regime under which a trade is counted, and what the first loop
    does to the entry of that regime. *)
Definition regime_of (trade : Trade) : string :=
  default "unknown" (tr_regime trade).

Definition count_in (entry : option RegimeStats) (trade : Trade) : option RegimeStats :=
  let stats := default (mkRegimeStats 0 0.0 None) entry in
  Some (mkRegimeStats (rs_trades stats + 1)
          (rs_total_return stats + default 0.0 (tr_return_pct trade)) (rs_avg_return stats)).

End MultiLayerBacktester.

(** ** ultimate_implementation.py *)

Module TradePosition.

(** The dataclass [TradePosition] ([entry_date] left out). *)
Record t : Type := mk {
  symbol : string;
  entry_price : Q;
  position_size : Q;
  regime_at_entry : string;
  vix_at_entry : Q;
  stop_level : Q;
  profit_levels : list Q;
  profit_scales : list Q;
  stop_triggered : bool;
  profit_levels_hit : list nat;
  remaining_position : Q;
  realized_pnl : Q;
  max_profit_seen : Q;
  max_loss_seen : Q;
  days_held : Z
}.

(** [TradePosition(symbol=.., entry_price=.., position_size=..,
    regime_at_entry=.., vix_at_entry=.., stop_level=.., profit_levels=..,
    profit_scales=..)]: the tracking fields take their defaults. *)
Definition new (symbol : string) (entry_price position_size : Q) (regime_at_entry : string)
    (vix_at_entry stop_level : Q) (profit_levels profit_scales : list Q) : t :=
  mk symbol entry_price position_size regime_at_entry vix_at_entry stop_level
     profit_levels profit_scales false [] 100.0 0.0 0.0 0.0 0.

(** Attribute assignments. *)
Definition with_stop_level (v : Q) (p : t) : t :=
  mk (symbol p) (entry_price p) (position_size p) (regime_at_entry p) (vix_at_entry p)
     v (profit_levels p) (profit_scales p) (stop_triggered p) (profit_levels_hit p)
     (remaining_position p) (realized_pnl p) (max_profit_seen p) (max_loss_seen p) (days_held p).
Definition with_stop_triggered (v : bool) (p : t) : t :=
  mk (symbol p) (entry_price p) (position_size p) (regime_at_entry p) (vix_at_entry p)
     (stop_level p) (profit_levels p) (profit_scales p) v (profit_levels_hit p)
     (remaining_position p) (realized_pnl p) (max_profit_seen p) (max_loss_seen p) (days_held p).
Definition with_profit_levels_hit (v : list nat) (p : t) : t :=
  mk (symbol p) (entry_price p) (position_size p) (regime_at_entry p) (vix_at_entry p)
     (stop_level p) (profit_levels p) (profit_scales p) (stop_triggered p) v
     (remaining_position p) (realized_pnl p) (max_profit_seen p) (max_loss_seen p) (days_held p).
Definition with_remaining_position (v : Q) (p : t) : t :=
  mk (symbol p) (entry_price p) (position_size p) (regime_at_entry p) (vix_at_entry p)
     (stop_level p) (profit_levels p) (profit_scales p) (stop_triggered p) (profit_levels_hit p)
     v (realized_pnl p) (max_profit_seen p) (max_loss_seen p) (days_held p).
Definition with_realized_pnl (v : Q) (p : t) : t :=
  mk (symbol p) (entry_price p) (position_size p) (regime_at_entry p) (vix_at_entry p)
     (stop_level p) (profit_levels p) (profit_scales p) (stop_triggered p) (profit_levels_hit p)
     (remaining_position p) v (max_profit_seen p) (max_loss_seen p) (days_held p).
Definition with_max_profit_seen (v : Q) (p : t) : t :=
  mk (symbol p) (entry_price p) (position_size p) (regime_at_entry p) (vix_at_entry p)
     (stop_level p) (profit_levels p) (profit_scales p) (stop_triggered p) (profit_levels_hit p)
     (remaining_position p) (realized_pnl p) v (max_loss_seen p) (days_held p).
Definition with_max_loss_seen (v : Q) (p : t) : t :=
  mk (symbol p) (entry_price p) (position_size p) (regime_at_entry p) (vix_at_entry p)
     (stop_level p) (profit_levels p) (profit_scales p) (stop_triggered p) (profit_levels_hit p)
     (remaining_position p) (realized_pnl p) (max_profit_seen p) v (days_held p).
Definition with_days_held (v : Z) (p : t) : t :=
  mk (symbol p) (entry_price p) (position_size p) (regime_at_entry p) (vix_at_entry p)
     (stop_level p) (profit_levels p) (profit_scales p) (stop_triggered p) (profit_levels_hit p)
     (remaining_position p) (realized_pnl p) (max_profit_seen p) (max_loss_seen p) v.

End TradePosition.

Module UltimateRiskManager.

(** Entries of [trade_history]. *)
Record OpeningLog : Type := mkOpeningLog {
  ol_symbol : string;
  ol_entry_price : Q;
  ol_regime : string;
  ol_vix : Q;
  ol_stop_level : Q;
  ol_profit_targets : list Q;
  ol_adjustments_applied : string
}.

Record ClosingLog : Type := mkClosingLog {
  cl_symbol : string;
  cl_entry_price : Q;
  cl_exit_price : Q;
  cl_total_return_pct : Q;
  cl_days_held : Z;
  cl_reason : string;
  cl_regime_at_entry : string;
  cl_profit_levels_hit : nat;
  cl_stop_triggered : bool;
  cl_max_profit_seen : Q;
  cl_max_loss_seen : Q
}.

Inductive TradeLog : Type :=
  | POSITION_OPENED (l : OpeningLog)
  | POSITION_CLOSED (l : ClosingLog).

(** Entries of [actions_taken]. *)
Inductive Action : Type :=
  | STOP_LOSS_EXECUTED (price position_closed pnl : Q) (reason : string)
  | PROFIT_TAKING_LEVEL (n : nat) (price position_closed remaining_position pnl profit_pct : Q)
  | REGIME_ADJUSTMENT (old_regime new_regime : string) (old_stop new_stop : Q)
      (adjustment_reason : string)
  | TIME_BASED_EXIT (price position_closed pnl : Q) (reason : string).

(** The dictionary returned by [open_position]. *)
Record OpenResult : Type := mkOpenResult {
  or_position_id : string;
  or_entry_price : Q;
  or_regime : string;
  or_stop_level : Q;
  or_stop_distance_pct : Q;
  or_profit_targets : list Q;
  or_expected_hold_days : Z;
  or_regime_transition_detected : bool;
  or_market_adjustments : string
}.

(** The dictionary returned by [update_position], by [position_status]. *)
Inductive UpdateResult : Type :=
  | CLOSED (symbol : string) (actions : list Action) (final_pnl : Q) (days_held : Z)
  | ACTIVE (symbol : string) (actions : list Action)
      (current_pnl realized_pnl remaining_position : Q) (days_held : Z)
      (max_profit_seen max_loss_seen : Q).

Definition is_closed (r : UpdateResult) : bool :=
  match r with
  | CLOSED _ _ _ _ => true
  | ACTIVE _ _ _ _ _ _ _ _ => false
  end.

Definition actions_of (r : UpdateResult) : list Action :=
  match r with
  | CLOSED _ a _ _ => a
  | ACTIVE _ a _ _ _ _ _ _ => a
  end.

(** The ['action'] entry of an element of [actions_taken]. *)
Definition action_name (a : Action) : string :=
  match a with
  | STOP_LOSS_EXECUTED _ _ _ _ => "STOP_LOSS_EXECUTED"
  | PROFIT_TAKING_LEVEL n _ _ _ _ _ => "PROFIT_TAKING_LEVEL_" +:+ pretty n
  | REGIME_ADJUSTMENT _ _ _ _ _ => "REGIME_ADJUSTMENT"
  | TIME_BASED_EXIT _ _ _ _ => "TIME_BASED_EXIT"
  end.

(** The mutable state of an [UltimateRiskManager].  [regime_manager] is the
    very object the stop manager was built with, so it is kept once, inside
    [stop_manager].  [max_position_size] is
    [config["position_sizing"]["max_position_size"]]. *)
Record t : Type := mk {
  max_position_size : Q;
  stop_manager : AdaptiveStopManager;
  active_positions : gmap string TradePosition.t;
  performance_history : list Q;
  trade_history : list TradeLog;
  regime_history : list RegimeType;
  current_market_state : option MarketState;
  previous_market_state : option MarketState
}.

(** [UltimateRiskManager()] *)
Definition init : t :=
  mk 100.0 AdaptiveStopManager_init ∅ [] [] [] None None.

Definition with_stop_manager (v : AdaptiveStopManager) (self : t) : t :=
  mk (max_position_size self) v (active_positions self) (performance_history self)
     (trade_history self) (regime_history self) (current_market_state self)
     (previous_market_state self).
Definition with_active_positions (v : gmap string TradePosition.t) (self : t) : t :=
  mk (max_position_size self) (stop_manager self) v (performance_history self)
     (trade_history self) (regime_history self) (current_market_state self)
     (previous_market_state self).
Definition with_performance_history (v : list Q) (self : t) : t :=
  mk (max_position_size self) (stop_manager self) (active_positions self) v
     (trade_history self) (regime_history self) (current_market_state self)
     (previous_market_state self).
Definition with_trade_history (v : list TradeLog) (self : t) : t :=
  mk (max_position_size self) (stop_manager self) (active_positions self)
     (performance_history self) v (regime_history self) (current_market_state self)
     (previous_market_state self).
Definition with_current_market_state (v : option MarketState) (self : t) : t :=
  mk (max_position_size self) (stop_manager self) (active_positions self)
     (performance_history self) (trade_history self) (regime_history self) v
     (previous_market_state self).
Definition with_previous_market_state (v : option MarketState) (self : t) : t :=
  mk (max_position_size self) (stop_manager self) (active_positions self)
     (performance_history self) (trade_history self) (regime_history self)
     (current_market_state self) v.

(** [self.regime_manager.m(..)] and [self.stop_manager.m(..)] *)
Definition on_regime_manager {A} (m : Py.M DynamicRegimeManager A) : Py.M t A :=
  Py.zoom stop_manager with_stop_manager (Py.zoom regime_manager set_regime_manager m).
Definition on_stop_manager {A} (m : Py.M AdaptiveStopManager A) : Py.M t A :=
  Py.zoom stop_manager with_stop_manager m.

Definition open_position (symbol : string) (entry_price : Q) (market_data : gmap string Q)
    (position_size : option Q) : Py.M t OpenResult :=
  let* self := Py.get in
  if bool_decide (is_Some (active_positions self !! symbol)) then
    Py.raise (Py.ValueError ("Position " +:+ symbol +:+ " already exists"))
  else
  let position_size := default (max_position_size self) position_size in
  let vix_level := default 20.0 (market_data !! "vix") in
  let t2108_level := market_data !! "t2108" in
  let momentum_ratio := market_data !! "momentum_ratio" in
  let true_range := default (entry_price * 0.02) (market_data !! "true_range") in
  let previous := current_market_state self in
  let current :=
    MarketState_new vix_level t2108_level momentum_ratio
      (Z.of_nat (length (regime_history self)) + 1) in
  let* _ := Py.modify (with_previous_market_state previous) in
  let* _ := Py.modify (with_current_market_state (Some current)) in
  let* regime := Py.lift (IntegratedRiskOverlay.classify_regime vix_level) in
  let* base_rules :=
    Py.lift (IntegratedRiskOverlay.getitem IntegratedRiskOverlay.regime_configurations regime) in
  let* (transition_detected, new_regime, adjustments) :=
    on_regime_manager (detect_regime_transition current previous) in
  let adjusted_rules := apply_dynamic_adjustments base_rules adjustments in
  let* stop_data :=
    on_stop_manager
      (calculate_adaptive_stop symbol entry_price true_range adjusted_rules current previous) in
  let* profit_levels :=
    Py.lift (IntegratedRiskOverlay.calculate_dynamic_profits entry_price adjusted_rules true_range) in
  let position :=
    TradePosition.new symbol entry_price position_size regime vix_level
      (sd_stop_level stop_data)
      (map IntegratedRiskOverlay.pt_price profit_levels)
      (default [25; 50; 100] (position_scaling adjusted_rules)) in
  let* _ := Py.modify (fun self =>
    with_active_positions (<[symbol := position]> (active_positions self)) self) in
  let* _ := Py.modify (fun self =>
    with_trade_history
      (trade_history self ++
       [POSITION_OPENED
          (mkOpeningLog symbol entry_price regime vix_level
             (TradePosition.stop_level position) (TradePosition.profit_levels position)
             (or_none (reason adjustments)))]) self) in
  let* d := Py.lift (Py.div (TradePosition.stop_level position - entry_price) entry_price) in
  Py.ret (mkOpenResult symbol entry_price regime (TradePosition.stop_level position)
            (d * 100) (TradePosition.profit_levels position)
            (default 3%Z (max_hold_override adjusted_rules))
            transition_detected (reason adjustments)).

(** *** update_position

    Inside [update_position] the local [position] is the object stored under
    [symbol] in [active_positions]: an assignment to one of its attributes
    is seen through the dictionary at once, and the object stays readable
    after [_close_position] has deleted the key.  A [Frame] keeps the
    manager, that object and the local list [actions_taken]; on leaving the
    method, by return or by exception, the object is the dictionary's entry
    when the key is still there ([leave]). *)
Record Frame : Type := mkFrame {
  f_self : t;
  f_position : TradePosition.t;
  f_actions_taken : list Action
}.

Definition on_self {A} (m : Py.M t A) : Py.M Frame A :=
  Py.zoom f_self (fun s fr => mkFrame s (f_position fr) (f_actions_taken fr)) m.

(** [position.<attr> = ..] *)
Definition assign (f : TradePosition.t -> TradePosition.t) : Py.M Frame unit :=
  Py.modify (fun fr => mkFrame (f_self fr) (f (f_position fr)) (f_actions_taken fr)).

(** [actions_taken.append(..)] *)
Definition append_action (a : Action) : Py.M Frame unit :=
  Py.modify (fun fr => mkFrame (f_self fr) (f_position fr) (f_actions_taken fr ++ [a])).

Definition the_position : Py.M Frame TradePosition.t :=
  fun fr => (fr, inr (f_position fr)).

Definition leave (symbol : string) (fr : Frame) : t :=
  if bool_decide (is_Some (active_positions (f_self fr) !! symbol))
  then with_active_positions (<[symbol := f_position fr]> (active_positions (f_self fr))) (f_self fr)
  else f_self fr.

Definition _close_position (symbol reason : string) (exit_price : Q) : Py.M Frame unit :=
  let* fr := Py.get in
  if bool_decide (is_Some (active_positions (f_self fr) !! symbol)) then
    let position := f_position fr in
    let total_return_pct := TradePosition.realized_pnl position in
    let* total_return_pct :=
      (if Py.gt (TradePosition.remaining_position position) 0 then
         let* d := Py.lift (Py.div (exit_price - TradePosition.entry_price position)
                              (TradePosition.entry_price position)) in
         let final_pnl := d * (TradePosition.remaining_position position / 100) in
         Py.ret (total_return_pct + final_pnl)
       else Py.ret total_return_pct) in
    let closing_log :=
      mkClosingLog symbol (TradePosition.entry_price position) exit_price
        (total_return_pct * 100) (TradePosition.days_held position) reason
        (TradePosition.regime_at_entry position)
        (length (TradePosition.profit_levels_hit position))
        (TradePosition.stop_triggered position)
        (TradePosition.max_profit_seen position * 100)
        (TradePosition.max_loss_seen position * 100) in
    on_self (Py.modify (fun self =>
      with_active_positions (delete symbol (active_positions self))
        (with_performance_history (performance_history self ++ [total_return_pct])
           (with_trade_history (trade_history self ++ [POSITION_CLOSED closing_log]) self))))
  else Py.ret tt.

(** [return {.., 'position_status': 'CLOSED', ..}] *)
Definition return_closed (symbol : string) : Py.M Frame (option UpdateResult) :=
  let* fr := Py.get in
  Py.ret (Some (CLOSED symbol (f_actions_taken fr)
                  (TradePosition.realized_pnl (f_position fr))
                  (TradePosition.days_held (f_position fr)))).

(** PRIORITY 1: the stop-loss check; [Some] is an early return. *)
Definition check_stop_loss (symbol : string) (low_price : Q) : Py.M Frame (option UpdateResult) :=
  let* position := the_position in
  if Py.le low_price (TradePosition.stop_level position)
     && negb (TradePosition.stop_triggered position)
     && Py.gt (TradePosition.remaining_position position) 0
  then
    let* d := Py.lift (Py.div (TradePosition.stop_level position - TradePosition.entry_price position)
                         (TradePosition.entry_price position)) in
    let stop_pnl := d * (TradePosition.remaining_position position / 100) in
    let* _ := assign (fun p =>
      TradePosition.with_realized_pnl (TradePosition.realized_pnl p + stop_pnl) p) in
    let* _ := assign (TradePosition.with_stop_triggered true) in
    let* _ := assign (TradePosition.with_remaining_position 0) in
    let* position := the_position in
    let* _ := append_action
      (STOP_LOSS_EXECUTED (TradePosition.stop_level position)
         (TradePosition.remaining_position position) stop_pnl "stop_loss_triggered") in
    let* _ := _close_position symbol "stop_loss" (TradePosition.stop_level position) in
    return_closed symbol
  else Py.ret None.

(** PRIORITY 2: the loop over
    [enumerate(zip(position.profit_levels, position.profit_scales))],
    from index [i] on. *)
Fixpoint check_profit_levels (symbol : string) (high_price : Q) (i : nat)
    (pairs : list (Q * Q)) : Py.M Frame (option UpdateResult) :=
  match pairs with
  | [] => Py.ret None
  | (profit_target, scale_pct) :: pairs' =>
      let* position := the_position in
      if Py.ge high_price profit_target
         && bool_decide (i ∉ TradePosition.profit_levels_hit position)
         && Py.gt (TradePosition.remaining_position position) 0
      then
        let* prev :=
          Py.lift (if bool_decide (0 < i)%nat
                   then Py.index (TradePosition.profit_scales position) (i - 1)
                   else inr 0) in
        let position_to_close := scale_pct - prev in
        let* d := Py.lift (Py.div (profit_target - TradePosition.entry_price position)
                             (TradePosition.entry_price position)) in
        let profit_pnl := d * (position_to_close / 100) in
        let* _ := assign (fun p =>
          TradePosition.with_realized_pnl (TradePosition.realized_pnl p + profit_pnl) p) in
        let* _ := assign (fun p =>
          TradePosition.with_profit_levels_hit (TradePosition.profit_levels_hit p ++ [i]) p) in
        let* _ := assign (fun p =>
          TradePosition.with_remaining_position
            (TradePosition.remaining_position p - position_to_close) p) in
        let* position := the_position in
        let* _ := append_action
          (PROFIT_TAKING_LEVEL (i + 1) profit_target position_to_close
             (TradePosition.remaining_position position) profit_pnl (d * 100)) in
        if Py.le (TradePosition.remaining_position position) 0 then
          let* _ := _close_position symbol "profit_taking_complete" profit_target in
          return_closed symbol
        else check_profit_levels symbol high_price (S i) pairs'
      else check_profit_levels symbol high_price (S i) pairs'
  end.

(** PRIORITY 3: regime changes and adjustments. *)
Definition check_regime_changes (market_data : gmap string Q) : Py.M Frame unit :=
  let* fr := Py.get in
  let position := f_position fr in
  let vix_level := default (TradePosition.vix_at_entry position) (market_data !! "vix") in
  if Py.gt (Qabs (vix_level - TradePosition.vix_at_entry position)) 15 then
    let updated_market_state :=
      MarketState_new vix_level (market_data !! "t2108") (market_data !! "momentum_ratio")
        (TradePosition.days_held position) in
    let* (transition_detected, new_regime, adjustments) :=
      on_self (on_regime_manager
        (detect_regime_transition updated_market_state (current_market_state (f_self fr)))) in
    if transition_detected && negb (bool_decide (reason adjustments = "")) then
      let original_stop := TradePosition.stop_level position in
      let stop_distance :=
        Qabs (TradePosition.stop_level position - TradePosition.entry_price position) in
      let new_stop_distance := stop_distance * stop_multiplier adjustments in
      let* _ := assign (TradePosition.with_stop_level
                          (TradePosition.entry_price position - new_stop_distance)) in
      let* position := the_position in
      let* _ := append_action
        (REGIME_ADJUSTMENT (TradePosition.regime_at_entry position)
           (RegimeType_value new_regime) original_stop
           (TradePosition.stop_level position) (reason adjustments)) in
      on_self (Py.modify (with_current_market_state (Some updated_market_state)))
    else Py.ret tt
  else Py.ret tt.

(** PRIORITY 4: the time-based exit, then the final return. *)
Definition check_time_exit (symbol : string) (close_price current_pnl_pct : Q)
    : Py.M Frame UpdateResult :=
  let max_hold_days := 5%Z in
  let* position := the_position in
  if bool_decide (max_hold_days <= TradePosition.days_held position)%Z
     && Py.gt (TradePosition.remaining_position position) 0
  then
    let time_exit_pnl := current_pnl_pct * (TradePosition.remaining_position position / 100) in
    let* _ := assign (fun p =>
      TradePosition.with_realized_pnl (TradePosition.realized_pnl p + time_exit_pnl) p) in
    let* _ := append_action
      (TIME_BASED_EXIT close_price (TradePosition.remaining_position position) time_exit_pnl
         ("max_hold_days_" +:+ pretty max_hold_days +:+ "_reached")) in
    let* _ := assign (TradePosition.with_remaining_position 0) in
    let* _ := _close_position symbol "time_exit" close_price in
    let* fr := Py.get in
    Py.ret (CLOSED symbol (f_actions_taken fr)
              (TradePosition.realized_pnl (f_position fr))
              (TradePosition.days_held (f_position fr)))
  else
    let* fr := Py.get in
    Py.ret (ACTIVE symbol (f_actions_taken fr) current_pnl_pct
              (TradePosition.realized_pnl position)
              (TradePosition.remaining_position position)
              (TradePosition.days_held position)
              (TradePosition.max_profit_seen position)
              (TradePosition.max_loss_seen position)).

(** The body of [update_position] once [position] is bound. *)
Definition update_body (symbol : string) (current_price_data market_data : gmap string Q)
    : Py.M Frame UpdateResult :=
  let* _ := assign (fun p =>
    TradePosition.with_days_held (TradePosition.days_held p + 1)%Z p) in
  let high_price :=
    default (default 0 (current_price_data !! "close")) (current_price_data !! "high") in
  let low_price :=
    default (default 0 (current_price_data !! "close")) (current_price_data !! "low") in
  let close_price := default high_price (current_price_data !! "close") in
  let* position := the_position in
  let entry := TradePosition.entry_price position in
  let* current_pnl_pct := Py.lift (Py.div (close_price - entry) entry) in
  let* dh := Py.lift (Py.div (high_price - entry) entry) in
  let* _ := assign (fun p =>
    TradePosition.with_max_profit_seen (Py.max (TradePosition.max_profit_seen p) dh) p) in
  let* dl := Py.lift (Py.div (low_price - entry) entry) in
  let* _ := assign (fun p =>
    TradePosition.with_max_loss_seen (Py.min (TradePosition.max_loss_seen p) dl) p) in
  let* stopped := check_stop_loss symbol low_price in
  match stopped with
  | Some result => Py.ret result
  | None =>
      let* position := the_position in
      let* taken :=
        check_profit_levels symbol high_price 0
          (zip (TradePosition.profit_levels position) (TradePosition.profit_scales position)) in
      match taken with
      | Some result => Py.ret result
      | None =>
          let* _ := check_regime_changes market_data in
          check_time_exit symbol close_price current_pnl_pct
      end
  end.

Definition update_position (symbol : string) (current_price_data market_data : gmap string Q)
    : Py.M t UpdateResult :=
  fun self =>
    match active_positions self !! symbol with
    | None => (self, inl (Py.ValueError ("Position " +:+ symbol +:+ " not found")))
    | Some position =>
        let '(fr, result) :=
          update_body symbol current_price_data market_data (mkFrame self position []) in
        (leave symbol fr, result)
    end.

(** *** Vocabulary of the ledger properties *)

Definition is_opening (entry : TradeLog) : bool :=
  match entry with
  | POSITION_OPENED _ => true
  | POSITION_CLOSED _ => false
  end.

Definition is_closing (entry : TradeLog) : bool :=
  match entry with
  | POSITION_OPENED _ => false
  | POSITION_CLOSED _ => true
  end.

(** The numbers of openings and of closings recorded in a trade history. *)
Definition openings (history : list TradeLog) : nat :=
  length (List.filter is_opening history).

Definition closings (history : list TradeLog) : nat :=
  length (List.filter is_closing history).

(** The snapshot kept as [current_market_state], if any, was built
    without a regime and so carries the default of the dataclass. *)
Definition market_ok (self : t) : Prop :=
  forall state, current_market_state self = Some state -> regime state = BULL_NORMAL.

(** A stretch of [update_position] that leaves the position open: the
    active set and the two histories are as they were, [days_held] has grown
    by [n], a position of which something remained still has something
    left, and no profit level has been recorded twice. *)
Definition stays (n : Z) (fr fr' : Frame) : Prop :=
  active_positions (f_self fr') = active_positions (f_self fr) /\
  performance_history (f_self fr') = performance_history (f_self fr) /\
  trade_history (f_self fr') = trade_history (f_self fr) /\
  (market_ok (f_self fr) -> market_ok (f_self fr')) /\
  TradePosition.days_held (f_position fr') = (TradePosition.days_held (f_position fr) + n)%Z /\
  (0 < TradePosition.remaining_position (f_position fr) ->
   0 < TradePosition.remaining_position (f_position fr')) /\
  (NoDup (TradePosition.profit_levels_hit (f_position fr)) ->
   NoDup (TradePosition.profit_levels_hit (f_position fr'))).

(** A stretch of [update_position] that closes the position: the key is
    deleted, one return is appended to [performance_history] and one closing
    of that symbol to [trade_history]. *)
Definition closes (symbol : string) (fr fr' : Frame) : Prop :=
  active_positions (f_self fr') = delete symbol (active_positions (f_self fr)) /\
  (market_ok (f_self fr) -> market_ok (f_self fr')) /\
  exists pnl log,
    performance_history (f_self fr') = performance_history (f_self fr) ++ [pnl] /\
    trade_history (f_self fr') = trade_history (f_self fr) ++ [POSITION_CLOSED log] /\
    cl_symbol log = symbol.

(** The outcome of a phase that may return early. *)
Definition phase_summary (symbol : string) (fr fr' : Frame)
    (r : Py.Res (option UpdateResult)) : Prop :=
  match r with
  | inr (Some result) => is_closed result = true /\ closes symbol fr fr'
  | _ => stays 0 fr fr'
  end.

(** The outcome of the body of [update_position], [n] being the days
    added: a result that is not [CLOSED] is reported only while the position
    is younger than five days or has nothing left. *)
Definition body_summary (symbol : string) (n : Z) (fr fr' : Frame)
    (r : Py.Res UpdateResult) : Prop :=
  match r with
  | inr result =>
      if is_closed result then closes symbol fr fr'
      else stays n fr fr' /\
           (0 < TradePosition.remaining_position (f_position fr) ->
            (TradePosition.days_held (f_position fr') < 5)%Z)
  | inl _ => stays n fr fr'
  end.

(** *** Vocabulary of the lifecycle properties *)

(** What every position of the active set satisfies (see
    [reachable_positions]): its stop has not triggered, its entry price is
    not zero, and as long as no profit level was hit nothing is realized
    and the whole position remains. *)
Definition position_ok (p : TradePosition.t) : Prop :=
  TradePosition.stop_triggered p = false /\
  ~ TradePosition.entry_price p == 0 /\
  (TradePosition.profit_levels_hit p = [] ->
   TradePosition.realized_pnl p == 0 /\ TradePosition.remaining_position p == 100).

(** The managers a caller can reach: a fresh one, and what [open_position]
    and [update_position] leave behind, whether they return or raise. *)
Inductive reachable : UltimateRiskManager.t -> Prop :=
  | reach_init : reachable init
  | reach_open self symbol entry_price market_data position_size :
      reachable self ->
      reachable (open_position symbol entry_price market_data position_size self).1
  | reach_update self symbol current_price_data market_data :
      reachable self ->
      reachable (update_position symbol current_price_data market_data self).1.

(** How one phase of [update_position] may leave the frame: the key
    deleted, or the active set as it was with a position that is still
    [position_ok] if it was before. *)
Definition kept (fr fr' : Frame) : Prop :=
  active_positions (f_self fr') = active_positions (f_self fr) /\
  (position_ok (f_position fr) -> position_ok (f_position fr')).

Definition deleted (symbol : string) (fr fr' : Frame) : Prop :=
  active_positions (f_self fr') = delete symbol (active_positions (f_self fr)).

(** The outcome of a phase that may return early. *)
Definition phase_ok (symbol : string) (fr fr' : Frame) (r : Py.Res (option UpdateResult)) : Prop :=
  match r with
  | inr (Some result) => is_closed result = true /\ deleted symbol fr fr'
  | _ => kept fr fr'
  end.

(** The outcome of [update_position]'s body. *)
Definition body_ok (symbol : string) (fr fr' : Frame) (r : Py.Res UpdateResult) : Prop :=
  match r with
  | inr result => if is_closed result then deleted symbol fr fr' else kept fr fr'
  | inl _ => kept fr fr'
  end.

(** [dailyLow] as [update_position] reads it from the price data. *)
Definition low_of (current_price_data : gmap string Q) : Q :=
  default (default 0 (current_price_data !! "close")) (current_price_data !! "low").

End UltimateRiskManager.

(** ** Vocabulary of the properties *)

(** The three emergency conditions, as propositions. *)
Definition is_breadth_collapse (current previous : MarketState) : Prop :=
  exists c p, t2108_level current = Some c /\ t2108_level previous = Some p /\ c - p < -30.

Definition is_volatility_explosion (current previous : MarketState) : Prop :=
  60 < vix_level current /\ 20 < vix_level current - vix_level previous.

Definition is_momentum_collapse (current previous : MarketState) : Prop :=
  exists c p, momentum_ratio current = Some c /\ momentum_ratio previous = Some p /\
              c < 0.1 /\ 1.0 < p.

(** The only division of [detect_regime_transition] is the momentum ratio
    of the two snapshots. *)
Definition momentum_defined (current : MarketState) (previous : option MarketState) : Prop :=
  match previous with
  | Some previous =>
      match momentum_ratio current, momentum_ratio previous with
      | Some _, Some m => ~ m == 0
      | _, _ => True
      end
  | None => True
  end.

(** The amounts closed by a list of profit targets. *)
Definition closed_amounts (targets : list IntegratedRiskOverlay.ProfitTarget) : list Q :=
  map IntegratedRiskOverlay.pt_position_to_close targets.

(** ** services.py

    The checks of [RiskManagementService] made around the core risk
    manager; the service's own call and error logs, which carry wall-clock
    timestamps, are not part of them. *)

Module RiskManagementService.

Module alert_thresholds.
Definition max_drawdown : Q := -15.0.
Definition consecutive_losses : Z := 5.
Definition position_concentration : Q := 25.0.
End alert_thresholds.

(** The dictionary returned by [_validate_position_opening]. *)
Record Validation : Type := mkValidation {
  valid : bool;
  reason : string
}.

(** The list [validation_errors] after the three checks. *)
Definition validation_errors (risk_manager : UltimateRiskManager.t) (symbol : string)
    (entry_price : Q) (market_data : gmap string Q) (position_size : option Q)
    : list string :=
  let validation_errors := [] in
  let validation_errors :=
    if bool_decide (is_Some (UltimateRiskManager.active_positions risk_manager !! symbol))
    then validation_errors ++ ["Position " +:+ symbol +:+ " already exists"]
    else validation_errors in
  let validation_errors :=
    if Py.lt (default 0 (market_data !! "vix")) 5
       || Py.gt (default 0 (market_data !! "vix")) 100
    then validation_errors ++ ["VIX level outside valid range (5-100)"%string]
    else validation_errors in
  let validation_errors :=
    match position_size with
    | Some size =>
        if negb (Qeq_bool size 0) && Py.gt size alert_thresholds.position_concentration
        then validation_errors ++ ["Position size exceeds concentration limit"%string]
        else validation_errors
    | None => validation_errors
    end in
  validation_errors.

Definition _validate_position_opening (risk_manager : UltimateRiskManager.t) (symbol : string)
    (entry_price : Q) (market_data : gmap string Q) (position_size : option Q)
    : Validation :=
  let validation_errors :=
    validation_errors risk_manager symbol entry_price market_data position_size in
  mkValidation (bool_decide (length validation_errors = 0%nat))
    (match validation_errors with
     | [] => "All validations passed"
     | _ :: _ => String.concat "; " validation_errors
     end).

(** [_calculate_position_risk_score]; any exception gives the default
    medium risk. *)
Definition _calculate_position_risk_score (symbol : string) (entry_price : Q)
    (market_data : gmap string Q) : Q :=
  let risk_score := 0.0 in
  let vix := default 20 (market_data !! "vix") in
  let vix_risk := Py.min (vix / 50.0) 1.0 * 40 in
  let risk_score := risk_score + vix_risk in
  let true_range := default (entry_price * 0.02) (market_data !! "true_range") in
  match Py.div true_range entry_price with
  | inl _ => 50.0
  | inr d =>
      let tr_risk := Py.min (d / 0.05) 1.0 * 30 in
      let risk_score := risk_score + tr_risk in
      let momentum := default 1.0 (market_data !! "momentum_ratio") in
      let momentum_risk := Qabs (1.0 - momentum) * 30 in
      let risk_score := risk_score + momentum_risk in
      Py.min risk_score 100.0
  end.

End RiskManagementService.

(** Severity of a regime: its position in the order of the VIX bands. *)
Definition severity (r : RegimeType) : Z :=
  match r with
  | LOW_VOL_COMPLACENCY => 0
  | BULL_NORMAL => 1
  | HIGH_VOL_STRESS => 2
  | CRISIS_OPPORTUNITY => 3
  end.

(** The regime of the VIX band alone: the snapshot without its secondary
    factors. *)
Definition primary_regime (state : MarketState) : RegimeType :=
  _classify_regime_comprehensive
    (mkMarketState (vix_level state) None None (day state) (regime state)).

(** The state of the overlay's daily loop is consistent: between nothing and
    the whole position is left, a triggered stop leaves nothing, no profit
    level below [n] is executed twice, every log entry is one executed level
    or the stop, and the regime-change placeholder has not run. *)
Definition overlay_ok (n : nat) (r : IntegratedRiskOverlay.Results) : Prop :=
  0 <= IntegratedRiskOverlay.res_remaining_position r /\
  IntegratedRiskOverlay.res_remaining_position r <= 100 /\
  (IntegratedRiskOverlay.res_stop_triggered r = true ->
   IntegratedRiskOverlay.res_remaining_position r == 0) /\
  NoDup (IntegratedRiskOverlay.res_profit_levels_hit r) /\
  Forall (fun i => (i < n)%nat) (IntegratedRiskOverlay.res_profit_levels_hit r) /\
  length (IntegratedRiskOverlay.res_execution_log r) =
    (length (IntegratedRiskOverlay.res_profit_levels_hit r)
     + (if IntegratedRiskOverlay.res_stop_triggered r then 1 else 0))%nat /\
  IntegratedRiskOverlay.res_regime_adjusted r = None.

(** A day of OHLC data carrying the three keys the overlay reads. *)
Definition has_prices (price_data : gmap string Q) : Prop :=
  is_Some (price_data !! "high") /\ is_Some (price_data !! "low") /\
  is_Some (price_data !! "close").

(** The state of [simulate_profit_taking] before day index [day]: no level
    is executed twice, the executions happened on distinct earlier days, each
    one at the price of a target of that level, and what remains is the whole
    position or what the target executed last leaves. *)
Definition simulation_ok (profit_targets : list RegimeProfitTakingManager.ProfitTarget)
    (day : nat) (sim : RegimeProfitTakingManager.Simulation) : Prop :=
  let executed := RegimeProfitTakingManager.executed_levels sim in
  NoDup (map RegimeProfitTakingManager.ex_level executed) /\
  NoDup (map RegimeProfitTakingManager.ex_day executed) /\
  Forall (fun e => (1 <= RegimeProfitTakingManager.ex_day e <= day)%nat) executed /\
  Forall (fun e => exists target,
            target ∈ profit_targets /\
            RegimeProfitTakingManager.level target = RegimeProfitTakingManager.ex_level e /\
            RegimeProfitTakingManager.price_target target
              = RegimeProfitTakingManager.ex_price e /\
            RegimeProfitTakingManager.position_to_close target
              = RegimeProfitTakingManager.ex_position_closed e) executed /\
  match last executed with
  | None => RegimeProfitTakingManager.sim_remaining_position sim = 100
  | Some e =>
      exists target,
        target ∈ profit_targets /\
        RegimeProfitTakingManager.level target = RegimeProfitTakingManager.ex_level e /\
        RegimeProfitTakingManager.sim_remaining_position sim
          = RegimeProfitTakingManager.remaining_position target
  end.

(** * Properties *)

(** ** Numerics *)

Example format_f_1 : Py.format_f 1 (-35) = "-35.0"%string.
Proof. reflexivity. Qed.
Example format_f_2 : Py.format_f 2 (1 # 3) = "0.33"%string.
Proof. reflexivity. Qed.
Example format_f_3 : Py.format_f 1 (25 # 100) = "0.2"%string.
Proof. reflexivity. Qed.
Example int_trunc : Py.int (-(7 # 2)) = (-3)%Z.
Proof. reflexivity. Qed.

Lemma le_true a b : Py.le a b = true <-> a <= b.
Proof. apply Qle_bool_iff. Qed.

Lemma le_false a b : Py.le a b = false <-> b < a.
Proof.
  unfold Py.le. split; intros H.
  - apply Qnot_le_lt. intros Hle. apply Qle_bool_iff in Hle. congruence.
  - destruct (Qle_bool a b) eqn:E; [|done].
    apply Qle_bool_iff in E. lra.
Qed.

Lemma ge_true a b : Py.ge a b = true <-> b <= a.
Proof. apply le_true. Qed.

Lemma ge_false a b : Py.ge a b = false <-> a < b.
Proof. apply le_false. Qed.

Lemma lt_true a b : Py.lt a b = true <-> a < b.
Proof.
  unfold Py.lt. rewrite negb_true_iff. apply (le_false b a).
Qed.

Lemma lt_false a b : Py.lt a b = false <-> b <= a.
Proof.
  unfold Py.lt. rewrite negb_false_iff. apply (le_true b a).
Qed.

Lemma gt_true a b : Py.gt a b = true <-> b < a.
Proof. apply lt_true. Qed.

Lemma gt_false a b : Py.gt a b = false <-> a <= b.
Proof. apply lt_false. Qed.

(** Case analysis on one comparison of the goal, leaving its meaning as a
    hypothesis. *)
Ltac cmp_case :=
  match goal with
  | |- context [Py.lt ?a ?b] =>
      let E := fresh "E" in
      destruct (Py.lt a b) eqn:E; [apply lt_true in E | apply lt_false in E]
  | |- context [Py.gt ?a ?b] =>
      let E := fresh "E" in
      destruct (Py.gt a b) eqn:E; [apply gt_true in E | apply gt_false in E]
  | |- context [Py.le ?a ?b] =>
      let E := fresh "E" in
      destruct (Py.le a b) eqn:E; [apply le_true in E | apply le_false in E]
  | |- context [Py.ge ?a ?b] =>
      let E := fresh "E" in
      destruct (Py.ge a b) eqn:E; [apply ge_true in E | apply ge_false in E]
  end.

Lemma max_spec a b : (a < b /\ Py.max a b = b) \/ (b <= a /\ Py.max a b = a).
Proof. unfold Py.max. cmp_case; [left | right]; done. Qed.

Lemma min_spec a b : (b < a /\ Py.min a b = b) \/ (a <= b /\ Py.min a b = a).
Proof. unfold Py.min. cmp_case; [left | right]; done. Qed.

Lemma div_ok a b : ~ b == 0 -> Py.div a b = inr (a / b).
Proof.
  intros H. unfold Py.div.
  destruct (Qeq_bool b 0) eqn:E; [|done].
  apply Qeq_bool_iff in E. contradiction.
Qed.

Lemma div_zero a b : b == 0 -> Py.div a b = inl Py.ZeroDivisionError.
Proof.
  intros H. unfold Py.div.
  apply Qeq_bool_iff in H. by rewrite H.
Qed.

Lemma div_inv a b r : Py.div a b = r ->
  (b == 0 /\ r = inl Py.ZeroDivisionError) \/ (~ b == 0 /\ r = inr (a / b)).
Proof.
  intros <-. unfold Py.div.
  destruct (Qeq_bool b 0) eqn:E.
  - left. by apply Qeq_bool_iff in E.
  - right. split; [|done]. intros H. apply Qeq_bool_iff in H. congruence.
Qed.

(** The hard bounds of the adaptive stop: whatever enters, the result of
    the two clamps is in [-25, -2]. *)
Lemma clamp_bounds x : -25 <= Py.min (Py.max x (-25.0)) (-2.0) <= -2.
Proof.
  destruct (max_spec x (-25.0)) as [[H1 ->] | [H1 ->]];
  (match goal with |- context [Py.min ?u ?v] =>
     destruct (min_spec u v) as [[H2 ->] | [H2 ->]] end);
  lra.
Qed.

(** ** Regime classification *)

Section Classifier.

Import IntegratedRiskOverlay.

Lemma classify_primary (state : MarketState) :
  t2108_level state = None \/ momentum_ratio state = None ->
  _classify_regime_comprehensive state =
    if Py.ge (vix_level state) 50 then CRISIS_OPPORTUNITY
    else if Py.ge (vix_level state) 30 then HIGH_VOL_STRESS
    else if Py.ge (vix_level state) 15 then BULL_NORMAL
    else LOW_VOL_COMPLACENCY.
Proof.
  unfold _classify_regime_comprehensive.
  intros [-> | ->]; [done|]. by destruct (t2108_level state).
Qed.

(** C8. Without secondary factors the classifier follows the VIX bands
    [0,15), [15,30), [30,50), [50,oo), each closed on the left and open on
    the right; [DynamicRegimeManager._classify_regime_comprehensive] and
    [IntegratedRiskOverlay.classify_regime] agree on them. *)
Theorem classify_regime_vix_bands (state : MarketState) :
  t2108_level state = None \/ momentum_ratio state = None ->
  0 <= vix_level state ->
  let vix := vix_level state in
  (vix < 15 ->
     _classify_regime_comprehensive state = LOW_VOL_COMPLACENCY /\
     classify_regime vix = inr (RegimeType_value LOW_VOL_COMPLACENCY)) /\
  (15 <= vix -> vix < 30 ->
     _classify_regime_comprehensive state = BULL_NORMAL /\
     classify_regime vix = inr (RegimeType_value BULL_NORMAL)) /\
  (30 <= vix -> vix < 50 ->
     _classify_regime_comprehensive state = HIGH_VOL_STRESS /\
     classify_regime vix = inr (RegimeType_value HIGH_VOL_STRESS)) /\
  (50 <= vix ->
     _classify_regime_comprehensive state = CRISIS_OPPORTUNITY /\
     classify_regime vix = inr (RegimeType_value CRISIS_OPPORTUNITY)).
Proof.
  intros Hsec Hpos vix. subst vix. rewrite (classify_primary _ Hsec).
  unfold classify_regime, regime_configurations; cbn -[Py.le Py.lt Py.ge].
  repeat split; intros;
    repeat (cmp_case; try lra; cbn -[Py.le Py.lt Py.ge]); done.
Qed.

(** The boundary values of C8, by evaluation. *)
Lemma classify_regime_vix_bands_witness :
  let at_vix v := MarketState_new v None None 1 in
  (_classify_regime_comprehensive (at_vix 15) = BULL_NORMAL /\
   classify_regime 15 = inr "bull_normal"%string) /\
  (_classify_regime_comprehensive (at_vix 30) = HIGH_VOL_STRESS /\
   classify_regime 30 = inr "high_vol_stress"%string) /\
  (_classify_regime_comprehensive (at_vix 50) = CRISIS_OPPORTUNITY /\
   classify_regime 50 = inr "crisis_opportunity"%string).
Proof.
  intros at_vix.
  pose proof (classify_regime_vix_bands (at_vix 15) (or_introl eq_refl)) as H15.
  pose proof (classify_regime_vix_bands (at_vix 30) (or_introl eq_refl)) as H30.
  pose proof (classify_regime_vix_bands (at_vix 50) (or_introl eq_refl)) as H50.
  split; [|split].
  - apply H15; simpl; lra.
  - apply H30; simpl; lra.
  - apply H50; simpl; lra.
Defined.

End Classifier.

Example classify_regime_15 : IntegratedRiskOverlay.classify_regime 15 = inr "bull_normal"%string.
Proof. reflexivity. Qed.
Example classify_regime_neg : IntegratedRiskOverlay.classify_regime (-1) = inr "bull_normal"%string.
Proof. reflexivity. Qed.

(** ** Regime transitions *)

(** With no previous snapshot the source answers [True] for
    [transition_detected]; here at the first snapshot of the module's own
    demonstration, where the claim expects no transition to be reported. *)
Lemma detect_first_snapshot_reports_transition :
  let current := MarketState_new 15.0 (Some 45.0) (Some 1.2) 1 in
  snd (detect_regime_transition current None DynamicRegimeManager_init)
  = inr (true, BULL_NORMAL, RuleAdjustment_default).
Proof. reflexivity. Qed.

(** C9 (amended). With no previous snapshot, [detect_regime_transition]
    answers [transition_detected = True] together with the regime of the
    current snapshot and the default adjustment (1.0, 1.0, 1.0, empty
    reason), and records nothing. *)
Theorem detect_without_previous (current : MarketState) (rm : DynamicRegimeManager) :
  detect_regime_transition current None rm
  = (rm, inr (true, _classify_regime_comprehensive current,
              mkRuleAdjustment 1.0 1.0 1.0 "")).
Proof. reflexivity. Qed.

Lemma breadth_collapse_cond_spec current previous :
  breadth_collapse_cond current previous = true <-> is_breadth_collapse current previous.
Proof.
  unfold breadth_collapse_cond, is_breadth_collapse. split.
  - destruct (t2108_level current) as [c|], (t2108_level previous) as [p|]; try done.
    intros H%lt_true. by exists c, p.
  - intros (c & p & -> & -> & H). by apply lt_true.
Qed.

Lemma volatility_explosion_cond_spec current previous :
  volatility_explosion_cond current previous = true <-> is_volatility_explosion current previous.
Proof.
  unfold volatility_explosion_cond, is_volatility_explosion.
  rewrite andb_true_iff, !gt_true. done.
Qed.

Lemma momentum_collapse_cond_spec current previous :
  momentum_collapse_cond current previous = true <-> is_momentum_collapse current previous.
Proof.
  unfold momentum_collapse_cond, is_momentum_collapse. split.
  - destruct (momentum_ratio current) as [c|], (momentum_ratio previous) as [p|]; try done.
    rewrite andb_true_iff, lt_true, gt_true. intros [? ?]. by exists c, p.
  - intros (c & p & -> & -> & ? & ?). by rewrite andb_true_iff, lt_true, gt_true.
Qed.

(** The protocol the source selects: the first of the three whose
    condition holds. *)
Lemma check_emergency_protocols_some current previous :
  is_breadth_collapse current previous \/ is_volatility_explosion current previous
    \/ is_momentum_collapse current previous ->
  exists emergency,
    _check_emergency_protocols current previous = Some emergency /\
    (is_breadth_collapse current previous -> emergency = breadth_collapse_protocol) /\
    (~ is_breadth_collapse current previous -> is_volatility_explosion current previous ->
       emergency = volatility_explosion_protocol) /\
    (~ is_breadth_collapse current previous -> ~ is_volatility_explosion current previous ->
       emergency = momentum_collapse_protocol).
Proof.
  intros H. unfold _check_emergency_protocols.
  destruct (breadth_collapse_cond current previous) eqn:Eb.
  { apply breadth_collapse_cond_spec in Eb.
    eexists; split; [done|]. repeat split; intros; first [done | contradiction]. }
  assert (Hb : ~ is_breadth_collapse current previous).
  { rewrite <- breadth_collapse_cond_spec. congruence. }
  destruct (volatility_explosion_cond current previous) eqn:Ev.
  { apply volatility_explosion_cond_spec in Ev.
    eexists; split; [done|]. repeat split; intros; first [done | contradiction]. }
  assert (Hv : ~ is_volatility_explosion current previous).
  { rewrite <- volatility_explosion_cond_spec. congruence. }
  destruct (momentum_collapse_cond current previous) eqn:Em.
  { eexists; split; [done|]. repeat split; intros; first [done | contradiction]. }
  exfalso. destruct H as [? | [? | Hm]]; [done | done |].
  apply momentum_collapse_cond_spec in Hm. congruence.
Qed.

(** A breadth drop of 35 points between two otherwise equal snapshots
    triggers the breadth-collapse protocol; the adjustment returned is the
    product of the base adjustment (0.7, 0.8, 2.0) with the protocol's
    (0.6, 0.7, 2.0), not the protocol's values. *)
Lemma emergency_composes_with_base :
  let previous := MarketState_new 20 (Some 60) None 1 in
  let current := MarketState_new 20 (Some 25) None 2 in
  is_breadth_collapse current previous /\
  exists rm' transition new_regime adjustment,
    detect_regime_transition current (Some previous) DynamicRegimeManager_init
      = (rm', inr (transition, new_regime, adjustment)) /\
    stop_multiplier adjustment == 0.42 /\
    profit_multiplier adjustment == 0.56 /\
    ~ stop_multiplier adjustment == 0.6 /\
    ~ profit_multiplier adjustment == 0.7.
Proof.
  intros previous current. split.
  - exists 25, 60. repeat split; lra.
  - eexists _, _, _, _. split; [vm_compute; reflexivity|].
    cbn. repeat split; try lra; intros H; lra.
Qed.

(** C2 (amended). When at least one emergency condition holds between two
    consecutive snapshots and the base adjustment is computed, the
    adjustment returned by [detect_regime_transition] is the base
    adjustment combined with the first protocol whose condition holds:
    the stop and profit multipliers are the products of the two, the
    urgency factor is the larger one, and the reasons are joined. *)
Theorem detect_combines_emergency (current previous : MarketState)
    (rm : DynamicRegimeManager) (base : RuleAdjustment) :
  is_breadth_collapse current previous \/ is_volatility_explosion current previous
    \/ is_momentum_collapse current previous ->
  _calculate_transition_adjustments current previous
    (_classify_regime_comprehensive current) (regime previous) = inr base ->
  exists emergency rm' transition,
    _check_emergency_protocols current previous = Some emergency /\
    (is_breadth_collapse current previous -> emergency = breadth_collapse_protocol) /\
    (~ is_breadth_collapse current previous -> is_volatility_explosion current previous ->
       emergency = volatility_explosion_protocol) /\
    (~ is_breadth_collapse current previous -> ~ is_volatility_explosion current previous ->
       emergency = momentum_collapse_protocol) /\
    detect_regime_transition current (Some previous) rm
      = (rm', inr (transition, _classify_regime_comprehensive current,
                   mkRuleAdjustment
                     (stop_multiplier base * stop_multiplier emergency)
                     (profit_multiplier base * profit_multiplier emergency)
                     (Py.max (urgency_factor base) (urgency_factor emergency))
                     (reason base +:+ " + " +:+ reason emergency))).
Proof.
  intros Hcond Hbase.
  destruct (check_emergency_protocols_some _ _ Hcond) as (e & He & H1 & H2 & H3).
  unfold detect_regime_transition, Py.bind, Py.lift.
  rewrite Hbase, He.
  destruct (bool_decide _); cbn; eexists e, _, _; repeat split; eauto.
Qed.

Lemma detect_combines_emergency_witness :
  let previous := MarketState_new 20 (Some 60) None 1 in
  let current := MarketState_new 20 (Some 25) None 2 in
  exists emergency rm',
    emergency = breadth_collapse_protocol /\
    detect_regime_transition current (Some previous) DynamicRegimeManager_init
      = (rm', inr (false, BULL_NORMAL,
                   mkRuleAdjustment (1.0 * 0.7 * 0.6) (1.0 * 0.8 * 0.7) (Py.max 2.0 2.0)
                     ("Breadth collapse -35.0; "
                      +:+ " + " +:+ "EMERGENCY: Breadth collapse protocol activated"))).
Proof.
  intros previous current.
  assert (Hb : is_breadth_collapse current previous).
  { exists 25, 60. repeat split; lra. }
  destruct (detect_combines_emergency current previous DynamicRegimeManager_init
              (mkRuleAdjustment (1.0 * 0.7) (1.0 * 0.8) 2.0 "Breadth collapse -35.0; ")
              (or_introl Hb) eq_refl)
    as (e & rm' & tr & _ & He & _ & _ & Hd).
  exists e, rm'. split; [by apply He|].
  rewrite Hd, (He Hb). vm_compute in Hd |- *.
  by injection Hd as <- <-.
Defined.

(** ** Adaptive stop *)

Lemma adjust_for_momentum_inv current previous a r :
  adjust_for_momentum current previous a = r ->
  (r = inl Py.ZeroDivisionError /\ ~ momentum_defined current (Some previous)) \/
  (exists a', r = inr a' /\ momentum_defined current (Some previous)).
Proof.
  unfold adjust_for_momentum, momentum_defined. intros <-.
  destruct (momentum_ratio current) as [c|], (momentum_ratio previous) as [m|];
    try (right; eexists; split; [reflexivity | exact I]).
  destruct (div_inv c m _ eq_refl) as [[Hz ->] | [Hnz ->]]; cbn.
  - left. split; [done | tauto].
  - right. destruct (Py.lt _ _); [|destruct (Py.gt _ _)]; eexists; split; done.
Qed.

Lemma detect_regime_transition_inv current previous rm rm' r :
  detect_regime_transition current previous rm = (rm', r) ->
  (r = inl Py.ZeroDivisionError /\ rm' = rm /\ ~ momentum_defined current previous) \/
  (exists transition adjustment,
     r = inr (transition, _classify_regime_comprehensive current, adjustment) /\
     momentum_defined current previous).
Proof.
  unfold detect_regime_transition. destruct previous as [previous|].
  - unfold Py.bind, Py.lift, _calculate_transition_adjustments.
    destruct (adjust_for_momentum_inv current previous
                (adjust_for_t2108 current previous
                   (adjust_for_vix current previous RuleAdjustment_default)) _ eq_refl)
      as [[-> Hm] | (a' & -> & Hm)].
    + intros [= <- <-]. by left.
    + destruct (bool_decide _); cbn; intros [= <- <-]; right; eauto.
  - intros [= <- <-]. right. eexists _, _. split; [reflexivity | exact I].
Qed.




(** ** Profit ladder *)

(** [calculate_dynamic_profits] on a bundle with three profit levels, three
    True-Range multipliers and three scaling steps. *)
Lemma dynamic_profits_three_levels (entry_price true_range : Q) (config : Rules)
    (l0 l1 l2 m0 m1 m2 s0 s1 s2 : Q) :
  ~ entry_price == 0 ->
  profit_levels config = Some [l0; l1; l2] ->
  tr_profit_multipliers config = Some [m0; m1; m2] ->
  position_scaling config = Some [s0; s1; s2] ->
  exists t0 t1 t2,
    IntegratedRiskOverlay.calculate_dynamic_profits entry_price config true_range
      = inr [t0; t1; t2] /\
    closed_amounts [t0; t1; t2] = [s0 - 0; s1 - s0; s2 - s1].
Proof.
  intros Hentry Hl Hm Hs.
  unfold IntegratedRiskOverlay.calculate_dynamic_profits.
  rewrite Hl, Hm. cbn -[Py.div Py.max Py.gt].
  unfold IntegratedRiskOverlay.profit_target_at.
  rewrite !div_ok, Hs by done. cbn -[Py.max Py.gt].
  eexists _, _, _. split; reflexivity.
Qed.

(** [IntegratedRiskOverlay.calculate_dynamic_profits] satisfies what C4
    asks of the profit ladder: for a non-zero entry price and a bundle
    whose cumulative scaling is [s0; s1; s2], the three targets close
    [s0], [s1 - s0] and [s2 - s1], which add up to [s2] (100 for every
    bundle of [regime_configurations]). *)
Theorem dynamic_profits_position_to_close (entry_price true_range : Q) (config : Rules)
    (l0 l1 l2 m0 m1 m2 s0 s1 s2 : Q) :
  ~ entry_price == 0 ->
  profit_levels config = Some [l0; l1; l2] ->
  tr_profit_multipliers config = Some [m0; m1; m2] ->
  position_scaling config = Some [s0; s1; s2] ->
  exists t0 t1 t2,
    IntegratedRiskOverlay.calculate_dynamic_profits entry_price config true_range
      = inr [t0; t1; t2] /\
    closed_amounts [t0; t1; t2] = [s0 - 0; s1 - s0; s2 - s1] /\
    foldr Qplus 0 (closed_amounts [t0; t1; t2]) == s2.
Proof.
  intros Hentry Hl Hm Hs.
  destruct (dynamic_profits_three_levels entry_price true_range config
              l0 l1 l2 m0 m1 m2 s0 s1 s2 Hentry Hl Hm Hs) as (t0 & t1 & t2 & H & Hc).
  exists t0, t1, t2. split; [exact H|]. split; [exact Hc|].
  rewrite Hc. cbn. lra.
Qed.

Lemma dynamic_profits_position_to_close_witness :
  exists targets,
    IntegratedRiskOverlay.calculate_dynamic_profits 45.66
      (mkRules (Some (15, Fin 30)) (Some (-8.0)) (Some [12; 25; 40]) (Some [25; 50; 100])
         (Some 1.8) (Some [2.0; 3.5; 5.5]) (Some 3%Z) None) 1.35
    = inr targets /\
    closed_amounts targets = [25 - 0; 50 - 25; 100 - 50] /\
    foldr Qplus 0 (closed_amounts targets) == 100.
Proof.
  destruct (dynamic_profits_position_to_close 45.66 1.35
      (mkRules (Some (15, Fin 30)) (Some (-8.0)) (Some [12; 25; 40]) (Some [25; 50; 100])
         (Some 1.8) (Some [2.0; 3.5; 5.5]) (Some 3%Z) None)
      12 25 40 2.0 3.5 5.5 25 50 100
      ltac:(lra) eq_refl eq_refl eq_refl) as (t0 & t1 & t2 & H & Hc & Hsum).
  exists [t0; t1; t2]. split; [exact H|]. split; [exact Hc | exact Hsum].
Defined.

(** C4. [RegimeProfitTakingManager.calculate_profit_levels] subtracts the
    previous target's [position_to_close] instead of the previous
    cumulative scaling: on the module's own demonstration input (entry
    45.66, VIX 15.43, True Range 1.35, scaling [25; 50; 100]) the three
    targets close 25, 25 and 75, which add up to 125, while the third
    target reports 100 closed cumulatively and 0 remaining. *)
Theorem profit_levels_close_more_than_all :
  exists levels,
    RegimeProfitTakingManager.calculate_profit_levels 45.66 15.43 1.35 None = inr levels /\
    RegimeProfitTakingManager.position_scaling (RegimeProfitTakingManager.pl_rules_used levels)
      = [25; 50; 100] /\
    map RegimeProfitTakingManager.position_to_close
      (RegimeProfitTakingManager.pl_profit_targets levels) = [25 - 0; 50 - (25 - 0); 100 - (50 - (25 - 0))] /\
    foldr Qplus 0 (map RegimeProfitTakingManager.position_to_close
                     (RegimeProfitTakingManager.pl_profit_targets levels)) == 125 /\
    map RegimeProfitTakingManager.cumulative_closed
      (RegimeProfitTakingManager.pl_profit_targets levels) = [25; 50; 100] /\
    map (fun t => Qred (RegimeProfitTakingManager.remaining_position t))
      (RegimeProfitTakingManager.pl_profit_targets levels) = [75; 50; 0].
Proof.
  eexists. split; [vm_compute; reflexivity|].
  cbn. repeat split.
Qed.

(** ** Position lifecycle *)

Section Lifecycle.

Import UltimateRiskManager.

Lemma kept_refl fr : kept fr fr.
Proof. by split. Qed.

Lemma kept_trans fr1 fr2 fr3 : kept fr1 fr2 -> kept fr2 fr3 -> kept fr1 fr3.
Proof. intros [E1 H1] [E2 H2]. split; [congruence | tauto]. Qed.

Lemma kept_deleted symbol fr1 fr2 fr3 :
  kept fr1 fr2 -> deleted symbol fr2 fr3 -> deleted symbol fr1 fr3.
Proof. unfold deleted. intros [E1 _] E2. congruence. Qed.

Lemma bind_inv {S A B} (m : Py.M S A) (k : A -> Py.M S B) s s' r :
  Py.bind m k s = (s', r) ->
  (exists e, m s = (s', inl e) /\ r = inl e) \/
  (exists s1 a, m s = (s1, inr a) /\ k a s1 = (s', r)).
Proof.
  unfold Py.bind. destruct (m s) as [s1 [e | a]].
  - intros [= <- <-]. left. eauto.
  - intros H. right. eauto.
Qed.

(** [_close_position] on a position of which nothing remains. *)
Lemma close_position_nothing_left symbol why exit_price fr :
  Py.gt (TradePosition.remaining_position (f_position fr)) 0 = false ->
  is_Some (active_positions (f_self fr) !! symbol) ->
  exists fr',
    _close_position symbol why exit_price fr = (fr', inr tt) /\
    f_position fr' = f_position fr /\
    f_actions_taken fr' = f_actions_taken fr /\
    active_positions (f_self fr') = delete symbol (active_positions (f_self fr)) /\
    performance_history (f_self fr')
      = performance_history (f_self fr) ++ [TradePosition.realized_pnl (f_position fr)] /\
    trade_history (f_self fr')
      = trade_history (f_self fr) ++
        [POSITION_CLOSED
           (mkClosingLog symbol (TradePosition.entry_price (f_position fr)) exit_price
              (TradePosition.realized_pnl (f_position fr) * 100)
              (TradePosition.days_held (f_position fr)) why
              (TradePosition.regime_at_entry (f_position fr))
              (length (TradePosition.profit_levels_hit (f_position fr)))
              (TradePosition.stop_triggered (f_position fr))
              (TradePosition.max_profit_seen (f_position fr) * 100)
              (TradePosition.max_loss_seen (f_position fr) * 100))].
Proof.
  intros Hgt Hin. unfold _close_position, Py.bind, Py.get.
  rewrite bool_decide_eq_true_2 by done. rewrite Hgt.
  cbn. eexists. split; [reflexivity|]. cbn. done.
Qed.

Lemma gt_zero_of_le_zero x : Py.le x 0 = true -> Py.gt x 0 = false.
Proof. rewrite le_true, gt_false. done. Qed.

Lemma check_stop_loss_inv symbol low_price fr fr' r :
  is_Some (active_positions (f_self fr) !! symbol) ->
  check_stop_loss symbol low_price fr = (fr', r) ->
  phase_ok symbol fr fr' r.
Proof.
  intros Hin. unfold check_stop_loss, the_position, Py.bind at 1.
  destruct (_ && _); [|intros [= <- <-]; apply kept_refl].
  unfold Py.bind at 1, Py.lift.
  destruct (Py.div _ _) as [e | d]; [intros [= <- <-]; apply kept_refl|].
  unfold assign, append_action, Py.modify, Py.bind at 1 2 3 4 5. cbn.
  match goal with |- context [_close_position ?s ?w ?x] =>
    match goal with |- (_ ?f) = _ -> _ =>
      destruct (close_position_nothing_left s w x f eq_refl Hin)
        as (fr1 & Hc & Hp & Ha & Hd & _)
    end
  end.
  unfold Py.bind. rewrite Hc. unfold return_closed, Py.bind, Py.get, Py.ret.
  intros [= <- <-]. split; [done|]. exact Hd.
Qed.

Lemma check_profit_levels_inv symbol high_price pairs : forall i fr fr' r,
  is_Some (active_positions (f_self fr) !! symbol) ->
  check_profit_levels symbol high_price i pairs fr = (fr', r) ->
  phase_ok symbol fr fr' r.
Proof.
  induction pairs as [|[profit_target scale_pct] pairs IH]; intros i fr fr' r Hin.
  { cbn. intros [= <- <-]. apply kept_refl. }
  cbn [check_profit_levels]. unfold the_position, Py.bind at 1.
  destruct (_ && _); [|by apply IH].
  unfold Py.bind at 1, Py.lift.
  match goal with |- context [if ?b then Py.index ?l ?n else inr 0] =>
    destruct (if b then Py.index l n else inr 0) as [e | prev]
  end; [intros [= <- <-]; apply kept_refl|].
  unfold Py.bind at 1.
  destruct (Py.div _ _) as [e | d]; [intros [= <- <-]; apply kept_refl|].
  unfold assign, append_action, Py.modify, Py.bind at 1 2 3 4 5. cbn.
  match goal with |- context [Py.le ?x 0] => destruct (Py.le x 0) eqn:Hle end.
  - match goal with |- context [_close_position ?s ?w ?x] =>
      match goal with |- (_ ?f) = _ -> _ =>
        destruct (close_position_nothing_left s w x f (gt_zero_of_le_zero _ Hle) Hin)
          as (fr1 & Hc & Hp & Ha & Hd & _)
      end
    end.
    unfold Py.bind. rewrite Hc. unfold return_closed, Py.bind, Py.get, Py.ret.
    intros [= <- <-]. split; [done|]. exact Hd.
  - intros H. apply IH in H; [|done].
    match type of H with phase_ok _ ?f _ _ => assert (Hk : kept fr f) end.
    { split; [done|]. intros (H1 & H2 & _).
      split; [exact H1|]. split; [exact H2|].
      cbn. intros Habs. by apply app_eq_nil in Habs as [_ ?]. }
    unfold phase_ok in *. destruct r as [e | [result|]].
    + by eapply kept_trans.
    + destruct H as [? H]. split; [done|]. by eapply kept_deleted.
    + by eapply kept_trans.
Qed.

Lemma on_regime_manager_frame {A} (m : Py.M DynamicRegimeManager A) fr fr' r :
  on_self (on_regime_manager m) fr = (fr', r) ->
  f_position fr' = f_position fr /\
  f_actions_taken fr' = f_actions_taken fr /\
  active_positions (f_self fr') = active_positions (f_self fr) /\
  trade_history (f_self fr') = trade_history (f_self fr) /\
  performance_history (f_self fr') = performance_history (f_self fr).
Proof.
  unfold on_self, on_regime_manager, Py.zoom.
  destruct (m _) as [rm' r']. intros [= <- <-]. done.
Qed.

Lemma check_regime_changes_inv market_data fr fr' r :
  check_regime_changes market_data fr = (fr', r) -> kept fr fr'.
Proof.
  unfold check_regime_changes, Py.bind at 1, Py.get.
  destruct (Py.gt _ _); [|intros [= <- <-]; apply kept_refl].
  intros H. apply bind_inv in H as [(e & H & ->) | (fr1 & [[tr nr] adj] & H & H')].
  { apply on_regime_manager_frame in H as (Hp & _ & Ha & _). split; [done|]. by rewrite Hp. }
  apply on_regime_manager_frame in H as (Hp & _ & Ha & _).
  destruct (_ && _); [|injection H' as <- <-; split; [done|]; by rewrite Hp].
  unfold assign, append_action, the_position, on_self, Py.zoom, Py.modify, Py.bind in H'.
  cbn in H'. injection H' as <- <-. split; [done|]. cbn. rewrite Hp. done.
Qed.

Lemma check_time_exit_inv symbol close_price current_pnl_pct fr fr' r :
  is_Some (active_positions (f_self fr) !! symbol) ->
  check_time_exit symbol close_price current_pnl_pct fr = (fr', r) ->
  body_ok symbol fr fr' r.
Proof.
  intros Hin. unfold check_time_exit, the_position, Py.bind at 1.
  destruct (_ && _).
  - unfold assign, append_action, Py.modify, Py.bind at 1 2 3. cbn.
    match goal with |- context [_close_position ?s ?w ?x] =>
      match goal with |- (_ ?f) = _ -> _ =>
        destruct (close_position_nothing_left s w x f eq_refl Hin)
          as (fr1 & Hc & Hp & Ha & Hd & _)
      end
    end.
    unfold Py.bind. rewrite Hc. unfold Py.get, Py.ret.
    intros [= <- <-]. exact Hd.
  - unfold Py.bind, Py.get, Py.ret. intros [= <- <-]. apply kept_refl.
Qed.

Ltac body_cbn :=
  cbn -[check_stop_loss check_profit_levels check_regime_changes check_time_exit
        Py.div Py.max Py.min Py.bind].

Lemma kept_is_Some symbol fr fr' :
  kept fr fr' ->
  is_Some (active_positions (f_self fr) !! symbol) ->
  is_Some (active_positions (f_self fr') !! symbol).
Proof. intros [-> _]. done. Qed.

Lemma update_body_inv symbol current_price_data market_data fr fr' r :
  is_Some (active_positions (f_self fr) !! symbol) ->
  update_body symbol current_price_data market_data fr = (fr', r) ->
  body_ok symbol fr fr' r.
Proof.
  intros Hin. unfold update_body.
  unfold assign, the_position, Py.modify, Py.lift, Py.bind at 1 2. body_cbn.
  unfold Py.bind at 1. destruct (Py.div _ _) as [e | pnl]; body_cbn.
  { intros [= <- <-]. by split. }
  unfold Py.bind at 1. destruct (Py.div _ _) as [e | dh]; body_cbn.
  { intros [= <- <-]. by split. }
  unfold Py.bind at 1 2. body_cbn. destruct (Py.div _ _) as [e | dl]; body_cbn.
  { intros [= <- <-]. by split. }
  unfold Py.bind at 1. body_cbn.
  match goal with |- (_ ?f) = _ -> _ => set (fr0 := f) end.
  assert (Hk0 : kept fr fr0) by by split.
  intros H. apply bind_inv in H as [(e & H & ->) | (fr1 & stopped & H & H1)].
  { apply check_stop_loss_inv in H; [|done]. by eapply kept_trans. }
  apply check_stop_loss_inv in H; [|done].
  destruct stopped as [result|].
  { injection H1 as <- <-. destruct H as [Hc H]. unfold body_ok. rewrite Hc.
    by eapply kept_deleted. }
  cbn in H. assert (Hk1 : kept fr fr1) by by eapply kept_trans.
  unfold Py.bind at 1 in H1. cbn in H1.
  apply bind_inv in H1 as [(e & H1 & ->) | (fr2 & taken & H1 & H2)].
  { apply check_profit_levels_inv in H1; [|by eapply kept_is_Some]. by eapply kept_trans. }
  apply check_profit_levels_inv in H1; [|by eapply kept_is_Some].
  destruct taken as [result|].
  { injection H2 as <- <-. destruct H1 as [Hc H1]. unfold body_ok. rewrite Hc.
    by eapply kept_deleted. }
  cbn in H1. assert (Hk2 : kept fr fr2) by by eapply kept_trans.
  apply bind_inv in H2 as [(e & H2 & ->) | (fr3 & [] & H2 & H3)].
  { apply check_regime_changes_inv in H2. by eapply kept_trans. }
  apply check_regime_changes_inv in H2.
  assert (Hk3 : kept fr fr3) by by eapply kept_trans.
  apply check_time_exit_inv in H3; [|by eapply kept_is_Some].
  unfold body_ok in *. destruct r as [e | result]; [by eapply kept_trans|].
  destruct (is_closed result); [by eapply kept_deleted | by eapply kept_trans].
Qed.

(** What [update_position] does to the active set. *)
Lemma update_position_inv symbol current_price_data market_data self self' r :
  update_position symbol current_price_data market_data self = (self', r) ->
  match active_positions self !! symbol with
  | None => self' = self /\ r = inl (Py.ValueError ("Position " +:+ symbol +:+ " not found"))
  | Some p =>
      match r with
      | inr (CLOSED _ _ _ _) =>
          active_positions self' = delete symbol (active_positions self)
      | _ =>
          exists p', active_positions self' = <[symbol := p']> (active_positions self) /\
                     (position_ok p -> position_ok p')
      end
  end.
Proof.
  unfold update_position. destruct (active_positions self !! symbol) as [p|] eqn:Hp.
  2: { intros [= <- <-]. done. }
  destruct (update_body _ _ _ _) as [fr' r'] eqn:Hb. intros [= <- <-].
  apply update_body_inv in Hb; [|cbn; eauto].
  assert (Hkept : kept (mkFrame self p []) fr' ->
    exists p', active_positions (leave symbol fr') = <[symbol := p']> (active_positions self) /\
               (position_ok p -> position_ok p')).
  { intros [Ha Hok]. cbn in Ha, Hok. unfold leave.
    rewrite bool_decide_eq_true_2 by (rewrite Ha; eauto).
    exists (f_position fr'). cbn. by rewrite Ha. }
  assert (Hdel : deleted symbol (mkFrame self p []) fr' ->
    active_positions (leave symbol fr') = delete symbol (active_positions self)).
  { unfold deleted. cbn. intros Ha. unfold leave.
    rewrite bool_decide_eq_false_2; [done|].
    rewrite Ha, lookup_delete_eq. by intros [? ?]. }
  unfold body_ok in Hb. destruct r' as [e | [] ]; cbn in Hb; auto.
Qed.

(** Calls into the regime and stop managers leave the rest of the risk
    manager alone. *)
Lemma on_stop_manager_frame {A} (m : Py.M AdaptiveStopManager A) self self' r :
  on_stop_manager m self = (self', r) ->
  active_positions self' = active_positions self /\
  trade_history self' = trade_history self /\
  performance_history self' = performance_history self /\
  current_market_state self' = current_market_state self /\
  previous_market_state self' = previous_market_state self /\
  m (stop_manager self) = (stop_manager self', r).
Proof.
  unfold on_stop_manager, Py.zoom.
  destruct (m _) as [sm' r']. intros [= <- <-]. done.
Qed.

Lemma on_regime_manager_self_frame {A} (m : Py.M DynamicRegimeManager A) self self' r :
  on_regime_manager m self = (self', r) ->
  active_positions self' = active_positions self /\
  trade_history self' = trade_history self /\
  performance_history self' = performance_history self /\
  current_market_state self' = current_market_state self /\
  previous_market_state self' = previous_market_state self /\
  exists rm', m (regime_manager (stop_manager self)) = (rm', r).
Proof.
  unfold on_regime_manager, Py.zoom.
  destruct (m _) as [rm' r'] eqn:E. intros [= <- <-]. repeat split. eauto.
Qed.

Lemma calculate_adaptive_stop_inv symbol entry_price current_true_range base_rules
    market_state previous_state sm sm' r :
  calculate_adaptive_stop symbol entry_price current_true_range base_rules
    market_state previous_state sm = (sm', r) ->
  match r with
  | inr _ => ~ entry_price == 0 /\ momentum_defined market_state previous_state
  | inl e =>
      e = Py.ZeroDivisionError /\
      (entry_price == 0 \/ ~ momentum_defined market_state previous_state)
  end.
Proof.
  unfold calculate_adaptive_stop, Py.bind at 1, Py.zoom.
  destruct (detect_regime_transition market_state previous_state (regime_manager sm))
    as [rm' r'] eqn:Hd.
  destruct (detect_regime_transition_inv _ _ _ _ _ Hd)
    as [(-> & _ & Hm) | (transition & adjustment & -> & Hm)].
  { intros [= <- <-]. split; [done | by right]. }
  unfold Py.modify, Py.get, Py.lift, Py.ret, Py.bind.
  cbn -[Py.mean update_rolling Py.gt Py.div Py.min Py.max apply_dynamic_adjustments].
  match goal with |- context [Py.gt ?x 0] => destruct (Py.gt x 0) eqn:Hgt end.
  - rewrite div_ok by (apply gt_true in Hgt; lra).
    match goal with |- context [Py.div ?a entry_price] =>
      destruct (div_inv a entry_price _ eq_refl) as [[Hz ->] | [Hnz ->]]
    end; intros [= <- <-]; [split; [done | by left] | done].
  - match goal with |- context [Py.div ?a entry_price] =>
      destruct (div_inv a entry_price _ eq_refl) as [[Hz ->] | [Hnz ->]]
    end; intros [= <- <-]; [split; [done | by left] | done].
Qed.

(** What [open_position] does to the active set, the histories and the
    market state. *)
Lemma open_position_inv symbol entry_price market_data position_size self self' r :
  open_position symbol entry_price market_data position_size self = (self', r) ->
  let current :=
    MarketState_new (default 20.0 (market_data !! "vix")) (market_data !! "t2108")
      (market_data !! "momentum_ratio") (Z.of_nat (length (regime_history self)) + 1) in
  match r with
  | inl e =>
      active_positions self' = active_positions self /\
      trade_history self' = trade_history self /\
      performance_history self' = performance_history self /\
      (active_positions self !! symbol = None ->
       current_market_state self' = Some current /\
       previous_market_state self' = current_market_state self)
  | inr result =>
      active_positions self !! symbol = None /\
      ~ entry_price == 0 /\
      exists p log,
        active_positions self' = <[symbol := p]> (active_positions self) /\
        trade_history self' = trade_history self ++ [POSITION_OPENED log] /\
        performance_history self' = performance_history self /\
        position_ok p /\
        TradePosition.entry_price p = entry_price /\
        TradePosition.vix_at_entry p = default 20.0 (market_data !! "vix") /\
        TradePosition.regime_at_entry p = or_regime result /\
        TradePosition.stop_level p = or_stop_level result /\
        TradePosition.profit_levels_hit p = [] /\
        TradePosition.remaining_position p = 100.0
  end.
Proof.
  intros Hopen current. revert Hopen.
  unfold open_position, Py.bind at 1, Py.get.
  destruct (bool_decide _) eqn:Hact.
  { intros [= <- <-]. apply bool_decide_eq_true in Hact as [? Hact].
    repeat split; try done. all: congruence. }
  apply bool_decide_eq_false in Hact.
  unfold Py.modify, Py.bind at 1 2. cbn -[Py.bind Py.div]. fold current.
  intros H. apply bind_inv in H as [(e & H & ->) | (s1 & regime & H & H1)].
  { injection H as <- _. done. }
  injection H as <- H.
  apply bind_inv in H1 as [(e & H1 & ->) | (s2 & base_rules & H1 & H2)].
  { injection H1 as <- _. done. }
  injection H1 as <- H1.
  apply bind_inv in H2 as [(e & H2 & ->) | (s3 & [[tr nr] adj] & H2 & H3)].
  { apply on_regime_manager_self_frame in H2 as (? & ? & ? & ? & ? & _). done. }
  apply on_regime_manager_self_frame in H2 as (Ha3 & Ht3 & Hp3 & Hc3 & Hv3 & _).
  apply bind_inv in H3 as [(e & H3 & ->) | (s4 & stop_data & H3 & H4)].
  { apply on_stop_manager_frame in H3 as (Ha4 & Ht4 & Hp4 & Hc4 & Hv4 & _).
    rewrite Ha4, Ht4, Hp4, Hc4, Hv4. done. }
  apply on_stop_manager_frame in H3 as (Ha4 & Ht4 & Hp4 & Hc4 & Hv4 & Hcalc).
  apply calculate_adaptive_stop_inv in Hcalc as [Hnz _].
  apply bind_inv in H4 as [(e & H4 & ->) | (s5 & profit_levels & H4 & H5)].
  { injection H4 as <- _. rewrite Ha4, Ht4, Hp4, Hc4, Hv4. done. }
  injection H4 as <- H4.
  unfold Py.bind at 1 2 in H5. cbn -[Py.bind Py.div] in H5.
  unfold Py.bind, Py.lift in H5. rewrite div_ok in H5 by done.
  injection H5 as <- <-. cbn.
  split; [by apply eq_None_not_Some|]. split; [done|].
  eexists _, _. rewrite Ha4, Ha3, Ht4, Ht3, Hp4, Hp3. cbn.
  repeat split; done.
Qed.

(** Every position of the active set of a reachable manager is
    [position_ok]. *)
Lemma reachable_positions self :
  reachable self ->
  forall symbol p, active_positions self !! symbol = Some p -> position_ok p.
Proof.
  induction 1 as [| self symbol entry_price market_data position_size _ IH
                  | self symbol current_price_data market_data _ IH]; intros s p.
  - cbn. by rewrite lookup_empty.
  - destruct (open_position _ _ _ _ _) as [self' r] eqn:Ho. cbn.
    apply open_position_inv in Ho. destruct r as [e | result].
    + cbn in Ho. destruct Ho as (-> & _). apply IH.
    + cbn in Ho. destruct Ho as (_ & _ & p' & log & -> & _ & _ & Hok & _).
      destruct (decide (symbol = s)) as [-> | Hne].
      * rewrite lookup_insert_eq. by intros [= <-].
      * rewrite lookup_insert_ne by done. apply IH.
  - destruct (update_position _ _ _ _) as [self' r] eqn:Hu. cbn.
    apply update_position_inv in Hu.
    destruct (active_positions self !! symbol) as [p0|] eqn:Hp0.
    2: { destruct Hu as [-> _]. apply IH. }
    assert (Hkeep : (exists p', active_positions self' = <[symbol := p']> (active_positions self) /\
                       (position_ok p0 -> position_ok p')) ->
                    active_positions self' !! s = Some p -> position_ok p).
    { intros (p' & -> & Hok). destruct (decide (symbol = s)) as [-> | Hne].
      - rewrite lookup_insert_eq. intros [= <-]. apply Hok. by eapply IH.
      - rewrite lookup_insert_ne by done. apply IH. }
    destruct r as [e | []]; auto.
    rewrite Hu. destruct (decide (symbol = s)) as [-> | Hne].
    + by rewrite lookup_delete_eq.
    + rewrite lookup_delete_ne by done. apply IH.
Qed.

(** C6. [update_position] on a symbol that is not in the active set, be it
    unknown or the symbol of a position that an earlier update closed (by
    stop, by the last profit level or by time exit), raises
    [ValueError("Position <symbol> not found")] and leaves the manager as it
    was: no history grows, no PnL is realized again. *)
Theorem update_position_not_found (symbol : string)
    (current_price_data market_data : gmap string Q) (self : UltimateRiskManager.t) :
  (active_positions self !! symbol = None \/
   exists before price_data0 market_data0 actions final_pnl days,
     update_position symbol price_data0 market_data0 before
     = (self, inr (CLOSED symbol actions final_pnl days))) ->
  update_position symbol current_price_data market_data self
  = (self, inl (Py.ValueError ("Position " +:+ symbol +:+ " not found"))).
Proof.
  intros H.
  assert (Hnone : active_positions self !! symbol = None).
  { destruct H as [H | (before & pd0 & md0 & actions & pnl & days & H)]; [done|].
    apply update_position_inv in H.
    destruct (active_positions before !! symbol); [|by destruct H].
    rewrite H. apply lookup_delete_eq. }
  unfold update_position. by rewrite Hnone.
Qed.

Lemma update_position_not_found_witness :
  let market_data : gmap string Q := {[ "vix" := 20 ]} in
  let opened := (open_position "XYZ" 100 market_data None init).1 in
  let closed :=
    (update_position "XYZ" {[ "high" := 101; "low" := 90; "close" := 91 ]} market_data opened).1 in
  update_position "XYZ" {[ "high" := 95; "low" := 90; "close" := 92 ]} market_data closed
  = (closed, inl (Py.ValueError "Position XYZ not found")).
Proof.
  intros market_data opened closed.
  apply (update_position_not_found "XYZ" {[ "high" := 95; "low" := 90; "close" := 92 ]}
           market_data closed).
  right. exists opened, {[ "high" := 101; "low" := 90; "close" := 91 ]}, market_data.
  eexists _, _, _. vm_compute. reflexivity.
Defined.

(** C5. On a reachable manager, an update of an active position with no
    profit level hit and the whole position remaining, whose daily low is at
    or below the stop level, returns CLOSED in that call, whatever the daily
    high, the close, the market data and the days held: the only action is
    the stop-loss (the position's remaining size reads 0 when the action is
    recorded), the closing log has [stop_triggered] set, the position leaves
    the active set, and the realized PnL is
    (stop_level - entry_price) / entry_price. *)
Theorem stop_loss_closes_position (self : UltimateRiskManager.t) (symbol : string)
    (p : TradePosition.t) (current_price_data market_data : gmap string Q) :
  reachable self ->
  active_positions self !! symbol = Some p ->
  TradePosition.profit_levels_hit p = [] ->
  TradePosition.remaining_position p == 100 ->
  low_of current_price_data <= TradePosition.stop_level p ->
  exists self' stop_pnl final_pnl log,
    update_position symbol current_price_data market_data self
    = (self', inr (CLOSED symbol
                     [STOP_LOSS_EXECUTED (TradePosition.stop_level p) 0 stop_pnl
                        "stop_loss_triggered"]
                     final_pnl (TradePosition.days_held p + 1))) /\
    final_pnl == (TradePosition.stop_level p - TradePosition.entry_price p)
                 / TradePosition.entry_price p /\
    stop_pnl == final_pnl /\
    active_positions self' = delete symbol (active_positions self) /\
    performance_history self' = performance_history self ++ [final_pnl] /\
    trade_history self' = trade_history self ++ [POSITION_CLOSED log] /\
    cl_stop_triggered log = true /\
    cl_reason log = "stop_loss"%string /\
    cl_exit_price log = TradePosition.stop_level p /\
    cl_profit_levels_hit log = 0%nat.
Proof.
  intros Hreach Hp Hhit Hrem Hlow.
  destruct (reachable_positions self Hreach symbol p Hp) as (Hst & Hentry & Hfresh).
  destruct (Hfresh Hhit) as [Hreal _].
  unfold update_position. rewrite Hp.
  unfold update_body, assign, the_position, Py.modify, Py.lift, Py.bind at 1 2. body_cbn.
  unfold Py.bind at 1. rewrite div_ok by done. body_cbn.
  unfold Py.bind at 1. rewrite div_ok by done. body_cbn.
  unfold Py.bind at 1 2. body_cbn. rewrite div_ok by done. body_cbn.
  unfold Py.bind at 1. body_cbn. unfold Py.bind at 1.
  unfold check_stop_loss, the_position, Py.bind at 1. body_cbn.
  fold (low_of current_price_data). rewrite Hst.
  rewrite (proj2 (le_true _ _) Hlow).
  rewrite (proj2 (gt_true (TradePosition.remaining_position p) 0)) by lra.
  body_cbn. unfold Py.bind at 1, Py.lift. rewrite div_ok by done.
  unfold assign, append_action, Py.modify, Py.bind at 1 2 3 4 5. body_cbn.
  unfold Py.bind at 1.
  match goal with |- context [_close_position ?s ?w ?x ?f] =>
    destruct (close_position_nothing_left s w x f eq_refl) as (fr1 & Hc & Hp1 & Ha1 & Hd1 & Hh1 & Ht1)
  end.
  { cbn. rewrite Hp. eauto. }
  rewrite Hc.
  unfold return_closed, Py.bind, Py.get, Py.ret. cbn -[Qdiv].
  rewrite Hp1, Ha1. cbn -[Qdiv].
  assert (Hgone : active_positions (leave symbol fr1) = delete symbol (active_positions self)
                  /\ leave symbol fr1 = f_self fr1).
  { unfold leave. rewrite bool_decide_eq_false_2; [done|].
    rewrite Hd1. cbn. rewrite lookup_delete_eq. by intros [? ?]. }
  destruct Hgone as [Hgone Hleave].
  eexists _, _, _, _. split; [reflexivity|].
  split; [rewrite Hreal, Hrem; field; exact Hentry|].
  split; [rewrite Hreal, Hrem; field; exact Hentry|].
  split; [done|].
  rewrite Hleave, Hh1, Ht1. cbn -[Qdiv].
  split; [reflexivity|]. split; [reflexivity|]. cbn. by rewrite Hhit.
Qed.

Lemma stop_loss_closes_position_witness :
  let market_data : gmap string Q := {[ "vix" := 20 ]} in
  let opened := (open_position "XYZ" 100 market_data None init).1 in
  exists self' stop stop_pnl final_pnl,
    update_position "XYZ" {[ "high" := 130; "low" := 90; "close" := 91 ]} market_data opened
    = (self', inr (CLOSED "XYZ" [STOP_LOSS_EXECUTED stop 0 stop_pnl "stop_loss_triggered"]
                     final_pnl 1)) /\
    stop == 92 /\
    final_pnl == - (8 # 100) /\
    active_positions self' !! "XYZ" = None.
Proof.
  intros market_data opened.
  destruct (active_positions opened !! "XYZ") as [p|] eqn:Hp; [|vm_compute in Hp; discriminate].
  assert (Hfields : TradePosition.stop_level p == 92 /\
                    TradePosition.entry_price p == 100 /\
                    TradePosition.days_held p = 0%Z /\
                    TradePosition.profit_levels_hit p = [] /\
                    TradePosition.remaining_position p == 100).
  { vm_compute in Hp. injection Hp as <-. cbn. repeat split. }
  destruct Hfields as (Hstop & Hentry & Hdays & Hhit & Hrem).
  destruct (stop_loss_closes_position opened "XYZ" p
              {[ "high" := 130; "low" := 90; "close" := 91 ]} market_data
              (reach_open init "XYZ" 100 market_data None reach_init) Hp Hhit Hrem)
    as (self' & stop_pnl & final_pnl & log & Hu & Hpnl & _ & Hact & _).
  { rewrite Hstop. vm_compute. discriminate. }
  exists self', (TradePosition.stop_level p), stop_pnl, final_pnl.
  rewrite Hdays in Hu. split; [exact Hu|]. split; [exact Hstop|].
  split; [rewrite Hpnl, Hstop, Hentry; reflexivity|].
  rewrite Hact. apply lookup_delete_eq.
Defined.

(** The regime of [classify_regime] is a key of [regime_configurations],
    and every bundle of that table has three profit levels, three
    True-Range multipliers and three scaling steps. *)
Lemma classify_regime_table vix_level :
  exists regime rules l0 l1 l2 m0 m1 m2 s0 s1 s2,
    IntegratedRiskOverlay.classify_regime vix_level = inr regime /\
    IntegratedRiskOverlay.getitem IntegratedRiskOverlay.regime_configurations regime
      = inr rules /\
    profit_levels rules = Some [l0; l1; l2] /\
    tr_profit_multipliers rules = Some [m0; m1; m2] /\
    position_scaling rules = Some [s0; s1; s2].
Proof.
  unfold IntegratedRiskOverlay.classify_regime, IntegratedRiskOverlay.regime_configurations.
  cbn -[Py.le Py.lt].
  repeat (match goal with
          | |- context [if ?b && ?c then _ else _] => destruct (b && c)
          end; cbn -[Py.le Py.lt]);
    eexists _, _, _, _, _, _, _, _, _, _, _; repeat split; reflexivity.
Qed.

Lemma dynamic_profits_adjusted entry_price true_range rules adjustment
    (l0 l1 l2 m0 m1 m2 s0 s1 s2 : Q) :
  ~ entry_price == 0 ->
  profit_levels rules = Some [l0; l1; l2] ->
  tr_profit_multipliers rules = Some [m0; m1; m2] ->
  position_scaling rules = Some [s0; s1; s2] ->
  exists targets,
    IntegratedRiskOverlay.calculate_dynamic_profits entry_price
      (apply_dynamic_adjustments rules adjustment) true_range = inr targets.
Proof.
  intros Hentry Hl Hm Hs.
  destruct (dynamic_profits_three_levels entry_price true_range
              (apply_dynamic_adjustments rules adjustment)
              (l0 * profit_multiplier adjustment) (l1 * profit_multiplier adjustment)
              (l2 * profit_multiplier adjustment)
              (m0 * profit_multiplier adjustment) (m1 * profit_multiplier adjustment)
              (m2 * profit_multiplier adjustment) s0 s1 s2 Hentry)
    as (t0 & t1 & t2 & H & _); [cbn; by rewrite ?Hl, ?Hm, ?Hs ..|].
  eauto.
Qed.

Ltac open_cbn :=
  cbn -[Py.bind Py.div IntegratedRiskOverlay.classify_regime IntegratedRiskOverlay.getitem
        IntegratedRiskOverlay.calculate_dynamic_profits apply_dynamic_adjustments
        calculate_adaptive_stop detect_regime_transition
        IntegratedRiskOverlay.regime_configurations].

(** When [open_position] returns and when it raises, for a symbol that is
    not active. *)
Lemma open_position_outcome symbol entry_price market_data position_size self :
  active_positions self !! symbol = None ->
  let current :=
    MarketState_new (default 20.0 (market_data !! "vix")) (market_data !! "t2108")
      (market_data !! "momentum_ratio") (Z.of_nat (length (regime_history self)) + 1) in
  match (open_position symbol entry_price market_data position_size self).2 with
  | inl e =>
      e = Py.ZeroDivisionError /\
      (entry_price == 0 \/ ~ momentum_defined current (current_market_state self))
  | inr result =>
      ~ entry_price == 0 /\
      momentum_defined current (current_market_state self) /\
      IntegratedRiskOverlay.classify_regime (default 20.0 (market_data !! "vix"))
        = inr (or_regime result)
  end.
Proof.
  intros Hnone current.
  destruct (classify_regime_table (default 20.0 (market_data !! "vix")))
    as (regime & rules & l0 & l1 & l2 & m0 & m1 & m2 & s0 & s1 & s2 & Hc & Hg & Hl & Hm & Hs).
  unfold open_position, Py.bind at 1, Py.get.
  rewrite bool_decide_eq_false_2 by (rewrite Hnone; by intros [? ?]).
  unfold Py.modify, Py.bind at 1 2. open_cbn.
  unfold Py.bind at 1, Py.lift. rewrite Hc.
  unfold Py.bind at 1. rewrite Hg. fold current.
  unfold Py.bind at 1.
  destruct (on_regime_manager _ _) as [s3 r3] eqn:H3.
  apply on_regime_manager_self_frame in H3 as (_ & _ & _ & _ & _ & rm' & H3).
  destruct (detect_regime_transition_inv _ _ _ _ _ H3)
    as [(-> & _ & Hmd) | (tr & adj & -> & Hmd)].
  { cbn. split; [done|]. by right. }
  unfold Py.bind at 1.
  destruct (on_stop_manager _ _) as [s4 r4] eqn:H4.
  apply on_stop_manager_frame in H4 as (_ & _ & _ & _ & _ & H4).
  apply calculate_adaptive_stop_inv in H4.
  destruct r4 as [e | stop_data]; [done|].
  destruct H4 as [Hnz _].
  destruct (dynamic_profits_adjusted entry_price
              (default (entry_price * 0.02) (market_data !! "true_range"))
              rules adj l0 l1 l2 m0 m1 m2 s0 s1 s2 Hnz Hl Hm Hs) as [targets Ht].
  unfold Py.bind at 1. rewrite Ht.
  unfold Py.bind, Py.ret. open_cbn. rewrite div_ok by done. cbn. done.
Qed.

(** [open_position] has no check on the entry price: a negative price goes
    through, the position is stored and the opening is logged. *)
Lemma open_position_accepts_negative_price :
  let opened := open_position "XYZ" (-10) {[ "vix" := 20 ]} None init in
  -10 <= 0 /\
  (exists result, opened.2 = inr result /\ or_entry_price result = -10) /\
  (exists p, active_positions opened.1 !! "XYZ" = Some p /\
             TradePosition.entry_price p = -10) /\
  length (trade_history opened.1) = 1%nat.
Proof.
  intros opened. split; [lra|].
  split; [eexists; split; [vm_compute; reflexivity | reflexivity]|].
  split; [eexists; split; [vm_compute; reflexivity | reflexivity]|].
  vm_compute. reflexivity.
Qed.

(** C7 (amended). [open_position] does not validate the entry price.  With
    an entry price of zero, on a symbol that is not active, the call fails
    with a [ZeroDivisionError] raised by one of its divisions: no position
    is created and no history entry is appended, but the market-state
    fields have already been replaced. *)
Theorem open_position_zero_price (symbol : string) (entry_price : Q)
    (market_data : gmap string Q) (position_size : option Q) (self : UltimateRiskManager.t) :
  entry_price == 0 ->
  active_positions self !! symbol = None ->
  exists self',
    open_position symbol entry_price market_data position_size self
    = (self', inl Py.ZeroDivisionError) /\
    active_positions self' = active_positions self /\
    trade_history self' = trade_history self /\
    performance_history self' = performance_history self /\
    previous_market_state self' = current_market_state self /\
    current_market_state self'
    = Some (MarketState_new (default 20.0 (market_data !! "vix")) (market_data !! "t2108")
              (market_data !! "momentum_ratio")
              (Z.of_nat (length (regime_history self)) + 1)).
Proof.
  intros Hzero Hnone.
  pose proof (open_position_outcome symbol entry_price market_data position_size self Hnone)
    as Hout.
  destruct (open_position symbol entry_price market_data position_size self)
    as [self' r] eqn:Hopen.
  apply open_position_inv in Hopen. cbn in Hout, Hopen.
  destruct r as [e | result]; [|by destruct Hout].
  destruct Hout as [-> _]. destruct Hopen as (Ha & Ht & Hp & Hm).
  destruct (Hm Hnone) as [Hc Hv].
  exists self'. repeat split; done.
Qed.

Lemma open_position_zero_price_witness :
  exists self',
    open_position "XYZ" 0 {[ "vix" := 20; "true_range" := 1.5 ]} None init
    = (self', inl Py.ZeroDivisionError) /\
    active_positions self' = ∅ /\
    trade_history self' = [].
Proof.
  destruct (open_position_zero_price "XYZ" 0 {[ "vix" := 20; "true_range" := 1.5 ]} None init
              ltac:(reflexivity) ltac:(reflexivity))
    as (self' & H & Ha & Ht & _).
  exists self'. split; [exact H|]. split; [exact Ha | exact Ht].
Defined.

(** C1. [update_position] does not leave the loop over the profit levels
    after a level has executed.  A position opened at 100 under VIX 20 has
    its stop at 92 and its profit levels at 112, 125 and 140; a day with
    high 130 and low 99 triggers no stop and leaves the position ACTIVE,
    yet levels 1 and 2 both execute in that one call: two profit actions,
    [profit_levels_hit] grows from [] to [0; 1] and the remaining position
    drops from 100 to 50. *)
Theorem update_executes_two_profit_levels :
  let market_data : gmap string Q := {[ "vix" := 20 ]} in
  let opened := (open_position "XYZ" 100 market_data None init).1 in
  let updated :=
    update_position "XYZ" {[ "high" := 130; "low" := 99; "close" := 120 ]} market_data opened in
  (exists p,
     active_positions opened !! "XYZ" = Some p /\
     Qred (TradePosition.stop_level p) = 92 /\
     map Qred (TradePosition.profit_levels p) = [112; 125; 140] /\
     TradePosition.profit_levels_hit p = [] /\
     Qred (TradePosition.remaining_position p) = 100) /\
  (exists actions current_pnl realized_pnl remaining max_profit max_loss,
     updated.2 = inr (ACTIVE "XYZ" actions current_pnl realized_pnl remaining 1
                        max_profit max_loss) /\
     map action_name actions = ["PROFIT_TAKING_LEVEL_1"; "PROFIT_TAKING_LEVEL_2"]%string /\
     Qred remaining = 50) /\
  (exists p',
     active_positions updated.1 !! "XYZ" = Some p' /\
     TradePosition.profit_levels_hit p' = [0%nat; 1%nat] /\
     Qred (TradePosition.remaining_position p') = 50).
Proof.
  intros market_data opened updated. split; [|split].
  - eexists. split; [vm_compute; reflexivity|]. vm_compute. done.
  - eexists _, _, _, _, _, _. split; [vm_compute; reflexivity|]. vm_compute. done.
  - eexists. split; [vm_compute; reflexivity|]. vm_compute. done.
Qed.

(** ** Further properties of the lifecycle *)

(** After [open_position] has returned, the position stored under the
    symbol has the whole position remaining (100), no profit level hit, the
    entry price of the call and the stop level reported to the caller; the
    symbol was not active before. *)
Theorem open_position_stores_full_position (symbol : string) (entry_price : Q)
    (market_data : gmap string Q) (position_size : option Q)
    (self self' : UltimateRiskManager.t) (result : OpenResult) :
  open_position symbol entry_price market_data position_size self = (self', inr result) ->
  active_positions self !! symbol = None /\
  exists p,
    active_positions self' !! symbol = Some p /\
    TradePosition.remaining_position p = 100.0 /\
    TradePosition.profit_levels_hit p = [] /\
    TradePosition.entry_price p = entry_price /\
    TradePosition.stop_level p = or_stop_level result.
Proof.
  intros H. apply open_position_inv in H. cbn in H.
  destruct H as (Hnone & _ & p & log & Ha & _ & _ & _ & He & _ & _ & Hs & Hh & Hr).
  split; [exact Hnone|]. exists p. rewrite Ha, lookup_insert_eq. done.
Qed.

Lemma open_position_stores_full_position_witness :
  exists self' result p,
    open_position "XYZ" 100 {[ "vix" := 20 ]} None init = (self', inr result) /\
    active_positions self' !! "XYZ" = Some p /\
    TradePosition.remaining_position p = 100.0.
Proof.
  destruct (open_position "XYZ" 100 {[ "vix" := 20 ]} None init) as [self' [e | result]] eqn:Ho;
    [vm_compute in Ho; discriminate|].
  destruct (open_position_stores_full_position "XYZ" 100 {[ "vix" := 20 ]} None init
              self' result Ho) as (_ & p & Hp & Hr & _).
  exists self', result, p. split; [reflexivity|]. split; [exact Hp | exact Hr].
Defined.

(** [open_position] on a symbol that is already active raises
    [ValueError("Position <symbol> already exists")] and leaves the manager
    as it was. *)
Theorem open_position_duplicate (symbol : string) (entry_price : Q)
    (market_data : gmap string Q) (position_size : option Q) (self : UltimateRiskManager.t) :
  is_Some (active_positions self !! symbol) ->
  open_position symbol entry_price market_data position_size self
  = (self, inl (Py.ValueError ("Position " +:+ symbol +:+ " already exists"))).
Proof.
  intros H. unfold open_position, Py.bind, Py.get.
  by rewrite bool_decide_eq_true_2.
Qed.

Lemma open_position_duplicate_witness :
  let opened := (open_position "XYZ" 100 {[ "vix" := 20 ]} None init).1 in
  open_position "XYZ" 105 {[ "vix" := 25 ]} None opened
  = (opened, inl (Py.ValueError "Position XYZ already exists")).
Proof.
  intros opened.
  apply (open_position_duplicate "XYZ" 105 {[ "vix" := 25 ]} None opened).
  vm_compute. eauto.
Defined.

(** Every position in the active set of a reachable manager has an
    untriggered stop and a non-zero entry price, and as long as none of its
    profit levels was hit it has realized nothing and remains whole: a
    position whose stop triggered is never left in the active set. *)
Theorem active_positions_invariant (self : UltimateRiskManager.t) (symbol : string)
    (p : TradePosition.t) :
  reachable self ->
  active_positions self !! symbol = Some p ->
  TradePosition.stop_triggered p = false /\
  ~ TradePosition.entry_price p == 0 /\
  (TradePosition.profit_levels_hit p = [] ->
   TradePosition.realized_pnl p == 0 /\ TradePosition.remaining_position p == 100).
Proof. intros Hreach Hp. exact (reachable_positions self Hreach symbol p Hp). Qed.

Lemma active_positions_invariant_witness :
  let market_data : gmap string Q := {[ "vix" := 20 ]} in
  let opened := (open_position "XYZ" 100 market_data None init).1 in
  let updated :=
    (update_position "XYZ" {[ "high" := 113; "low" := 99; "close" := 110 ]} market_data
       opened).1 in
  exists p,
    active_positions updated !! "XYZ" = Some p /\
    TradePosition.profit_levels_hit p = [0%nat] /\
    TradePosition.stop_triggered p = false /\
    ~ TradePosition.entry_price p == 0.
Proof.
  intros market_data opened updated.
  destruct (active_positions updated !! "XYZ") as [p|] eqn:Hp; [|vm_compute in Hp; discriminate].
  destruct (active_positions_invariant updated "XYZ" p
              (reach_update opened "XYZ" {[ "high" := 113; "low" := 99; "close" := 110 ]}
                 market_data (reach_open init "XYZ" 100 market_data None reach_init)) Hp)
    as (Hst & Hentry & _).
  exists p. split; [reflexivity|]. split; [|split; [exact Hst | exact Hentry]].
  vm_compute in Hp. by injection Hp as <-.
Defined.

End Lifecycle.

(** * Further properties of the code *)

(** ** The classifiers *)

(** The four VIX classifiers of the repository agree on every non-negative
    VIX.  On a negative VIX the two that walk the table of ranges
    ([IntegratedRiskOverlay], [RegimeStopLossManager]) find no range and fall
    back to bull_normal, while the two that compare thresholds
    ([RegimeProfitTakingManager], [DynamicRegimeManager]) answer
    low_vol_complacency. *)
Theorem classifiers_agree (vix : Q) :
  (0 <= vix ->
   IntegratedRiskOverlay.classify_regime vix
     = inr (RegimeProfitTakingManager.classify_regime vix) /\
   RegimeStopLossManager.classify_regime vix = RegimeProfitTakingManager.classify_regime vix /\
   RegimeType_value (_classify_regime_comprehensive (MarketState_new vix None None 0))
     = RegimeProfitTakingManager.classify_regime vix) /\
  (vix < 0 ->
   IntegratedRiskOverlay.classify_regime vix = inr "bull_normal"%string /\
   RegimeStopLossManager.classify_regime vix = "bull_normal"%string /\
   RegimeProfitTakingManager.classify_regime vix = "low_vol_complacency"%string /\
   _classify_regime_comprehensive (MarketState_new vix None None 0) = LOW_VOL_COMPLACENCY).
Proof.
  unfold IntegratedRiskOverlay.classify_regime, IntegratedRiskOverlay.regime_configurations,
    RegimeStopLossManager.classify_regime, RegimeStopLossManager.regime_rules,
    RegimeProfitTakingManager.classify_regime, _classify_regime_comprehensive.
  cbn -[Py.le Py.lt Py.ge].
  split; intros H; repeat split;
    repeat (cmp_case; try lra; cbn -[Py.le Py.lt Py.ge]); done.
Qed.

Lemma classifiers_agree_witness :
  IntegratedRiskOverlay.classify_regime 30 = inr "high_vol_stress"%string /\
  RegimeStopLossManager.classify_regime 30 = "high_vol_stress"%string /\
  RegimeProfitTakingManager.classify_regime 30 = "high_vol_stress"%string /\
  IntegratedRiskOverlay.classify_regime (-1) = inr "bull_normal"%string /\
  RegimeProfitTakingManager.classify_regime (-1) = "low_vol_complacency"%string.
Proof.
  destruct (classifiers_agree 30) as [Hpos _].
  destruct (classifiers_agree (-1)) as [_ Hneg].
  destruct (Hpos ltac:(lra)) as (H1 & H2 & _).
  destruct (Hneg ltac:(lra)) as (H3 & _ & H4 & _).
  rewrite H1, H2. repeat split; first [exact H3 | exact H4 | reflexivity].
Defined.

(** Breadth and momentum move the regime of
    [_classify_regime_comprehensive] by at most one step away from the
    regime of the VIX band, and never into or out of CRISIS_OPPORTUNITY:
    the answer is CRISIS_OPPORTUNITY exactly when the VIX is 50 or more. *)
Theorem secondary_factors_one_step (state : MarketState) :
  (Z.abs (severity (_classify_regime_comprehensive state) - severity (primary_regime state))
   <= 1)%Z /\
  (_classify_regime_comprehensive state = CRISIS_OPPORTUNITY <-> 50 <= vix_level state).
Proof.
  unfold primary_regime, _classify_regime_comprehensive. cbn -[Py.le Py.lt Py.ge Py.gt].
  destruct (t2108_level state) as [t|], (momentum_ratio state) as [m|];
    repeat (cmp_case; cbn -[Py.le Py.lt Py.ge Py.gt]);
    (split; [cbn; lia | split; intros; first [done | lra]]).
Qed.

(** ** Stop levels *)

(** [RegimeStopLossManager.calculate_stop_level] and
    [IntegratedRiskOverlay.calculate_dynamic_stop] on the bundle of the
    classified regime are the same computation: for every entry price, VIX,
    True Range and optional t2108, either the entry price is not zero and
    both return, with the same stop price, percentage and regime, or the
    entry price is zero and both raise [ZeroDivisionError]. *)
Theorem stop_level_matches_dynamic_stop (entry_price vix_level true_range : Q)
    (t2108_level : option Q) :
  match RegimeStopLossManager.calculate_stop_level entry_price vix_level true_range
          t2108_level,
        (let? regime := IntegratedRiskOverlay.classify_regime vix_level in
         let? config :=
           IntegratedRiskOverlay.getitem IntegratedRiskOverlay.regime_configurations regime in
         IntegratedRiskOverlay.calculate_dynamic_stop entry_price config true_range
           t2108_level)
  with
  | inr a, inr b =>
      ~ entry_price == 0 /\
      RegimeStopLossManager.stop_level a = IntegratedRiskOverlay.ds_price b /\
      RegimeStopLossManager.stop_pct a = IntegratedRiskOverlay.ds_pct b /\
      IntegratedRiskOverlay.classify_regime vix_level = inr (RegimeStopLossManager.regime a)
  | inl e1, inl e2 => e1 = e2 /\ e1 = Py.ZeroDivisionError /\ entry_price == 0
  | _, _ => False
  end.
Proof.
  unfold RegimeStopLossManager.calculate_stop_level, RegimeStopLossManager.classify_regime,
    IntegratedRiskOverlay.classify_regime, IntegratedRiskOverlay.calculate_dynamic_stop.
  unfold RegimeStopLossManager.regime_rules at 1,
    IntegratedRiskOverlay.regime_configurations at 1.
  cbn -[Py.le Py.lt Py.div Py.min Py.gt IntegratedRiskOverlay.getitem].
  repeat (match goal with
          | |- context [if Py.le ?a ?b && ?c then _ else _] => destruct (Py.le a b && c)
          end; cbn -[Py.le Py.lt Py.div Py.min Py.gt IntegratedRiskOverlay.getitem]);
    repeat (match goal with
            | |- context [IntegratedRiskOverlay.getitem ?t ?k] =>
                let v := eval vm_compute in (IntegratedRiskOverlay.getitem t k) in
                change (IntegratedRiskOverlay.getitem t k) with v
            end);
    cbn -[Py.lt Py.div Py.min Py.gt];
    (match goal with |- context [Py.div ?a entry_price] =>
       destruct (div_inv a entry_price _ eq_refl) as [[Hz ->] | [Hnz ->]]
     end; cbn -[Py.lt Py.min Py.gt]; done).
Qed.

(** ** True Range *)

(** [calculate_true_range] reads at most the first two days.  From two
    days on it is the largest of the second day's range and of its two
    gaps to the first day's close, hence never negative, even on a day whose
    high is below its low; with one day it is that day's high minus low;
    with none it raises [IndexError]. *)
Theorem true_range_bounds :
  IntegratedRiskOverlay.calculate_true_range [] = inl Py.IndexError /\
  (forall (day0 : gmap string Q) (high low : Q),
     day0 !! "high" = Some high -> day0 !! "low" = Some low ->
     IntegratedRiskOverlay.calculate_true_range [day0] = inr (high - low)) /\
  (forall (day0 day1 : gmap string Q) (rest : list (gmap string Q)) (high low close : Q),
     day1 !! "high" = Some high -> day1 !! "low" = Some low ->
     day0 !! "close" = Some close ->
     exists tr,
       IntegratedRiskOverlay.calculate_true_range (day0 :: day1 :: rest) = inr tr /\
       0 <= tr /\
       high - low <= tr /\ Qabs (high - close) <= tr /\ Qabs (low - close) <= tr /\
       (tr = high - low \/ tr = Qabs (high - close) \/ tr = Qabs (low - close))).
Proof.
  split; [reflexivity|]. split.
  - intros day0 high low Hh Hl. unfold IntegratedRiskOverlay.calculate_true_range.
    cbn -[Qminus]. unfold IntegratedRiskOverlay.getkey. by rewrite Hh, Hl.
  - intros day0 day1 rest high low close Hh Hl Hc.
    unfold IntegratedRiskOverlay.calculate_true_range.
    cbn -[Py.max Qabs Qminus]. unfold IntegratedRiskOverlay.getkey. rewrite Hh, Hl, Hc.
    cbn -[Py.max Qabs Qminus]. eexists. split; [reflexivity|].
    pose proof (Qabs_nonneg (high - close)) as Hn.
    destruct (max_spec (high - low) (Qabs (high - close))) as [[H1 ->] | [H1 ->]];
      (match goal with |- context [Py.max ?u ?v] =>
         destruct (max_spec u v) as [[H2 ->] | [H2 ->]] end);
      repeat split; try lra; auto.
Qed.

Lemma true_range_bounds_witness :
  exists tr,
    IntegratedRiskOverlay.calculate_true_range
      [ {[ "high" := 44.65; "low" := 43.30; "close" := 44.65 ]};
        {[ "high" := 43.00; "low" := 43.33; "close" := 43.57 ]} ] = inr tr /\
    0 <= tr /\ Qabs (43.00 - 44.65) <= tr.
Proof.
  destruct true_range_bounds as (_ & _ & H).
  set (day0 := {[ "high" := 44.65; "low" := 43.30; "close" := 44.65 ]} : gmap string Q).
  set (day1 := {[ "high" := 43.00; "low" := 43.33; "close" := 43.57 ]} : gmap string Q).
  assert (Hh : day1 !! "high" = Some 43.00) by (vm_compute; reflexivity).
  assert (Hl : day1 !! "low" = Some 43.33) by (vm_compute; reflexivity).
  assert (Hc : day0 !! "close" = Some 44.65) by (vm_compute; reflexivity).
  destruct (H day0 day1 [] _ _ _ Hh Hl Hc) as (tr & Htr & Hpos & _ & Hgap & _).
  exists tr. split; [exact Htr|]. split; [exact Hpos | exact Hgap].
Defined.

(** ** The rolling True-Range history *)

Lemma length_last_n {A} n (l : list A) : length (Py.last_n n l) = Nat.min n (length l).
Proof. unfold Py.last_n. rewrite length_drop. lia. Qed.

Lemma last_last_n {A} n (l : list A) : (0 < n)%nat -> last (Py.last_n n l) = last l.
Proof.
  intros Hn. unfold Py.last_n.
  destruct (decide (length l = 0)%nat) as [H0 | H0].
  { destruct l; [done | cbn in H0; lia]. }
  rewrite !last_lookup, length_drop, lookup_drop. f_equal. lia.
Qed.

Lemma update_rolling_spec symbol tr (r : gmap string (list Q)) :
  let history := Py.last_n 5 (default [] (r !! symbol) ++ [tr]) in
  update_rolling symbol tr r = <[symbol := history]> r /\
  (1 <= length history <= 5)%nat /\
  last history = Some tr.
Proof.
  intros history. subst history. unfold update_rolling.
  set (l := default [] (r !! symbol) ++ [tr]).
  assert (Hlen : (1 <= length l)%nat) by (subst l; rewrite length_app; cbn; lia).
  split; [|split].
  - case_bool_decide; [done|]. f_equal. unfold Py.last_n.
    replace (length l - 5)%nat with 0%nat by lia. done.
  - rewrite length_last_n. lia.
  - rewrite last_last_n by lia. subst l. apply last_snoc.
Qed.

(** Whenever [calculate_adaptive_stop] gets past the regime detection
    (the momentum ratio is defined), even if it then raises on a zero entry
    price, the symbol's True-Range history has become the last five of the
    old history followed by the current observation: between one and five
    entries, the current one last.  The histories of other symbols are not
    touched. *)
Theorem rolling_history_window (symbol : string) (entry_price current_true_range : Q)
    (base_rules : Rules) (market_state : MarketState) (previous_state : option MarketState)
    (sm sm' : AdaptiveStopManager) (r : Py.Res StopData) :
  calculate_adaptive_stop symbol entry_price current_true_range base_rules
    market_state previous_state sm = (sm', r) ->
  momentum_defined market_state previous_state ->
  let history :=
    Py.last_n 5 (default [] (rolling_true_ranges sm !! symbol) ++ [current_true_range]) in
  rolling_true_ranges sm' !! symbol = Some history /\
  (1 <= length history <= 5)%nat /\
  last history = Some current_true_range /\
  (forall other, other <> symbol ->
     rolling_true_ranges sm' !! other = rolling_true_ranges sm !! other).
Proof.
  intros Hcalc Hmom history.
  destruct (update_rolling_spec symbol current_true_range (rolling_true_ranges sm))
    as (Hupd & Hlen & Hlast). fold history in Hupd, Hlen, Hlast.
  assert (Hroll : rolling_true_ranges sm'
                  = <[symbol := history]> (rolling_true_ranges sm)).
  { revert Hcalc. unfold calculate_adaptive_stop, Py.bind at 1, Py.zoom.
    destruct (detect_regime_transition market_state previous_state (regime_manager sm))
      as [rm' r'] eqn:Hd.
    destruct (detect_regime_transition_inv _ _ _ _ _ Hd)
      as [(-> & _ & Hm) | (transition & adjustment & -> & _)]; [done|].
    unfold Py.modify, Py.get, Py.lift, Py.ret, Py.bind.
    cbn -[Py.mean update_rolling Py.gt Py.div Py.min Py.max apply_dynamic_adjustments].
    rewrite Hupd.
    destruct (if Py.gt _ 0 then _ else _) as [e | vf]; [by intros [= <- <-]|].
    destruct (Py.div _ entry_price) as [e | d]; by intros [= <- <-]. }
  rewrite Hroll. split; [apply lookup_insert_eq|]. split; [done|]. split; [done|].
  intros other Hne. by rewrite lookup_insert_ne.
Qed.

Lemma rolling_history_window_witness :
  let sm :=
    mkAdaptiveStopManager DynamicRegimeManager_init {[ "TEST" := [1; 2; 3; 4; 5] ]} in
  let call :=
    calculate_adaptive_stop "TEST" 50.0 6
      (mkRules None (Some (-8.0)) None None (Some 1.8) None None None)
      (MarketState_new 15.0 None None 1) None sm in
  rolling_true_ranges call.1 !! "TEST" = Some [2; 3; 4; 5; 6].
Proof.
  intros sm call.
  destruct (rolling_history_window "TEST" 50.0 6
              (mkRules None (Some (-8.0)) None None (Some 1.8) None None None)
              (MarketState_new 15.0 None None 1) None sm call.1 call.2
              (surjective_pairing call) I) as (H & _).
  rewrite H. vm_compute. reflexivity.
Defined.

(** ** Applying an adjustment to a rule bundle *)

Lemma int_nonneg x : 0 <= x -> (0 <= Py.int x)%Z.
Proof.
  intros H. unfold Py.int. apply Z.quot_pos; [|lia].
  unfold Qle in H. cbn in H. lia.
Qed.

Lemma int_nonpos x : x <= 0 -> (Py.int x <= 0)%Z.
Proof.
  intros H. unfold Py.int.
  assert (Hn : (Qnum x <= 0)%Z) by (unfold Qle in H; cbn in H; lia).
  pose proof (Z.quot_pos (- Qnum x) (Zpos (Qden x)) ltac:(lia) ltac:(lia)) as Hq.
  rewrite Z.quot_opp_l in Hq by lia. lia.
Qed.

Lemma int_le_Z x (n : Z) : 0 <= x -> x <= inject_Z n -> (Py.int x <= n)%Z.
Proof.
  intros H0 Hn. unfold Py.int.
  assert (Hnum : (0 <= Qnum x)%Z) by (unfold Qle in H0; cbn in H0; lia).
  rewrite Z.quot_div_nonneg by lia.
  replace (Qnum x / Z.pos (Qden x))%Z with (Qfloor x) by (by destruct x).
  rewrite <- (Qfloor_Z n). by apply Qfloor_resp_le.
Qed.

Lemma div_urgency_bounds (h : Z) (u : Q) :
  1 < u ->
  (0 <= h)%Z -> 0 <= inject_Z h / u /\ inject_Z h / u <= inject_Z h.
Proof.
  intros Hu Hh.
  assert (H0 : 0 <= inject_Z h) by (change 0 with (inject_Z 0); by rewrite <- Zle_Qle).
  split.
  - apply Qle_shift_div_l; lra.
  - apply Qle_shift_div_r; [lra|]. nra.
Qed.

Lemma div_urgency_nonpos (h : Z) (u : Q) :
  1 < u -> (h <= 0)%Z -> inject_Z h / u <= 0.
Proof.
  intros Hu Hh.
  assert (H0 : inject_Z h <= 0) by (change 0 with (inject_Z 0); by rewrite <- Zle_Qle).
  apply Qle_shift_div_r; lra.
Qed.

(** [apply_dynamic_adjustments] never lengthens the holding period and never
    brings it below one day: with an urgency factor above 1 the adjusted
    [max_hold_override] lies between 1 and [max 1 h], where [h] is the
    bundle's own value; with an urgency factor of at most 1 it is [h]
    unchanged.  The VIX range, the position scaling and the description are
    copied as they are. *)
Theorem adjusted_hold_days (base_rules : Rules) (adjustment : RuleAdjustment) (h : Z) :
  max_hold_override base_rules = Some h ->
  let adjusted := apply_dynamic_adjustments base_rules adjustment in
  exists h',
    max_hold_override adjusted = Some h' /\
    (urgency_factor adjustment <= 1 -> h' = h) /\
    (1 < urgency_factor adjustment -> (1 <= h' <= Z.max 1 h)%Z) /\
    vix_range adjusted = vix_range base_rules /\
    position_scaling adjusted = position_scaling base_rules /\
    description adjusted = description base_rules.
Proof.
  intros Hh adjusted. subst adjusted. cbn. rewrite Hh.
  destruct (Py.gt (urgency_factor adjustment) 1.0) eqn:Hgt.
  - apply gt_true in Hgt. eexists. split; [reflexivity|].
    split; [intros; lra|]. split; [|done]. intros Hu.
    split; [lia|].
    destruct (Z.le_gt_cases 0 h) as [Hpos | Hneg].
    + destruct (div_urgency_bounds h _ Hu Hpos) as [H0 H1].
      pose proof (int_le_Z _ h H0 H1). lia.
    + pose proof (int_nonpos _ (div_urgency_nonpos h _ Hu ltac:(lia))). lia.
  - apply gt_false in Hgt. eexists. split; [reflexivity|].
    split; [done|]. split; [intros; lra | done].
Qed.

Lemma adjusted_hold_days_witness :
  exists h',
    max_hold_override
      (apply_dynamic_adjustments
         (mkRules None (Some (-8.0)) None None (Some 1.8) None (Some 3%Z) None)
         (mkRuleAdjustment 0.6 0.5 5.0 "BREADTH_COLLAPSE_EMERGENCY")) = Some h' /\
    (1 <= h' <= 3)%Z.
Proof.
  destruct (adjusted_hold_days
              (mkRules None (Some (-8.0)) None None (Some 1.8) None (Some 3%Z) None)
              (mkRuleAdjustment 0.6 0.5 5.0 "BREADTH_COLLAPSE_EMERGENCY") 3 eq_refl)
    as (h' & Hh & _ & Hb & _).
  exists h'. split; [exact Hh|]. apply Hb. reflexivity.
Defined.

(** ** What counts as a regime transition *)

(** The entry [_log_transition] appends for a transition. *)
Lemma detect_regime_transition_logged (current previous : MarketState) :
  momentum_defined current (Some previous) ->
  let new_regime := _classify_regime_comprehensive current in
  let transition := bool_decide (new_regime <> regime previous) in
  exists adjustment,
    forall rm,
      detect_regime_transition current (Some previous) rm
        = (mkDynamicRegimeManager
             (adjustment_history rm ++
              (if transition
               then [mkTransitionLog (day current) (RegimeType_value (regime previous))
                       (RegimeType_value new_regime) (vix_level current)
                       (t2108_level current) (momentum_ratio current)
                       (stop_multiplier adjustment) (profit_multiplier adjustment)
                       (urgency_factor adjustment) (reason adjustment)]
               else [])),
           inr (transition, new_regime, adjustment)).
Proof.
  intros Hmom new_regime transition.
  unfold detect_regime_transition. fold new_regime. fold transition.
  unfold Py.bind at 1, Py.lift.
  destruct (_calculate_transition_adjustments current previous new_regime (regime previous))
    as [e | base] eqn:Hbase.
  { exfalso.
    destruct (detect_regime_transition_inv current (Some previous) DynamicRegimeManager_init
                (detect_regime_transition current (Some previous) DynamicRegimeManager_init).1
                (detect_regime_transition current (Some previous) DynamicRegimeManager_init).2
                (surjective_pairing _)) as [(Hr & _ & Hn) | (? & ? & Hr & _)]; [done|].
    revert Hr. unfold detect_regime_transition. fold new_regime.
    unfold Py.bind at 1, Py.lift. by rewrite Hbase. }
  eexists. intros [history]. destruct transition; cbn; [reflexivity|].
  by rewrite app_nil_r.
Qed.

(** [detect_regime_transition] compares the regime classified from the
    current snapshot with the [regime] field recorded in the previous one; it
    never classifies the previous snapshot.  A snapshot built without a
    regime, which is how every caller builds it, records [BULL_NORMAL]: the
    transition flag then says whether the current regime differs from
    [BULL_NORMAL], whatever the previous VIX was.  Exactly when the flag is
    set, one entry is appended to the adjustment history. *)
Theorem transition_against_recorded_regime (current previous : MarketState)
    (rm : DynamicRegimeManager) :
  momentum_defined current (Some previous) ->
  let new_regime := _classify_regime_comprehensive current in
  let transition := bool_decide (new_regime <> regime previous) in
  exists rm' adjustment,
    detect_regime_transition current (Some previous) rm
      = (rm', inr (transition, new_regime, adjustment)) /\
    adjustment_history rm' =
      adjustment_history rm ++
      (if transition
       then [mkTransitionLog (day current) (RegimeType_value (regime previous))
               (RegimeType_value new_regime) (vix_level current) (t2108_level current)
               (momentum_ratio current) (stop_multiplier adjustment)
               (profit_multiplier adjustment) (urgency_factor adjustment)
               (reason adjustment)]
       else []) /\
    (forall vix t2108 momentum d,
       previous = MarketState_new vix t2108 momentum d ->
       transition = bool_decide (new_regime <> BULL_NORMAL)).
Proof.
  intros Hmom new_regime transition.
  destruct (detect_regime_transition_logged current previous Hmom) as [adjustment Hd].
  eexists _, adjustment. split; [apply Hd|]. split; [reflexivity|].
  by intros ? ? ? ? ->.
Qed.

Lemma transition_against_recorded_regime_witness :
  exists rm' adjustment,
    detect_regime_transition (MarketState_new 55 None None 2)
      (Some (MarketState_new 55 None None 1)) DynamicRegimeManager_init
      = (rm', inr (true, CRISIS_OPPORTUNITY, adjustment)) /\
    length (adjustment_history rm') = 1%nat.
Proof.
  destruct (transition_against_recorded_regime (MarketState_new 55 None None 2)
              (MarketState_new 55 None None 1) DynamicRegimeManager_init I)
    as (rm' & adjustment & Hd & Hh & _).
  exists rm', adjustment. split; [exact Hd|]. rewrite Hh. reflexivity.
Defined.

(** ** The profit ladder is ascending *)

(** Percentages are divisions by the constant 100. *)
Ltac percent := unfold Qdiv in *; change (/ 100) with (1 # 100) in *.

(** For a positive entry price, a True Range that is not negative, and a
    bundle whose three profit levels are positive and strictly increasing and
    whose three True-Range multipliers are strictly increasing,
    [calculate_dynamic_profits] returns three targets whose prices are above
    the entry price and strictly increasing, and so are their profit
    percentages. *)
Theorem dynamic_profits_ascending (entry_price true_range : Q) (config : Rules)
    (l0 l1 l2 m0 m1 m2 s0 s1 s2 : Q) :
  0 < entry_price -> 0 <= true_range ->
  0 < l0 -> l0 < l1 -> l1 < l2 ->
  m0 < m1 -> m1 < m2 ->
  profit_levels config = Some [l0; l1; l2] ->
  tr_profit_multipliers config = Some [m0; m1; m2] ->
  position_scaling config = Some [s0; s1; s2] ->
  exists t0 t1 t2,
    IntegratedRiskOverlay.calculate_dynamic_profits entry_price config true_range
      = inr [t0; t1; t2] /\
    entry_price < IntegratedRiskOverlay.pt_price t0 /\
    IntegratedRiskOverlay.pt_price t0 < IntegratedRiskOverlay.pt_price t1 /\
    IntegratedRiskOverlay.pt_price t1 < IntegratedRiskOverlay.pt_price t2 /\
    0 < IntegratedRiskOverlay.pt_pct t0 /\
    IntegratedRiskOverlay.pt_pct t0 < IntegratedRiskOverlay.pt_pct t1 /\
    IntegratedRiskOverlay.pt_pct t1 < IntegratedRiskOverlay.pt_pct t2.
Proof.
  intros He Htr Hl0 Hl1 Hl2 Hm1 Hm2 Hl Hm Hs.
  unfold IntegratedRiskOverlay.calculate_dynamic_profits.
  rewrite Hl, Hm. cbn -[Py.div Py.max Py.gt].
  unfold IntegratedRiskOverlay.profit_target_at.
  rewrite !div_ok, Hs by lra. cbn -[Py.max Py.gt].
  eexists _, _, _. split; [reflexivity|]. cbn -[Py.max].
  set (a0 := entry_price * (1 + l0 / 100)).
  set (a1 := entry_price * (1 + l1 / 100)).
  set (a2 := entry_price * (1 + l2 / 100)).
  set (b0 := entry_price + true_range * m0).
  set (b1 := entry_price + true_range * m1).
  set (b2 := entry_price + true_range * m2).
  assert (Ha0 : entry_price < a0) by (subst a0; percent; nra).
  assert (Ha1 : a0 < a1) by (subst a0 a1; percent; nra).
  assert (Ha2 : a1 < a2) by (subst a1 a2; percent; nra).
  assert (Hb1 : b0 <= b1) by (subst b0 b1; nra).
  assert (Hb2 : b1 <= b2) by (subst b1 b2; nra).
  assert (Hb1' : 0 < true_range -> b0 < b1) by (intros; subst b0 b1; nra).
  assert (Hb2' : 0 < true_range -> b1 < b2) by (intros; subst b1 b2; nra).
  assert (Hb0 : true_range == 0 -> b0 == entry_price /\ b1 == entry_price /\ b2 == entry_price)
    by (intros Hz; subst b0 b1 b2; rewrite Hz; repeat split; ring).
  assert (Hcase : 0 < true_range \/ true_range == 0) by (destruct (Qlt_le_dec 0 true_range); [by left | right; lra]).
  assert (Hp0 : entry_price < Py.max a0 b0)
    by (destruct (max_spec a0 b0) as [[? ->] | [? ->]]; lra).
  assert (Hp1 : Py.max a0 b0 < Py.max a1 b1).
  { destruct (max_spec a0 b0) as [[? ->] | [? ->]];
      destruct (max_spec a1 b1) as [[? ->] | [? ->]]; try lra;
      (destruct Hcase as [Hc | Hc]; [specialize (Hb1' Hc); lra | apply Hb0 in Hc; lra]). }
  assert (Hp2 : Py.max a1 b1 < Py.max a2 b2).
  { destruct (max_spec a1 b1) as [[? ->] | [? ->]];
      destruct (max_spec a2 b2) as [[? ->] | [? ->]]; try lra;
      (destruct Hcase as [Hc | Hc]; [specialize (Hb2' Hc); lra | apply Hb0 in Hc; lra]). }
  assert (Hdiv : forall x y, x < y ->
            (x - entry_price) / entry_price * 100 < (y - entry_price) / entry_price * 100).
  { intros x y Hxy. unfold Qdiv.
    pose proof (Qinv_lt_0_compat _ He) as Hi.
    set (i := / entry_price) in *. nra. }
  assert (Hpos : forall x, entry_price < x -> 0 < (x - entry_price) / entry_price * 100).
  { intros x Hx. unfold Qdiv.
    pose proof (Qinv_lt_0_compat _ He) as Hi.
    set (i := / entry_price) in *. nra. }
  repeat split; try done; try (by apply Hdiv). by apply Hpos.
Qed.

Lemma dynamic_profits_ascending_witness :
  exists t0 t1 t2,
    IntegratedRiskOverlay.calculate_dynamic_profits 100
      (mkRules (Some (15, Fin 30)) (Some (-8.0)) (Some [12; 25; 40]) (Some [25; 50; 100])
         (Some 1.8) (Some [2.0; 3.5; 5.5]) (Some 3%Z) None) 2
      = inr [t0; t1; t2] /\
    100 < IntegratedRiskOverlay.pt_price t0 /\
    IntegratedRiskOverlay.pt_price t0 < IntegratedRiskOverlay.pt_price t1 /\
    IntegratedRiskOverlay.pt_price t1 < IntegratedRiskOverlay.pt_price t2.
Proof.
  destruct (dynamic_profits_ascending 100 2
              (mkRules (Some (15, Fin 30)) (Some (-8.0)) (Some [12; 25; 40])
                 (Some [25; 50; 100]) (Some 1.8) (Some [2.0; 3.5; 5.5]) (Some 3%Z) None)
              12 25 40 2.0 3.5 5.5 25 50 100
              ltac:(lra) ltac:(lra) ltac:(lra) ltac:(lra) ltac:(lra) ltac:(lra) ltac:(lra)
              eq_refl eq_refl eq_refl)
    as (t0 & t1 & t2 & H & H0 & H1 & H2 & _).
  exists t0, t1, t2. repeat split; assumption.
Defined.

(** ** How far an adjustment can go *)

Lemma transition_adjustments_urgency current previous new_regime old_regime a :
  _calculate_transition_adjustments current previous new_regime old_regime = inr a ->
  1 <= urgency_factor a /\ urgency_factor a <= 2.
Proof.
  unfold _calculate_transition_adjustments, adjust_for_momentum, adjust_for_t2108,
    adjust_for_vix.
  destruct (momentum_ratio current) as [mc|], (momentum_ratio previous) as [mp|],
    (t2108_level current) as [tc|], (t2108_level previous) as [tp|];
    cbn -[Py.div Py.lt Py.gt Py.max Qabs];
    try destruct (Py.div mc mp) as [e | d]; cbn -[Py.lt Py.gt Py.max Qabs];
    repeat (match goal with
            | |- context [if ?b then _ else _] => destruct b
            end; cbn -[Py.lt Py.gt Py.max Qabs]);
    intros [= <-]; cbn -[Py.max];
    try (match goal with |- context [Py.max ?u ?v] =>
           destruct (max_spec u v) as [[? ->] | [? ->]] end);
    lra.
Qed.

Lemma check_emergency_protocols_urgency current previous emergency :
  _check_emergency_protocols current previous = Some emergency ->
  urgency_factor emergency <= 3.
Proof.
  unfold _check_emergency_protocols.
  destruct (breadth_collapse_cond _ _); [intros [= <-]; cbn; lra|].
  destruct (volatility_explosion_cond _ _); [intros [= <-]; cbn; lra|].
  destruct (momentum_collapse_cond _ _); [intros [= <-]; cbn; lra | done].
Qed.

(** Whatever the two snapshots, the urgency factor returned by
    [detect_regime_transition] lies between 1 and 3: an emergency protocol is
    combined by maximum, so the factor 0.7 of the volatility-explosion
    protocol never lowers it.  Applied to a rule bundle, such an adjustment
    never lengthens the holding period. *)
Theorem detected_urgency_bounds (current : MarketState) (previous : option MarketState)
    (rm rm' : DynamicRegimeManager) (transition : bool) (new_regime : RegimeType)
    (adjustment : RuleAdjustment) :
  detect_regime_transition current previous rm
    = (rm', inr (transition, new_regime, adjustment)) ->
  1 <= urgency_factor adjustment /\
  urgency_factor adjustment <= 3 /\
  forall base_rules h,
    max_hold_override base_rules = Some h ->
    exists h',
      max_hold_override (apply_dynamic_adjustments base_rules adjustment) = Some h' /\
      (h' <= Z.max 1 h)%Z.
Proof.
  intros Hd.
  assert (Hu : 1 <= urgency_factor adjustment /\ urgency_factor adjustment <= 3).
  { revert Hd. unfold detect_regime_transition. destruct previous as [previous|].
    - unfold Py.bind at 1, Py.lift.
      destruct (_calculate_transition_adjustments _ _ _ _) as [e | base] eqn:Hbase;
        [by intros [= <- ?]|].
      apply transition_adjustments_urgency in Hbase as [H1 H2].
      destruct (_check_emergency_protocols current previous) as [emergency|] eqn:He.
      + apply check_emergency_protocols_urgency in He.
        destruct (bool_decide _); cbn -[Py.max]; intros [= _ _ _ <-]; cbn -[Py.max];
          (match goal with |- context [Py.max ?u ?v] =>
             destruct (max_spec u v) as [[? ->] | [? ->]] end); lra.
      + destruct (bool_decide _); cbn; intros [= _ _ _ <-]; lra.
    - cbn. intros [= _ _ _ <-]. cbn. lra. }
  destruct Hu as [H1 H3]. split; [done|]. split; [done|].
  intros base_rules h Hh. cbn. rewrite Hh.
  destruct (Py.gt (urgency_factor adjustment) 1.0) eqn:Hgt.
  - apply gt_true in Hgt. eexists. split; [reflexivity|].
    destruct (Z.le_gt_cases 0 h) as [Hpos | Hneg].
    + destruct (div_urgency_bounds h (urgency_factor adjustment) ltac:(lra) Hpos)
        as [Ha Hb].
      pose proof (int_le_Z _ h Ha Hb). lia.
    + pose proof (int_nonpos _ (div_urgency_nonpos h (urgency_factor adjustment)
                                  ltac:(lra) ltac:(lia))). lia.
  - eexists. split; [reflexivity | lia].
Qed.

Lemma detected_urgency_bounds_witness :
  exists rm' transition new_regime adjustment,
    detect_regime_transition (MarketState_new 65 None None 2)
      (Some (MarketState_new 40 None None 1)) DynamicRegimeManager_init
      = (rm', inr (transition, new_regime, adjustment)) /\
    1 <= urgency_factor adjustment /\
    reason adjustment
      = "VIX spike +25.0;  + EMERGENCY: Volatility explosion protocol activated".
Proof.
  destruct (detect_regime_transition (MarketState_new 65 None None 2)
              (Some (MarketState_new 40 None None 1)) DynamicRegimeManager_init)
    as [rm' [e | [[transition new_regime] adjustment]]] eqn:Hd;
    [vm_compute in Hd; discriminate|].
  destruct (detected_urgency_bounds _ _ _ _ _ _ _ Hd) as (H1 & _).
  exists rm', transition, new_regime, adjustment.
  split; [reflexivity|]. split; [exact H1|].
  vm_compute in Hd. by injection Hd as _ _ _ <-.
Defined.

(** On a quiet day nothing is adjusted.  When the VIX moved by at most 15
    points, the breadth (if both snapshots carry it) by no less than -25 and
    no more than 20 points, and the momentum ratio (if both carry it) changed
    by a factor between 0.5 and 2, [detect_regime_transition] returns the
    default adjustment: all multipliers 1 and an empty reason; no emergency
    protocol can fire. *)
Theorem quiet_market_default_adjustment (current previous : MarketState)
    (rm : DynamicRegimeManager) :
  Qabs (vix_level current - vix_level previous) <= 15 ->
  (forall c p, t2108_level current = Some c -> t2108_level previous = Some p ->
     -25 <= c - p /\ c - p <= 20) ->
  (forall c p, momentum_ratio current = Some c -> momentum_ratio previous = Some p ->
     0 < p /\ 0.5 * p <= c /\ c <= 2 * p) ->
  exists rm',
    detect_regime_transition current (Some previous) rm
      = (rm', inr (bool_decide (_classify_regime_comprehensive current <> regime previous),
                   _classify_regime_comprehensive current, RuleAdjustment_default)) /\
    _check_emergency_protocols current previous = None.
Proof.
  intros Hvix Ht Hm.
  assert (Hbase : _calculate_transition_adjustments current previous
                    (_classify_regime_comprehensive current) (regime previous)
                  = inr RuleAdjustment_default).
  { unfold _calculate_transition_adjustments, adjust_for_vix.
    rewrite (proj2 (gt_false _ _)) by (unfold transition_thresholds.vix_major_change; lra).
    unfold adjust_for_t2108.
    destruct (t2108_level current) as [tc|] eqn:Htc, (t2108_level previous) as [tp|] eqn:Htp;
      try (destruct (Ht tc tp eq_refl eq_refl) as [Ht1 Ht2];
           rewrite (proj2 (lt_false _ _))
             by (unfold transition_thresholds.t2108_collapse; lra);
           rewrite (proj2 (gt_false _ _))
             by (unfold transition_thresholds.t2108_explosion; lra));
      unfold adjust_for_momentum;
      (destruct (momentum_ratio current) as [mc|] eqn:Hmc,
                (momentum_ratio previous) as [mp|] eqn:Hmp; try reflexivity;
       destruct (Hm mc mp eq_refl eq_refl) as (Hp & Hlo & Hhi);
       rewrite div_ok by lra; cbn -[Py.lt Py.gt];
       rewrite (proj2 (lt_false _ _)) by (apply Qle_shift_div_l; lra);
       rewrite (proj2 (gt_false _ _)) by (apply Qle_shift_div_r; lra);
       reflexivity). }
  assert (Hemergency : _check_emergency_protocols current previous = None).
  { unfold _check_emergency_protocols, breadth_collapse_cond, volatility_explosion_cond,
      momentum_collapse_cond.
    assert (Hv : Py.gt (vix_level current - vix_level previous) 20 = false).
    { apply gt_false. pose proof (Qle_Qabs (vix_level current - vix_level previous)). lra. }
    rewrite Hv, andb_false_r.
    destruct (t2108_level current) as [tc|] eqn:Htc, (t2108_level previous) as [tp|] eqn:Htp;
      try (destruct (Ht tc tp eq_refl eq_refl) as [Ht1 Ht2];
           rewrite (proj2 (lt_false _ _)) by lra);
      (destruct (momentum_ratio current) as [mc|] eqn:Hmc,
                (momentum_ratio previous) as [mp|] eqn:Hmp; try reflexivity;
       destruct (Hm mc mp eq_refl eq_refl) as (Hp & Hlo & Hhi);
       destruct (Py.lt mc 0.1) eqn:H1; [|reflexivity];
       destruct (Py.gt mp 1.0) eqn:H2; [|reflexivity];
       apply lt_true in H1; apply gt_true in H2; lra). }
  unfold detect_regime_transition, Py.bind at 1, Py.lift. rewrite Hbase, Hemergency.
  destruct (bool_decide _); cbn; eauto.
Qed.

Lemma quiet_market_default_adjustment_witness :
  exists rm',
    detect_regime_transition (MarketState_new 22 (Some 45) (Some 1.1) 2)
      (Some (MarketState_new 18 (Some 50) (Some 1.0) 1)) DynamicRegimeManager_init
    = (rm', inr (false, BULL_NORMAL, RuleAdjustment_default)).
Proof.
  destruct (quiet_market_default_adjustment (MarketState_new 22 (Some 45) (Some 1.1) 2)
              (MarketState_new 18 (Some 50) (Some 1.0) 1) DynamicRegimeManager_init)
    as (rm' & Hd & _).
  - vm_compute. discriminate.
  - intros c p [= <-] [= <-]. split; vm_compute; discriminate.
  - intros c p [= <-] [= <-]. repeat split; vm_compute; try reflexivity; discriminate.
  - exists rm'. exact Hd.
Defined.

(** ** The daily loop of the overlay *)

Section Overlay.
Import IntegratedRiskOverlay.

Lemma regime_configurations_table vix_level :
  exists regime config b m l0 l1 l2 m0 m1 m2 s0 s1 s2,
    classify_regime vix_level = inr regime /\
    getitem regime_configurations regime = inr config /\
    stop_loss_pct config = Some b /\
    tr_stop_multiplier config = Some m /\
    profit_levels config = Some [l0; l1; l2] /\
    tr_profit_multipliers config = Some [m0; m1; m2] /\
    position_scaling config = Some [s0; s1; s2] /\
    0 <= s0 /\ s0 <= s1 /\ s1 <= s2.
Proof.
  unfold classify_regime, regime_configurations.
  cbn -[Py.le Py.lt].
  repeat (match goal with
          | |- context [if ?b && ?c then _ else _] => destruct (b && c)
          end; cbn -[Py.le Py.lt]);
    eexists _, _, _, _, _, _, _, _, _, _, _, _, _;
    (split; [reflexivity|]); (split; [vm_compute; reflexivity|]);
    repeat (split; [reflexivity|]); repeat split; lra.
Qed.

Lemma results_update_nothing r :
  results_update r (mkDayResults None None None None None (Some (res_execution_log r ++ [])))
  = r.
Proof. destruct r. unfold results_update. cbn. by rewrite app_nil_r. Qed.

Lemma process_profit_levels_ok day high n profit_levels : forall i r dr,
  process_profit_levels day high r i profit_levels = inr dr ->
  Forall (fun t => 0 <= pt_position_to_close t) profit_levels ->
  (i + length profit_levels <= n)%nat ->
  overlay_ok n r ->
  res_stop_triggered r = false ->
  let r' := results_update r dr in
  overlay_ok n r' /\
  res_stop_triggered r' = false /\
  (length (res_execution_log r') <= length (res_execution_log r) + 1)%nat /\
  res_entry_price r' = res_entry_price r.
Proof.
  induction profit_levels as [|t ts IH]; intros i r dr Hp Hpos Hn Hok Hstop.
  - injection Hp as <-. cbn zeta. rewrite results_update_nothing.
    split; [done|]. split; [done|]. split; [lia | done].
  - cbn -[Py.ge Py.gt Py.div Py.max] in Hp.
    apply Forall_cons in Hpos as [Ht Hts]. cbn in Hn.
    destruct (Py.ge high (pt_price t) && bool_decide (i ∉ res_profit_levels_hit r)
              && Py.gt (res_remaining_position r) 0) eqn:Hc.
    + apply andb_prop in Hc as [Hc Hgt]. apply andb_prop in Hc as [_ Hnew].
      apply bool_decide_eq_true in Hnew. apply gt_true in Hgt.
      destruct (Py.div _ _) as [e | d]; [done|]. injection Hp as <-.
      destruct Hok as (H0 & H100 & Hs & Hnd & Hlt & Hlen & Hadj).
      unfold results_update. cbn -[Py.max]. rewrite Hstop in *.
      split; [|split; [done|split; [rewrite length_app; cbn; lia | done]]].
      repeat split; cbn -[Py.max Qle Qlt Qeq Qminus].
      * destruct (max_spec 0 (res_remaining_position r - pt_position_to_close t))
          as [[? ->] | [? ->]]; lra.
      * destruct (max_spec 0 (res_remaining_position r - pt_position_to_close t))
          as [[? ->] | [? ->]]; lra.
      * done.
      * apply NoDup_app. split; [done|]. split; [|apply NoDup_singleton].
        intros j Hj Hj'. apply list_elem_of_singleton in Hj' as ->. done.
      * apply Forall_app. split; [done|]. apply Forall_singleton. lia.
      * rewrite !length_app. cbn. lia.
      * done.
    + apply (IH (S i) r dr Hp Hts); [lia | done | done].
Qed.

Lemma process_daily_prices_ok day price_data r stop_level profit_levels config dr n :
  process_daily_prices day price_data r stop_level profit_levels config = inr dr ->
  Forall (fun t => 0 <= pt_position_to_close t) profit_levels ->
  (length profit_levels <= n)%nat ->
  overlay_ok n r ->
  res_stop_triggered r = false ->
  let r' := results_update r dr in
  overlay_ok n r' /\
  (length (res_execution_log r') <= length (res_execution_log r) + 1)%nat /\
  res_entry_price r' = res_entry_price r.
Proof.
  intros Hp Hpos Hn Hok Hstop. unfold process_daily_prices in Hp.
  destruct (getkey "low" price_data) as [e | low]; [done|]. cbn -[Py.le Py.gt Py.div] in Hp.
  destruct (Py.le low (ds_price stop_level) && negb (res_stop_triggered r)
            && Py.gt (res_remaining_position r) 0) eqn:Hc.
  - destruct (Py.div _ _) as [e | d]; [done|]. injection Hp as <-.
    destruct Hok as (H0 & H100 & Hs & Hnd & Hlt & Hlen & Hadj).
    unfold results_update. cbn. rewrite Hstop in *.
    split; [|split; [rewrite length_app; cbn; lia | done]].
    repeat split; cbn -[Qle Qlt Qeq]; try done; try lra. rewrite length_app. cbn. lia.
  - destruct profit_levels as [|t ts].
    + injection Hp as <-. cbn zeta. rewrite results_update_nothing.
      split; [done|]. split; [lia | done].
    + destruct (getkey "high" price_data) as [e | high]; [done|].
      destruct (process_profit_levels_ok day high n (t :: ts) 0 r dr Hp Hpos Hn Hok Hstop)
        as (? & ? & ? & ?). done.
Qed.

Lemma monitor_ok entry_price vix_level true_range regime stop_level profit_levels config n :
  Forall (fun t => 0 <= pt_position_to_close t) profit_levels ->
  (length profit_levels <= n)%nat ->
  forall daily_prices day r r',
    monitor entry_price vix_level true_range regime day daily_prices r stop_level
      profit_levels config = inr r' ->
    overlay_ok n r ->
    res_stop_triggered r = false ->
    overlay_ok n r' /\
    (length (res_execution_log r') <= length (res_execution_log r) + length daily_prices)%nat /\
    res_entry_price r' = res_entry_price r.
Proof.
  intros Hpos Hn. induction daily_prices as [|d ds IH]; intros day r r' Hm Hok Hstop.
  - injection Hm as <-. split; [done|]. split; [lia | done].
  - cbn -[process_daily_prices results_update] in Hm.
    destruct (process_daily_prices day d r stop_level profit_levels config)
      as [e | dr] eqn:Hp; [done|].
    destruct (process_daily_prices_ok _ _ _ _ _ _ _ n Hp Hpos Hn Hok Hstop)
      as (Hok1 & Hlen1 & He1).
    cbn -[results_update] in Hm.
    destruct (res_stop_triggered (results_update r dr)
              || Qeq_bool (res_remaining_position (results_update r dr)) 0) eqn:Hbrk.
    + injection Hm as <-. split; [done|]. split; [cbn [length]; lia | done].
    + apply orb_false_elim in Hbrk as [Hstop1 _].
      unfold detect_significant_regime_change in Hm. rewrite andb_false_r in Hm.
      cbn -[results_update] in Hm.
      destruct (IH _ _ _ Hm Hok1 Hstop1) as (Hok' & Hlen' & He').
      split; [done|]. split; [cbn [length]; lia | congruence].
Qed.

(** Whenever [execute_integrated_overlay] returns, the entry price is not
    zero and there is at least one day of prices; between nothing and the
    whole position is left; a triggered stop leaves nothing; no profit level
    is executed twice and only the levels 0, 1, 2 exist; the execution log
    has one entry per executed level plus one for the stop, and at most one
    entry per day; the regime-change placeholder has not touched the
    results; the final performance repeats the stop flag. *)
Theorem overlay_execution_invariants (entry_price : Q) (daily_prices : list (gmap string Q))
    (vix_level : Q) (t2108_level momentum_ratio : option Q)
    (results : Results) (final_performance : FinalPerformance) :
  execute_integrated_overlay entry_price daily_prices vix_level t2108_level momentum_ratio
    = inr (results, final_performance) ->
  ~ entry_price == 0 /\
  daily_prices <> [] /\
  overlay_ok 3 results /\
  (length (res_execution_log results) <= length daily_prices)%nat /\
  res_entry_price results = entry_price /\
  fp_risk_management_triggered final_performance = res_stop_triggered results.
Proof.
  destruct (regime_configurations_table vix_level)
    as (regime & config & b & m & l0 & l1 & l2 & m0 & m1 & m2 & s0 & s1 & s2 &
        Hc & Hg & Hb & Hm & Hl & Hms & Hs & Hs0 & Hs1 & Hs2).
  unfold execute_integrated_overlay. rewrite Hc. cbn -[getitem]. rewrite Hg.
  cbn -[calculate_true_range calculate_dynamic_stop calculate_dynamic_profits monitor
        calculate_final_performance].
  destruct (calculate_true_range (take 2 daily_prices)) as [e | true_range] eqn:Htr; [done|].
  cbn -[calculate_dynamic_stop calculate_dynamic_profits monitor calculate_final_performance].
  destruct (calculate_dynamic_stop entry_price config true_range t2108_level)
    as [e | stop_level] eqn:Hstop; [done|].
  assert (Hentry : ~ entry_price == 0).
  { revert Hstop. unfold calculate_dynamic_stop. rewrite Hb, Hm. cbn -[Py.div Py.min Py.lt Py.gt].
    match goal with |- context [Py.div ?a entry_price] =>
      destruct (div_inv a entry_price _ eq_refl) as [[Hz ->] | [Hnz ->]]
    end; done. }
  destruct (dynamic_profits_three_levels entry_price true_range config
              l0 l1 l2 m0 m1 m2 s0 s1 s2 Hentry Hl Hms Hs) as (t0 & t1 & t2 & Hp & Hcl).
  cbn -[calculate_dynamic_profits monitor calculate_final_performance].
  rewrite Hp. cbn -[monitor calculate_final_performance].
  injection Hcl as Hc0 Hc1 Hc2.
  match goal with |- context [monitor _ _ _ _ _ _ ?r0 _ _ _] => set (r0' := r0) end.
  destruct (monitor _ _ _ _ _ _ r0' _ _ _) as [e | r'] eqn:Hmon; [done|].
  assert (Hok0 : overlay_ok 3 r0').
  { subst r0'. repeat split; cbn; try done; try lra; constructor. }
  assert (Hpos : Forall (fun t => 0 <= pt_position_to_close t) [t0; t1; t2])
    by (repeat constructor; rewrite ?Hc0, ?Hc1, ?Hc2; lra).
  destruct (monitor_ok _ _ _ _ _ _ _ 3 Hpos (le_n 3) _ _ _ _ Hmon Hok0 eq_refl)
    as (Hok & Hlen & He).
  cbn -[calculate_final_performance].
  destruct (last daily_prices) as [final|] eqn:Hlast; [|done].
  cbn -[calculate_final_performance].
  unfold calculate_final_performance.
  destruct (if Py.gt _ 0 && _ then _ else _) as [e | total]; [done|].
  cbn. intros [= <- <-]. cbn.
  split; [done|]. split; [by intros ->|]. split; [done|]. split; [cbn in Hlen; lia|]. done.
Qed.

Lemma overlay_execution_invariants_witness :
  exists results final_performance,
    execute_integrated_overlay 45.66
      [ {[ "high" := 44.65; "low" := 43.30; "close" := 44.65 ]};
        {[ "high" := 46.01; "low" := 43.33; "close" := 43.57 ]};
        {[ "high" := 44.28; "low" := 41.70; "close" := 42.62 ]};
        {[ "high" := 41.53; "low" := 36.76; "close" := 37.45 ]} ] 15.43 None None
      = inr (results, final_performance) /\
    overlay_ok 3 results /\
    res_stop_triggered results = true.
Proof.
  destruct (execute_integrated_overlay 45.66
      [ {[ "high" := 44.65; "low" := 43.30; "close" := 44.65 ]};
        {[ "high" := 46.01; "low" := 43.33; "close" := 43.57 ]};
        {[ "high" := 44.28; "low" := 41.70; "close" := 42.62 ]};
        {[ "high" := 41.53; "low" := 36.76; "close" := 37.45 ]} ] 15.43 None None)
    as [e | [results final_performance]] eqn:Hcall.
  { vm_compute in Hcall. discriminate. }
  exists results, final_performance. split; [reflexivity|].
  split; [exact (proj1 (proj2 (proj2 (overlay_execution_invariants _ _ _ _ _ _ _ Hcall))))|].
  vm_compute in Hcall. by injection Hcall as <- _.
Defined.

Lemma getkey_Some key (d : gmap string Q) :
  is_Some (d !! key) -> exists v, getkey key d = inr v.
Proof. intros [v Hv]. exists v. unfold getkey. by rewrite Hv. Qed.

Lemma calculate_true_range_returns daily_prices :
  daily_prices <> [] -> Forall has_prices daily_prices ->
  exists true_range, calculate_true_range (take 2 daily_prices) = inr true_range.
Proof.
  intros Hne Hall. destruct daily_prices as [|d0 [|d1 ds]]; [done | |].
  - apply Forall_cons in Hall as [(Hh & Hl & _) _].
    apply (getkey_Some "high") in Hh as [h Hh]. apply (getkey_Some "low") in Hl as [l Hl].
    unfold calculate_true_range. cbn -[getkey]. rewrite Hh. cbn -[getkey]. rewrite Hl. eauto.
  - apply Forall_cons in Hall as [(_ & _ & Hc) Hall].
    apply Forall_cons in Hall as [(Hh & Hl & _) _].
    apply (getkey_Some "high") in Hh as [h Hh]. apply (getkey_Some "low") in Hl as [l Hl].
    apply (getkey_Some "close") in Hc as [c Hc].
    unfold calculate_true_range. cbn -[getkey Py.max Qabs Qminus].
    rewrite Hh. cbn -[getkey Py.max Qabs Qminus]. rewrite Hl.
    cbn -[getkey Py.max Qabs Qminus]. rewrite Hc. eauto.
Qed.

Lemma process_profit_levels_returns day high r profit_levels :
  ~ res_entry_price r == 0 ->
  forall i, exists dr, process_profit_levels day high r i profit_levels = inr dr.
Proof.
  intros He. induction profit_levels as [|t ts IH]; intros i; [cbn; eauto|].
  cbn -[Py.ge Py.gt Py.div Py.max].
  destruct (_ && _ && _); [|apply IH].
  rewrite div_ok by done. cbn -[Py.max]. eauto.
Qed.

Lemma process_daily_prices_returns day price_data r stop_level profit_levels config :
  ~ res_entry_price r == 0 -> has_prices price_data ->
  exists dr, process_daily_prices day price_data r stop_level profit_levels config = inr dr.
Proof.
  intros He (Hh & Hl & _).
  apply (getkey_Some "high") in Hh as [h Hh]. apply (getkey_Some "low") in Hl as [l Hl].
  unfold process_daily_prices. rewrite Hl. cbn -[Py.le Py.gt Py.div getkey].
  destruct (_ && _ && _).
  - rewrite div_ok by done. cbn. eauto.
  - destruct profit_levels as [|t ts]; [eauto|]. rewrite Hh.
    apply process_profit_levels_returns. done.
Qed.

Lemma results_update_entry_price r dr :
  res_entry_price (results_update r dr) = res_entry_price r.
Proof. reflexivity. Qed.

Lemma monitor_returns entry_price vix_level true_range regime stop_level profit_levels config :
  forall daily_prices day r,
    ~ res_entry_price r == 0 -> Forall has_prices daily_prices ->
    exists r',
      monitor entry_price vix_level true_range regime day daily_prices r stop_level
        profit_levels config = inr r' /\
      res_entry_price r' = res_entry_price r.
Proof.
  induction daily_prices as [|d ds IH]; intros day r He Hall; [cbn; eauto|].
  apply Forall_cons in Hall as [Hd Hds].
  destruct (process_daily_prices_returns day d r stop_level profit_levels config He Hd)
    as [dr Hdr].
  cbn -[process_daily_prices results_update]. rewrite Hdr.
  cbn -[process_daily_prices results_update].
  destruct (_ || _); [eauto|].
  unfold detect_significant_regime_change. rewrite andb_false_r.
  cbn -[process_daily_prices results_update].
  destruct (IH (S day) (results_update r dr)) as (r' & Hr' & He'); [done | done |].
  exists r'. split; [done|]. by rewrite He'.
Qed.

(** Outcome of [execute_integrated_overlay].  Without any day of prices it
    raises [IndexError].  When every day carries its high, low and close:
    with an entry price of zero it raises [ZeroDivisionError]; with any other
    entry price, whatever the VIX and the breadth, it returns. *)
Theorem overlay_outcome (entry_price : Q) (daily_prices : list (gmap string Q))
    (vix_level : Q) (t2108_level momentum_ratio : option Q) :
  let call :=
    execute_integrated_overlay entry_price daily_prices vix_level t2108_level
      momentum_ratio in
  (daily_prices = [] -> call = inl Py.IndexError) /\
  (daily_prices <> [] -> Forall has_prices daily_prices ->
   (entry_price == 0 -> call = inl Py.ZeroDivisionError) /\
   (~ entry_price == 0 ->
    exists results final_performance, call = inr (results, final_performance))).
Proof.
  intros call. subst call.
  destruct (regime_configurations_table vix_level)
    as (regime & config & b & m & l0 & l1 & l2 & m0 & m1 & m2 & s0 & s1 & s2 &
        Hc & Hg & Hb & Hm & Hl & Hms & Hs & _).
  unfold execute_integrated_overlay. rewrite Hc. cbn -[getitem]. rewrite Hg.
  cbn -[calculate_true_range calculate_dynamic_stop calculate_dynamic_profits monitor
        calculate_final_performance].
  split; [by intros ->|]. intros Hne Hall.
  destruct (calculate_true_range_returns daily_prices Hne Hall) as [true_range ->].
  cbn -[calculate_dynamic_stop calculate_dynamic_profits monitor calculate_final_performance].
  unfold calculate_dynamic_stop. rewrite Hb, Hm. cbn -[Py.div Py.min Py.lt Py.gt
    calculate_dynamic_profits monitor calculate_final_performance].
  split; [intros Hz; by rewrite div_zero|]. intros Hentry. rewrite div_ok by done.
  cbn -[Py.div Py.min Py.lt Py.gt calculate_dynamic_profits monitor
        calculate_final_performance].
  destruct (dynamic_profits_three_levels entry_price true_range config
              l0 l1 l2 m0 m1 m2 s0 s1 s2 Hentry Hl Hms Hs) as (t0 & t1 & t2 & -> & _).
  cbn -[Py.div Py.min Py.lt Py.gt monitor calculate_final_performance].
  match goal with |- context [monitor _ _ _ _ _ _ ?r0 ?sl ?pl _] =>
    destruct (monitor_returns entry_price vix_level true_range regime sl pl config
                daily_prices 0 r0 Hentry Hall) as (r' & -> & He)
  end.
  cbn -[calculate_final_performance]. cbn in He.
  destruct (last daily_prices) as [final|] eqn:Hlast;
    [|apply last_None in Hlast; done].
  assert (Hfinal : has_prices final).
  { apply (proj1 (Forall_forall _ _) Hall). apply last_Some in Hlast as [l' ->].
    set_solver. }
  destruct Hfinal as (_ & _ & Hclose). apply (getkey_Some "close") in Hclose as [c Hclose].
  cbn -[calculate_final_performance]. unfold calculate_final_performance.
  rewrite Hclose, He. cbn -[Py.div Py.gt]. rewrite div_ok by done.
  destruct (Py.gt _ 0 && _); cbn; eauto.
Qed.

Lemma overlay_outcome_witness :
  exists results final_performance,
    execute_integrated_overlay 45.66
      [ {[ "high" := 44.65; "low" := 43.30; "close" := 44.65 ]};
        {[ "high" := 46.01; "low" := 43.33; "close" := 43.57 ]} ] 15.43 (Some 70) None
      = inr (results, final_performance).
Proof.
  set (day0 := {[ "high" := 44.65; "low" := 43.30; "close" := 44.65 ]} : gmap string Q).
  set (day1 := {[ "high" := 46.01; "low" := 43.33; "close" := 43.57 ]} : gmap string Q).
  assert (H0 : has_prices day0) by (repeat split; vm_compute; eauto).
  assert (H1 : has_prices day1) by (repeat split; vm_compute; eauto).
  apply (proj2 (overlay_outcome 45.66 [day0; day1] 15.43 (Some 70) None)).
  - done.
  - by repeat constructor.
  - intros H. vm_compute in H. discriminate.
Defined.

End Overlay.

(** ** The profit-taking simulation *)

Section Simulation.
Import RegimeProfitTakingManager.

Lemma simulate_day_ok entry_price day high_price all_targets sim :
  simulation_ok all_targets day sim ->
  forall profit_targets, profit_targets ⊆ all_targets ->
    let sim' := simulate_day entry_price day high_price profit_targets sim in
    simulation_ok all_targets (S day) sim' /\
    (length (executed_levels sim') <= S (length (executed_levels sim)))%nat.
Proof.
  intros (Hl & Hd & Hday & Hex & Hlast).
  induction profit_targets as [|t ts IH]; intros Hsub.
  - cbn. split; [|lia]. repeat split; try done.
    eapply Forall_impl; [exact Hday|]. cbn. intros; lia.
  - cbn -[Py.ge]. destruct (Py.ge high_price (price_target t) && _) eqn:Hc.
    + apply andb_prop in Hc as [_ Hnew]. apply bool_decide_eq_true in Hnew.
      assert (Ht : t ∈ all_targets) by (apply Hsub; constructor).
      split; [|cbn; rewrite length_app; cbn; lia].
      unfold simulation_ok. cbn. rewrite !map_app. cbn. repeat split.
      * apply NoDup_app. split; [done|]. split; [|apply NoDup_singleton].
        intros x Hx Hx'. apply list_elem_of_singleton in Hx' as ->. done.
      * apply NoDup_app. split; [done|]. split; [|apply NoDup_singleton].
        intros x Hx Hx'. apply list_elem_of_singleton in Hx' as ->.
        apply list_elem_of_fmap in Hx as (e & He & Hin).
        apply (proj1 (Forall_forall _ _) Hday) in Hin. lia.
      * apply Forall_app. split.
        -- eapply Forall_impl; [exact Hday|]. cbn. intros; lia.
        -- apply Forall_singleton. cbn. lia.
      * apply Forall_app. split; [done|]. apply Forall_singleton. cbn. eauto.
      * rewrite last_snoc. cbn. eauto.
    + apply IH. intros x Hx. apply Hsub. by constructor.
Qed.

Lemma simulate_days_ok entry_price profit_targets daily_highs : forall day sim,
  simulation_ok profit_targets day sim ->
  let sim' := simulate_days entry_price day daily_highs profit_targets sim in
  simulation_ok profit_targets (day + length daily_highs) sim' /\
  (length (executed_levels sim') <= length (executed_levels sim) + length daily_highs)%nat.
Proof.
  induction daily_highs as [|h hs IH]; intros day sim Hok.
  - cbn. rewrite Nat.add_0_r. split; [done | lia].
  - cbn [simulate_days length].
    destruct (simulate_day_ok entry_price day h profit_targets sim Hok profit_targets
                ltac:(done)) as [Hok1 Hlen1].
    destruct (IH (S day) _ Hok1) as [Hok' Hlen'].
    cbn zeta. replace (day + S (length hs))%nat with (S day + length hs)%nat by lia.
    split; [done | lia].
Qed.

(** [simulate_profit_taking] executes at most one level per day and no level
    twice: the executed levels are pairwise different, so are their days
    (numbered from 1 to the number of days), each execution is at the price
    of a target of that level and closes that target's [position_to_close],
    and the remaining position reported is the whole position when nothing
    executed, otherwise the [remaining_position] of the target executed
    last. *)
Theorem simulate_profit_taking_accounting (entry_price : Q) (daily_highs : list Q)
    (profit_targets : list ProfitTarget) :
  let sim := simulate_profit_taking entry_price daily_highs profit_targets in
  simulation_ok profit_targets (length daily_highs) sim /\
  (length (executed_levels sim) <= length daily_highs)%nat /\
  (length (executed_levels sim) <= length profit_targets)%nat.
Proof.
  intros sim. subst sim. unfold simulate_profit_taking.
  destruct (simulate_days_ok entry_price profit_targets daily_highs 0 (mkSimulation [] 100 0))
    as [Hok Hlen].
  { unfold simulation_ok. cbn. repeat split; constructor. }
  cbn zeta in Hok, Hlen. cbn [executed_levels length Nat.add] in Hlen.
  split; [done|]. split; [done|].
  destruct Hok as (Hnd & _ & _ & Hex & _).
  set (executed := executed_levels _) in *.
  rewrite <- (length_map ex_level executed), <- (length_map level profit_targets).
  apply submseteq_length, NoDup_submseteq; [done|].
  intros x Hx. apply list_elem_of_fmap in Hx as (e & -> & He).
  apply (proj1 (Forall_forall _ _) Hex) in He as (t & Ht & Hlevel & _).
  apply list_elem_of_fmap. eauto.
Qed.

End Simulation.

(** ** Performance by regime *)

Section RegimePerformance.
Import MultiLayerBacktester.

Lemma count_trade_lookup regime_stats trade regime :
  count_trade regime_stats trade !! regime
  = if decide (regime_of trade = regime) then count_in (regime_stats !! regime) trade
    else regime_stats !! regime.
Proof.
  unfold count_trade. fold (regime_of trade).
  destruct (decide (regime_of trade = regime)) as [<- | Hne].
  - rewrite !lookup_alter_eq. case_bool_decide as Hin.
    + destruct Hin as [stats Hs]. rewrite Hs. reflexivity.
    + rewrite lookup_insert_eq.
      assert (regime_stats !! regime_of trade = None) as -> by (by apply eq_None_not_Some).
      reflexivity.
  - rewrite !lookup_alter_ne by done. case_bool_decide; [done|].
    by rewrite lookup_insert_ne.
Qed.

Lemma count_all_lookup regime trade_results : forall regime_stats,
  foldl count_trade regime_stats trade_results !! regime
  = foldl count_in (regime_stats !! regime)
      (filter (fun trade => regime_of trade = regime) trade_results).
Proof.
  induction trade_results as [|trade trades IH]; intros regime_stats; [done|].
  cbn [foldl]. rewrite IH, count_trade_lookup, filter_cons.
  destruct (decide (regime_of trade = regime)); reflexivity.
Qed.

Lemma count_in_all trades : forall stats,
  foldl count_in (Some stats) trades
  = Some (mkRegimeStats (rs_trades stats + length trades)
            (foldl (fun total trade => total + default 0.0 (tr_return_pct trade))
               (rs_total_return stats) trades)
            (rs_avg_return stats)).
Proof.
  induction trades as [|trade trades IH]; intros stats.
  - cbn. rewrite Nat.add_0_r. by destruct stats.
  - cbn [foldl].
    change (count_in (Some stats) trade)
      with (Some (mkRegimeStats (rs_trades stats + 1)
                    (rs_total_return stats + default 0.0 (tr_return_pct trade))
                    (rs_avg_return stats))).
    rewrite IH. cbn [rs_trades rs_total_return rs_avg_return length]. do 2 f_equal. lia.
Qed.

(** [analyze_regime_performance] regime by regime.  A regime has an entry
    exactly when some trade is counted under it, a trade without a regime
    being counted under "unknown"; the entry then holds the number of these
    trades, the sum of their [return_pct] taken in the order of the list
    (a missing one counting 0), and that sum divided by that number. *)
Theorem regime_performance_by_regime (trade_results : list Trade) (regime : string) :
  let of_regime := filter (fun trade => regime_of trade = regime) trade_results in
  let total :=
    foldl (fun total trade => total + default 0.0 (tr_return_pct trade)) 0.0 of_regime in
  analyze_regime_performance trade_results !! regime
  = match of_regime with
    | [] => None
    | _ :: _ =>
        Some (mkRegimeStats (length of_regime) total
                (Some (total / inject_Z (Z.of_nat (length of_regime)))))
    end.
Proof.
  intros of_regime total. unfold analyze_regime_performance.
  rewrite lookup_fmap, count_all_lookup, lookup_empty. fold of_regime.
  subst total. destruct of_regime as [|trade trades]; [done|].
  cbn [foldl].
  change (count_in None trade)
    with (Some (mkRegimeStats (0 + 1) (0.0 + default 0.0 (tr_return_pct trade)) None)).
  rewrite count_in_all. cbn [fmap option_fmap option_map with_average rs_trades
    rs_total_return rs_avg_return length].
  replace (0 + 1 + length trades)%nat with (S (length trades)) by lia.
  unfold with_average. cbn [rs_trades rs_total_return rs_avg_return].
  rewrite bool_decide_eq_true_2 by lia. reflexivity.
Qed.

End RegimePerformance.

(** ** The ledger of the risk manager *)

Section Ledger.
Import UltimateRiskManager.

Lemma stays_refl fr : stays 0 fr fr.
Proof. unfold stays. rewrite Z.add_0_r. done. Qed.

Lemma stays_trans a b fr1 fr2 fr3 :
  stays a fr1 fr2 -> stays b fr2 fr3 -> stays (a + b) fr1 fr3.
Proof.
  intros (A1 & P1 & T1 & M1 & D1 & R1 & N1) (A2 & P2 & T2 & M2 & D2 & R2 & N2).
  unfold stays. rewrite A2, P2, T2, D2, D1. repeat split; auto. lia.
Qed.

Lemma stays_closes symbol a fr1 fr2 fr3 :
  stays a fr1 fr2 -> closes symbol fr2 fr3 -> closes symbol fr1 fr3.
Proof.
  intros (A1 & P1 & T1 & M1 & _) (A2 & M2 & pnl & log & P2 & T2 & S2).
  unfold closes. rewrite A2, P2, T2, A1, P1, T1. split; [done|]. split; [auto|]. eauto.
Qed.

Lemma stays_is_Some symbol n fr fr' :
  stays n fr fr' ->
  is_Some (active_positions (f_self fr) !! symbol) ->
  is_Some (active_positions (f_self fr') !! symbol).
Proof. intros (-> & _). done. Qed.

(** [_close_position] on a position of which nothing remains. *)
Lemma close_position_closes symbol why exit_price fr :
  Py.gt (TradePosition.remaining_position (f_position fr)) 0 = false ->
  is_Some (active_positions (f_self fr) !! symbol) ->
  exists fr',
    _close_position symbol why exit_price fr = (fr', inr tt) /\
    f_position fr' = f_position fr /\
    f_actions_taken fr' = f_actions_taken fr /\
    closes symbol fr fr'.
Proof.
  intros Hgt Hin. unfold _close_position, Py.bind, Py.get.
  rewrite bool_decide_eq_true_2 by done. rewrite Hgt.
  cbn. eexists. split; [reflexivity|]. cbn. split; [done|]. split; [done|].
  split; [done|]. split; [done|]. eexists _, _. cbn. done.
Qed.

(** A frame whose manager is that of [fr]. *)
Lemma closes_same_self symbol fr0 fr fr' :
  f_self fr0 = f_self fr -> closes symbol fr0 fr' -> closes symbol fr fr'.
Proof. unfold closes. by intros ->. Qed.

Lemma check_stop_loss_summary symbol low_price fr fr' r :
  is_Some (active_positions (f_self fr) !! symbol) ->
  check_stop_loss symbol low_price fr = (fr', r) ->
  phase_summary symbol fr fr' r.
Proof.
  intros Hin. unfold check_stop_loss, the_position, Py.bind at 1.
  destruct (_ && _); [|intros [= <- <-]; apply stays_refl].
  unfold Py.bind at 1, Py.lift.
  destruct (Py.div _ _) as [e | d]; [intros [= <- <-]; apply stays_refl|].
  unfold assign, append_action, Py.modify, Py.bind at 1 2 3 4 5. cbn.
  match goal with |- context [_close_position ?s ?w ?x] =>
    match goal with |- (_ ?f) = _ -> _ =>
      destruct (close_position_closes s w x f eq_refl Hin) as (fr1 & Hc & Hp & Ha & Hd)
    end
  end.
  unfold Py.bind. rewrite Hc. unfold return_closed, Py.bind, Py.get, Py.ret.
  intros [= <- <-]. split; [done|]. eapply closes_same_self; [|exact Hd]. done.
Qed.

Lemma check_profit_levels_summary symbol high_price pairs : forall i fr fr' r,
  is_Some (active_positions (f_self fr) !! symbol) ->
  check_profit_levels symbol high_price i pairs fr = (fr', r) ->
  phase_summary symbol fr fr' r.
Proof.
  induction pairs as [|[profit_target scale_pct] pairs IH]; intros i fr fr' r Hin.
  { cbn. intros [= <- <-]. apply stays_refl. }
  cbn [check_profit_levels]. unfold the_position, Py.bind at 1.
  destruct (_ && _) eqn:Hcond; [|by apply IH].
  apply andb_prop in Hcond as [Hcond _]. apply andb_prop in Hcond as [_ Hnew].
  apply bool_decide_eq_true in Hnew.
  unfold Py.bind at 1, Py.lift.
  match goal with |- context [if ?b then Py.index ?l ?n else inr 0] =>
    destruct (if b then Py.index l n else inr 0) as [e | prev]
  end; [intros [= <- <-]; apply stays_refl|].
  unfold Py.bind at 1.
  destruct (Py.div _ _) as [e | d]; [intros [= <- <-]; apply stays_refl|].
  unfold assign, append_action, Py.modify, Py.bind at 1 2 3 4 5. cbn.
  match goal with |- context [Py.le ?x 0] => destruct (Py.le x 0) eqn:Hle end.
  - match goal with |- context [_close_position ?s ?w ?x] =>
      match goal with |- (_ ?f) = _ -> _ =>
        destruct (close_position_closes s w x f (gt_zero_of_le_zero _ Hle) Hin)
          as (fr1 & Hc & Hp & Ha & Hd)
      end
    end.
    unfold Py.bind. rewrite Hc. unfold return_closed, Py.bind, Py.get, Py.ret.
    intros [= <- <-]. split; [done|]. eapply closes_same_self; [|exact Hd]. done.
  - intros H. apply IH in H; [|done].
    match type of H with phase_summary _ ?f _ _ => assert (Hk : stays 0 fr f) end.
    { unfold stays. cbn. rewrite Z.add_0_r. repeat split; try done.
      - intros _. apply le_false in Hle. exact Hle.
      - intros Hnd. apply NoDup_app. split; [done|]. split; [|apply NoDup_singleton].
        intros j Hj Hj'. apply list_elem_of_singleton in Hj' as ->. done. }
    unfold phase_summary in *. destruct r as [e | [result|]].
    + apply (stays_trans 0 0 _ _ _ Hk H).
    + destruct H as [? H]. split; [done|]. by eapply stays_closes.
    + apply (stays_trans 0 0 _ _ _ Hk H).
Qed.

Lemma on_regime_manager_market {A} (m : Py.M DynamicRegimeManager A) fr fr' r :
  on_self (on_regime_manager m) fr = (fr', r) ->
  f_position fr' = f_position fr /\
  active_positions (f_self fr') = active_positions (f_self fr) /\
  trade_history (f_self fr') = trade_history (f_self fr) /\
  performance_history (f_self fr') = performance_history (f_self fr) /\
  current_market_state (f_self fr') = current_market_state (f_self fr).
Proof.
  unfold on_self, on_regime_manager, Py.zoom.
  destruct (m _) as [rm' r']. intros [= <- <-]. done.
Qed.

Lemma check_regime_changes_summary market_data fr fr' r :
  check_regime_changes market_data fr = (fr', r) -> stays 0 fr fr'.
Proof.
  unfold check_regime_changes, Py.bind at 1, Py.get.
  destruct (Py.gt _ _); [|intros [= <- <-]; apply stays_refl].
  intros H. apply bind_inv in H as [(e & H & ->) | (fr1 & [[tr nr] adj] & H & H')];
    apply on_regime_manager_market in H as (Hp & Ha & Ht & Hpf & Hm).
  { unfold stays, market_ok. rewrite Hp, Ha, Ht, Hpf, Hm, Z.add_0_r. done. }
  destruct (_ && _).
  - unfold assign, append_action, the_position, on_self, Py.zoom, Py.modify, Py.bind in H'.
    cbn in H'. injection H' as <- <-. unfold stays, market_ok. cbn.
    rewrite Hp, Ha, Ht, Hpf, Z.add_0_r. repeat split; try done.
    intros _ state [= <-]. done.
  - injection H' as <- <-.
    unfold stays, market_ok. rewrite Hp, Ha, Ht, Hpf, Hm, Z.add_0_r. done.
Qed.

Lemma check_time_exit_summary symbol close_price current_pnl_pct fr fr' r :
  is_Some (active_positions (f_self fr) !! symbol) ->
  check_time_exit symbol close_price current_pnl_pct fr = (fr', r) ->
  exists result,
    r = inr result /\
    if is_closed result then closes symbol fr fr'
    else fr' = fr /\
         (0 < TradePosition.remaining_position (f_position fr) ->
          (TradePosition.days_held (f_position fr) < 5)%Z).
Proof.
  intros Hin. unfold check_time_exit, the_position, Py.bind at 1.
  destruct (_ && _) eqn:Hc.
  - unfold assign, append_action, Py.modify, Py.bind at 1 2 3. cbn.
    match goal with |- context [_close_position ?s ?w ?x] =>
      match goal with |- (_ ?f) = _ -> _ =>
        destruct (close_position_closes s w x f eq_refl Hin) as (fr1 & Hcl & Hp & Ha & Hd)
      end
    end.
    unfold Py.bind. rewrite Hcl. unfold Py.get, Py.ret.
    intros [= <- <-]. eexists. split; [reflexivity|]. cbn.
    eapply closes_same_self; [|exact Hd]. done.
  - unfold Py.bind, Py.get, Py.ret. intros [= <- <-].
    eexists. split; [reflexivity|]. cbn. split; [done|].
    intros Hrem. apply andb_false_iff in Hc as [Hc | Hc].
    + apply bool_decide_eq_false in Hc. lia.
    + apply gt_false in Hc. lra.
Qed.

Ltac ledger_cbn :=
  cbn -[check_stop_loss check_profit_levels check_regime_changes check_time_exit
        Py.div Py.max Py.min Py.bind].

Lemma update_body_summary symbol current_price_data market_data fr fr' r :
  is_Some (active_positions (f_self fr) !! symbol) ->
  update_body symbol current_price_data market_data fr = (fr', r) ->
  body_summary symbol 1 fr fr' r.
Proof.
  intros Hin. unfold update_body.
  unfold assign, the_position, Py.modify, Py.lift, Py.bind at 1 2. ledger_cbn.
  assert (Hstay : forall fr0,
            f_self fr0 = f_self fr ->
            TradePosition.days_held (f_position fr0)
              = (TradePosition.days_held (f_position fr) + 1)%Z ->
            TradePosition.remaining_position (f_position fr0)
              = TradePosition.remaining_position (f_position fr) ->
            TradePosition.profit_levels_hit (f_position fr0)
              = TradePosition.profit_levels_hit (f_position fr) ->
            stays 1 fr fr0).
  { intros fr0 Hs Hd Hr Hh. unfold stays. rewrite Hs, Hd, Hr, Hh. done. }
  unfold Py.bind at 1. destruct (Py.div _ _) as [e | pnl]; ledger_cbn.
  { intros [= <- <-]. by apply Hstay. }
  unfold Py.bind at 1. destruct (Py.div _ _) as [e | dh]; ledger_cbn.
  { intros [= <- <-]. by apply Hstay. }
  unfold Py.bind at 1 2. ledger_cbn. destruct (Py.div _ _) as [e | dl]; ledger_cbn.
  { intros [= <- <-]. by apply Hstay. }
  unfold Py.bind at 1. ledger_cbn.
  match goal with |- (_ ?f) = _ -> _ => set (fr0 := f) end.
  assert (Hk0 : stays 1 fr fr0) by by apply Hstay.
  assert (Hrem0 : TradePosition.remaining_position (f_position fr0)
                  = TradePosition.remaining_position (f_position fr)) by done.
  intros H. apply bind_inv in H as [(e & H & ->) | (fr1 & stopped & H & H1)].
  { apply check_stop_loss_summary in H; [|done]. apply (stays_trans 1 0 _ _ _ Hk0 H). }
  apply check_stop_loss_summary in H; [|done].
  destruct stopped as [result|].
  { injection H1 as <- <-. destruct H as [Hc H]. unfold body_summary. rewrite Hc.
    by eapply stays_closes. }
  cbn in H. assert (Hk1 : stays 1 fr fr1) by apply (stays_trans 1 0 _ _ _ Hk0 H).
  unfold Py.bind at 1 in H1. cbn in H1.
  apply bind_inv in H1 as [(e & H1 & ->) | (fr2 & taken & H1 & H2)].
  { apply check_profit_levels_summary in H1; [|by eapply stays_is_Some].
    apply (stays_trans 1 0 _ _ _ Hk1 H1). }
  apply check_profit_levels_summary in H1; [|by eapply stays_is_Some].
  destruct taken as [result|].
  { injection H2 as <- <-. destruct H1 as [Hc H1]. unfold body_summary. rewrite Hc.
    by eapply stays_closes. }
  cbn in H1. assert (Hk2 : stays 1 fr fr2) by apply (stays_trans 1 0 _ _ _ Hk1 H1).
  apply bind_inv in H2 as [(e & H2 & ->) | (fr3 & [] & H2 & H3)].
  { apply check_regime_changes_summary in H2. apply (stays_trans 1 0 _ _ _ Hk2 H2). }
  apply check_regime_changes_summary in H2.
  assert (Hk3 : stays 1 fr fr3) by apply (stays_trans 1 0 _ _ _ Hk2 H2).
  apply check_time_exit_summary in H3 as (result & -> & H3); [|by eapply stays_is_Some].
  unfold body_summary. destruct (is_closed result).
  - by eapply stays_closes.
  - destruct H3 as [-> H3]. split; [done|]. intros Hrem.
    destruct Hk3 as (_ & _ & _ & _ & _ & Hr & _). auto.
Qed.

(** What one call of [update_position] does to the ledger and to the
    position it updates. *)
Lemma update_position_summary symbol current_price_data market_data self self' r :
  update_position symbol current_price_data market_data self = (self', r) ->
  (market_ok self -> market_ok self') /\
  match active_positions self !! symbol with
  | None => self' = self /\ r = inl (Py.ValueError ("Position " +:+ symbol +:+ " not found"))
  | Some p =>
      if match r with inr result => is_closed result | inl _ => false end then
        active_positions self' = delete symbol (active_positions self) /\
        exists pnl log,
          performance_history self' = performance_history self ++ [pnl] /\
          trade_history self' = trade_history self ++ [POSITION_CLOSED log] /\
          cl_symbol log = symbol
      else
        performance_history self' = performance_history self /\
        trade_history self' = trade_history self /\
        exists p',
          active_positions self' = <[symbol := p']> (active_positions self) /\
          TradePosition.days_held p' = (TradePosition.days_held p + 1)%Z /\
          (NoDup (TradePosition.profit_levels_hit p) ->
           NoDup (TradePosition.profit_levels_hit p')) /\
          (0 < TradePosition.remaining_position p ->
           0 < TradePosition.remaining_position p' /\
           (is_Some (match r with inr result => Some result | inl _ => None end) ->
            (TradePosition.days_held p' < 5)%Z))
  end.
Proof.
  unfold update_position. destruct (active_positions self !! symbol) as [p|] eqn:Hp.
  2: { intros [= <- <-]. done. }
  destruct (update_body _ _ _ _) as [fr' r'] eqn:Hb. intros [= <- <-].
  apply update_body_summary in Hb; [|cbn; eauto].
  assert (Hstays : stays 1 (mkFrame self p []) fr' ->
    (market_ok self -> market_ok (leave symbol fr')) /\
    performance_history (leave symbol fr') = performance_history self /\
    trade_history (leave symbol fr') = trade_history self /\
    active_positions (leave symbol fr') = <[symbol := f_position fr']> (active_positions self) /\
    TradePosition.days_held (f_position fr') = (TradePosition.days_held p + 1)%Z /\
    (0 < TradePosition.remaining_position p ->
     0 < TradePosition.remaining_position (f_position fr')) /\
    (NoDup (TradePosition.profit_levels_hit p) ->
     NoDup (TradePosition.profit_levels_hit (f_position fr')))).
  { intros (Ha & Hpf & Ht & Hm & Hd & Hr & Hn). cbn in Ha, Hpf, Ht, Hm, Hd, Hr, Hn.
    unfold leave.
    rewrite bool_decide_eq_true_2 by (rewrite Ha; eauto). cbn. rewrite Ha. done. }
  assert (Hcloses : closes symbol (mkFrame self p []) fr' ->
    (market_ok self -> market_ok (leave symbol fr')) /\
    active_positions (leave symbol fr') = delete symbol (active_positions self) /\
    exists pnl log,
      performance_history (leave symbol fr') = performance_history self ++ [pnl] /\
      trade_history (leave symbol fr') = trade_history self ++ [POSITION_CLOSED log] /\
      cl_symbol log = symbol).
  { intros (Ha & Hm & Hl). cbn in Ha, Hm, Hl. unfold leave.
    rewrite bool_decide_eq_false_2; [done|].
    rewrite Ha, lookup_delete_eq. by intros [? ?]. }
  unfold body_summary in Hb. destruct r' as [e | result].
  - destruct (Hstays Hb) as (Hm & Hpf & Ht & Ha & Hd & Hr & Hn).
    split; [done|]. split; [done|]. split; [done|]. eexists. split; [done|].
    split; [done|]. split; [done|]. intros Hrem. split; [auto|]. by intros [? ?].
  - destruct (is_closed result).
    + destruct (Hcloses Hb) as (Hm & Ha & Hl). done.
    + destruct Hb as [Hb Hdays]. destruct (Hstays Hb) as (Hm & Hpf & Ht & Ha & Hd & Hr & Hn).
      split; [done|]. split; [done|]. split; [done|]. eexists. split; [done|].
      split; [done|]. split; [done|]. intros Hrem. split; [auto|]. intros _. by apply Hdays.
Qed.

End Ledger.

(** ** Opening a position, step by step *)

Section Opening.
Import UltimateRiskManager.

Ltac trace_cbn :=
  cbn -[Py.bind Py.div IntegratedRiskOverlay.classify_regime IntegratedRiskOverlay.getitem
        IntegratedRiskOverlay.calculate_dynamic_profits apply_dynamic_adjustments
        calculate_adaptive_stop detect_regime_transition
        IntegratedRiskOverlay.regime_configurations _classify_regime_comprehensive
        Qminus Qmult Qdiv Qplus].

(** The calls [open_position] makes, in order, and what it stores. *)
Lemma open_position_trace symbol entry_price market_data position_size self self' r :
  open_position symbol entry_price market_data position_size self = (self', r) ->
  let vix_level := default 20.0 (market_data !! "vix") in
  let true_range := default (entry_price * 0.02) (market_data !! "true_range") in
  let previous := current_market_state self in
  let current :=
    MarketState_new vix_level (market_data !! "t2108") (market_data !! "momentum_ratio")
      (Z.of_nat (length (regime_history self)) + 1) in
  (self' = self \/ current_market_state self' = Some current) /\
  match r with
  | inl _ =>
      active_positions self' = active_positions self /\
      trade_history self' = trade_history self /\
      performance_history self' = performance_history self
  | inr result =>
      active_positions self !! symbol = None /\
      ~ entry_price == 0 /\
      exists regime base_rules rm1 transition adjustments stop_data p log,
        IntegratedRiskOverlay.classify_regime vix_level = inr regime /\
        IntegratedRiskOverlay.getitem IntegratedRiskOverlay.regime_configurations regime
          = inr base_rules /\
        detect_regime_transition current previous (regime_manager (stop_manager self))
          = (rm1, inr (transition, _classify_regime_comprehensive current, adjustments)) /\
        calculate_adaptive_stop symbol entry_price true_range
          (apply_dynamic_adjustments base_rules adjustments) current previous
          (set_regime_manager rm1 (stop_manager self))
          = (stop_manager self', inr stop_data) /\
        active_positions self' = <[symbol := p]> (active_positions self) /\
        trade_history self' = trade_history self ++ [POSITION_OPENED log] /\
        performance_history self' = performance_history self /\
        TradePosition.remaining_position p = 100.0 /\
        TradePosition.profit_levels_hit p = [] /\
        TradePosition.days_held p = 0%Z /\
        TradePosition.entry_price p = entry_price /\
        TradePosition.stop_level p = sd_stop_level stop_data /\
        or_stop_level result = sd_stop_level stop_data /\
        or_stop_distance_pct result
          = (sd_stop_level stop_data - entry_price) / entry_price * 100 /\
        or_regime_transition_detected result = transition /\
        or_entry_price result = entry_price /\
        or_regime result = regime /\
        TradePosition.vix_at_entry p = vix_level /\
        TradePosition.regime_at_entry p = regime /\
        current_market_state self' = Some current /\
        exists profit_levels,
          IntegratedRiskOverlay.calculate_dynamic_profits entry_price
            (apply_dynamic_adjustments base_rules adjustments) true_range
            = inr profit_levels /\
          or_profit_targets result = map IntegratedRiskOverlay.pt_price profit_levels /\
          TradePosition.profit_levels p = map IntegratedRiskOverlay.pt_price profit_levels
  end.
Proof.
  intros Hopen vix_level true_range previous current. revert Hopen.
  unfold open_position, Py.bind at 1, Py.get.
  destruct (bool_decide _) eqn:Hact.
  { intros [= <- <-]. split; [by left | done]. }
  apply bool_decide_eq_false in Hact.
  unfold Py.modify, Py.bind at 1 2. trace_cbn.
  fold vix_level. fold true_range. fold previous. fold current.
  unfold Py.bind at 1, Py.lift.
  destruct (IntegratedRiskOverlay.classify_regime vix_level) as [e | regime] eqn:Hc.
  { intros [= <- <-]. split; [by right | done]. }
  unfold Py.bind at 1.
  destruct (IntegratedRiskOverlay.getitem _ regime) as [e | base_rules] eqn:Hg.
  { intros [= <- <-]. split; [by right | done]. }
  unfold Py.bind at 1, on_regime_manager, Py.zoom. trace_cbn.
  destruct (detect_regime_transition current previous (regime_manager (stop_manager self)))
    as [rm1 r1] eqn:Hd.
  destruct (detect_regime_transition_inv _ _ _ _ _ Hd)
    as [(-> & _ & _) | (transition & adjustments & -> & _)].
  { intros [= <- <-]. split; [by right | done]. }
  unfold Py.bind at 1, on_stop_manager, Py.zoom. trace_cbn.
  match goal with |- context [calculate_adaptive_stop ?a ?b ?c ?d ?e ?f ?g] =>
    destruct (calculate_adaptive_stop a b c d e f g) as [sm2 r2] eqn:Hs
  end.
  pose proof (calculate_adaptive_stop_inv _ _ _ _ _ _ _ _ _ Hs) as Hinv.
  destruct r2 as [e | stop_data].
  { intros [= <- <-]. split; [by right | done]. }
  destruct Hinv as [Hentry _].
  unfold Py.bind at 1.
  destruct (IntegratedRiskOverlay.calculate_dynamic_profits _ _ _)
    as [e | profit_levels] eqn:Hp.
  { intros [= <- <-]. split; [by right | done]. }
  unfold Py.bind at 1 2. trace_cbn.
  unfold Py.bind, Py.ret. rewrite div_ok by done.
  intros [= <- <-]. split; [by right|].
  split; [by apply eq_None_not_Some|]. split; [done|].
  eexists regime, base_rules, rm1, transition, adjustments, stop_data, _, _.
  split; [done|]. split; [done|]. split; [done|]. split; [exact Hs|].
  cbn. repeat (split; [reflexivity|]).
  exists profit_levels. split; [exact Hp|]. split; reflexivity.
Qed.

(** The stop [calculate_adaptive_stop] returns is clamped, and its level is
    the entry price moved by that percentage. *)
Lemma calculate_adaptive_stop_clamped symbol entry_price current_true_range base_rules
    market_state previous_state sm sm' stop_data :
  calculate_adaptive_stop symbol entry_price current_true_range base_rules
    market_state previous_state sm = (sm', inr stop_data) ->
  -25 <= sd_stop_pct stop_data /\ sd_stop_pct stop_data <= -2 /\
  sd_stop_level stop_data = entry_price * (1 + sd_stop_pct stop_data / 100).
Proof.
  unfold calculate_adaptive_stop, Py.bind at 1, Py.zoom.
  destruct (detect_regime_transition market_state previous_state (regime_manager sm))
    as [rm' [e | [[transition new_regime] adjustment]]]; [done|].
  unfold Py.modify, Py.get, Py.lift, Py.ret, Py.bind.
  cbn -[Py.mean update_rolling Py.gt Py.div Py.min Py.max apply_dynamic_adjustments].
  destruct (if Py.gt _ 0 then _ else _) as [e | vf]; [done|].
  destruct (Py.div _ entry_price) as [e | d]; [done|].
  intros [= _ <-]. cbn -[Py.min Py.max].
  match goal with |- context [Py.min (Py.max ?x _) _] =>
    pose proof (clamp_bounds x) as [H1 H2] end.
  done.
Qed.

(** The regime manager after [calculate_adaptive_stop] is the one its
    regime detection leaves. *)
Lemma calculate_adaptive_stop_regime_manager symbol entry_price current_true_range base_rules
    market_state previous_state sm :
  regime_manager
    (calculate_adaptive_stop symbol entry_price current_true_range base_rules
       market_state previous_state sm).1
  = (detect_regime_transition market_state previous_state (regime_manager sm)).1.
Proof.
  unfold calculate_adaptive_stop, Py.bind at 1, Py.zoom.
  destruct (detect_regime_transition market_state previous_state (regime_manager sm))
    as [rm' [e | [[transition new_regime] adjustment]]]; [done|].
  unfold Py.modify, Py.get, Py.lift, Py.ret, Py.bind.
  cbn -[Py.mean update_rolling Py.gt Py.div Py.min Py.max apply_dynamic_adjustments].
  destruct (if Py.gt _ 0 then _ else _) as [e | vf]; [done|].
  destruct (Py.div _ entry_price) as [e | d]; done.
Qed.

End Opening.

(** ** Properties of the managers a caller can reach *)

Section Reachable.
Import UltimateRiskManager.

Lemma openings_app h1 h2 : openings (h1 ++ h2) = (openings h1 + openings h2)%nat.
Proof. unfold openings. by rewrite List.filter_app, length_app. Qed.

Lemma closings_app h1 h2 : closings (h1 ++ h2) = (closings h1 + closings h2)%nat.
Proof. unfold closings. by rewrite List.filter_app, length_app. Qed.

Lemma reachable_ledger self :
  reachable self ->
  market_ok self /\
  (forall symbol p, active_positions self !! symbol = Some p ->
     0 < TradePosition.remaining_position p /\ (0 <= TradePosition.days_held p)%Z /\
     NoDup (TradePosition.profit_levels_hit p)) /\
  openings (trade_history self)
    = (size (active_positions self) + closings (trade_history self))%nat /\
  length (performance_history self) = closings (trade_history self).
Proof.
  induction 1 as [| self symbol entry_price market_data position_size _ IH
                  | self symbol current_price_data market_data _ IH].
  - split; [done|]. split; [intros s p; cbn; by rewrite lookup_empty|]. done.
  - destruct IH as (Hm & Hpos & Hbal & Hperf).
    destruct (open_position _ _ _ _ _) as [self' r] eqn:Ho. cbn.
    apply open_position_trace in Ho. cbn zeta in Ho. destruct Ho as [Hmarket Ho].
    assert (Hm' : market_ok self').
    { destruct Hmarket as [-> | Hc]; [done|]. intros state. rewrite Hc. by intros [= <-]. }
    split; [done|]. destruct r as [e | result].
    + destruct Ho as (-> & -> & ->). done.
    + destruct Ho as (Hnone & _ & regime & base_rules & rm1 & transition & adjustments &
                      stop_data & p & log & _ & _ & _ & _ & -> & -> & -> & Hrem & Hhit &
                      Hdays & _).
      split; [|split].
      * intros s q. destruct (decide (symbol = s)) as [-> | Hne].
        -- rewrite lookup_insert_eq. intros [= <-]. rewrite Hrem, Hdays, Hhit.
           split; [lra|]. split; [lia | constructor].
        -- rewrite lookup_insert_ne by done. apply Hpos.
      * rewrite openings_app, closings_app, map_size_insert_None by done. cbn. lia.
      * rewrite closings_app. cbn. lia.
  - destruct IH as (Hm & Hpos & Hbal & Hperf).
    destruct (update_position _ _ _ _) as [self' r] eqn:Hu. cbn.
    apply update_position_summary in Hu as [Hmarket Hu].
    split; [auto|].
    destruct (active_positions self !! symbol) as [p|] eqn:Hp.
    2: { destruct Hu as [-> _]. done. }
    destruct (Hpos symbol p Hp) as (Hrem & Hdays & Hnd).
    destruct (match r with inr result => is_closed result | inl _ => false end).
    + destruct Hu as (-> & pnl & log & -> & -> & _). split; [|split].
      * intros s q. destruct (decide (symbol = s)) as [-> | Hne].
        -- by rewrite lookup_delete_eq.
        -- rewrite lookup_delete_ne by done. apply Hpos.
      * rewrite openings_app, closings_app, map_size_delete_Some by eauto. cbn.
        assert (size (active_positions self) <> 0%nat)
          by (apply (map_size_ne_0_lookup_2 _ symbol); eauto).
        lia.
      * rewrite length_app, closings_app. cbn. lia.
    + destruct Hu as (-> & -> & p' & -> & Hd & Hn & Hr). split; [|split; [|done]].
      * intros s q. destruct (decide (symbol = s)) as [-> | Hne].
        -- rewrite lookup_insert_eq. intros [= <-].
           split; [by apply Hr|]. split; [lia | auto].
        -- rewrite lookup_insert_ne by done. apply Hpos.
      * rewrite map_size_insert_Some by eauto. done.
Qed.

(** In every manager a caller can reach, each opening recorded in the trade
    history is matched by a position of the active set or by exactly one
    closing, and the performance history has one return per closing: no
    position is closed twice and none leaves the active set without being
    accounted for. *)
Theorem trade_ledger_balanced (self : UltimateRiskManager.t) :
  reachable self ->
  openings (trade_history self)
    = (size (active_positions self) + closings (trade_history self))%nat /\
  length (performance_history self) = closings (trade_history self).
Proof. intros Hreach. by destruct (reachable_ledger self Hreach) as (_ & _ & ? & ?). Qed.

Lemma trade_ledger_balanced_witness :
  let market_data : gmap string Q := {[ "vix" := 20 ]} in
  let opened := (open_position "XYZ" 100 market_data None init).1 in
  let updated :=
    (update_position "XYZ" {[ "high" := 101; "low" := 90; "close" := 91 ]} market_data
       opened).1 in
  openings (trade_history updated) = 1%nat /\
  size (active_positions updated) = 0%nat /\
  length (performance_history updated) = 1%nat.
Proof.
  intros market_data opened updated.
  destruct (trade_ledger_balanced updated
              (reach_update opened "XYZ" {[ "high" := 101; "low" := 90; "close" := 91 ]}
                 market_data (reach_open init "XYZ" 100 market_data None reach_init)))
    as [Hbal Hperf].
  assert (Hc : closings (trade_history updated) = 1%nat) by (vm_compute; reflexivity).
  assert (Hs : size (active_positions updated) = 0%nat) by (vm_compute; reflexivity).
  rewrite Hc, Hs in Hbal. rewrite Hc in Hperf.
  split; [exact Hbal|]. split; [exact Hs | exact Hperf].
Defined.

(** Every position of the active set of a reachable manager has something
    left, a [days_held] that is not negative, and no profit level recorded
    twice: a position of which nothing remains is never left in the active
    set, and no profit level executes twice on one position. *)
Theorem active_positions_have_remainder (self : UltimateRiskManager.t) (symbol : string)
    (p : TradePosition.t) :
  reachable self ->
  active_positions self !! symbol = Some p ->
  0 < TradePosition.remaining_position p /\
  (0 <= TradePosition.days_held p)%Z /\
  NoDup (TradePosition.profit_levels_hit p).
Proof.
  intros Hreach Hp. destruct (reachable_ledger self Hreach) as (_ & Hpos & _). eauto.
Qed.

Lemma active_positions_have_remainder_witness :
  let market_data : gmap string Q := {[ "vix" := 20 ]} in
  let opened := (open_position "XYZ" 100 market_data None init).1 in
  let updated :=
    (update_position "XYZ" {[ "high" := 126; "low" := 99; "close" := 110 ]} market_data
       opened).1 in
  exists p,
    active_positions updated !! "XYZ" = Some p /\
    TradePosition.profit_levels_hit p = [0%nat; 1%nat] /\
    0 < TradePosition.remaining_position p.
Proof.
  intros market_data opened updated.
  destruct (active_positions updated !! "XYZ") as [p|] eqn:Hp; [|vm_compute in Hp; discriminate].
  destruct (active_positions_have_remainder updated "XYZ" p
              (reach_update opened "XYZ" {[ "high" := 126; "low" := 99; "close" := 110 ]}
                 market_data (reach_open init "XYZ" 100 market_data None reach_init)) Hp)
    as (Hrem & _).
  exists p. split; [reflexivity|]. split; [|exact Hrem].
  vm_compute in Hp. by injection Hp as <-.
Defined.

(** What one call of [update_position] on an active symbol does to the
    books.  When it reports [CLOSED], the symbol has left the active set, one
    return is appended to the performance history and one closing of that
    symbol to the trade history.  Otherwise, whether it reports [ACTIVE] or
    raises, both histories are as they were and the position is still active
    with [days_held] increased by one.  In both cases the positions of the
    other symbols are untouched. *)
Theorem update_position_ledger (symbol : string)
    (current_price_data market_data : gmap string Q)
    (self self' : UltimateRiskManager.t) (r : Py.Res UpdateResult) (p : TradePosition.t) :
  active_positions self !! symbol = Some p ->
  update_position symbol current_price_data market_data self = (self', r) ->
  (forall other, other <> symbol ->
     active_positions self' !! other = active_positions self !! other) /\
  if match r with inr result => is_closed result | inl _ => false end then
    active_positions self' !! symbol = None /\
    exists pnl log,
      performance_history self' = performance_history self ++ [pnl] /\
      trade_history self' = trade_history self ++ [POSITION_CLOSED log] /\
      cl_symbol log = symbol
  else
    performance_history self' = performance_history self /\
    trade_history self' = trade_history self /\
    exists p',
      active_positions self' !! symbol = Some p' /\
      TradePosition.days_held p' = (TradePosition.days_held p + 1)%Z.
Proof.
  intros Hp Hu. apply update_position_summary in Hu as [_ Hu]. rewrite Hp in Hu.
  destruct (match r with inr result => is_closed result | inl _ => false end).
  - destruct Hu as (-> & Hl). split; [|split; [apply lookup_delete_eq | done]].
    intros other Hne. by rewrite lookup_delete_ne.
  - destruct Hu as (Hpf & Ht & p' & -> & Hd & _).
    split; [intros other Hne; by rewrite lookup_insert_ne|].
    split; [done|]. split; [done|]. exists p'. by rewrite lookup_insert_eq.
Qed.

Lemma update_position_ledger_witness :
  let market_data : gmap string Q := {[ "vix" := 20 ]} in
  let opened := (open_position "XYZ" 100 market_data None init).1 in
  let call :=
    update_position "XYZ" {[ "high" := 101; "low" := 99; "close" := 100 ]} market_data
      opened in
  performance_history call.1 = [] /\
  exists p', active_positions call.1 !! "XYZ" = Some p' /\ TradePosition.days_held p' = 1%Z.
Proof.
  intros market_data opened call.
  destruct (active_positions opened !! "XYZ") as [p|] eqn:Hp; [|vm_compute in Hp; discriminate].
  assert (Hdays : TradePosition.days_held p = 0%Z)
    by (vm_compute in Hp; by injection Hp as <-).
  pose proof (update_position_ledger "XYZ" {[ "high" := 101; "low" := 99; "close" := 100 ]}
                market_data opened call.1 call.2 p Hp (surjective_pairing call)) as [_ H].
  assert (Hr : match call.2 with inr result => is_closed result | inl _ => false end = false)
    by (vm_compute; reflexivity).
  rewrite Hr in H. destruct H as (Hpf & _ & p' & Hp' & Hd).
  split; [rewrite Hpf; vm_compute; reflexivity|].
  exists p'. split; [exact Hp'|]. rewrite Hd, Hdays. reflexivity.
Defined.

(** The time-based exit bounds the holding period: when [update_position]
    returns on a position of a reachable manager that has already been held
    for four days or more, the result is [CLOSED] and the symbol has left the
    active set. *)
Theorem time_exit_closes (symbol : string) (current_price_data market_data : gmap string Q)
    (self self' : UltimateRiskManager.t) (result : UpdateResult) (p : TradePosition.t) :
  reachable self ->
  active_positions self !! symbol = Some p ->
  (4 <= TradePosition.days_held p)%Z ->
  update_position symbol current_price_data market_data self = (self', inr result) ->
  is_closed result = true /\
  active_positions self' !! symbol = None /\
  length (performance_history self') = S (length (performance_history self)).
Proof.
  intros Hreach Hp Hdays Hu.
  destruct (reachable_ledger self Hreach) as (_ & Hpos & _).
  destruct (Hpos symbol p Hp) as (Hrem & _).
  apply update_position_summary in Hu as [_ Hu]. rewrite Hp in Hu.
  destruct (is_closed result).
  - destruct Hu as (-> & pnl & log & -> & _). split; [done|].
    split; [apply lookup_delete_eq|]. rewrite length_app. cbn. lia.
  - destruct Hu as (_ & _ & p' & _ & Hd & _ & Hr).
    destruct (Hr Hrem) as [_ Hlt]. specialize (Hlt ltac:(eauto)). lia.
Qed.

Lemma time_exit_closes_witness :
  let market_data : gmap string Q := {[ "vix" := 20 ]} in
  let flat : gmap string Q := {[ "high" := 101; "low" := 99; "close" := 100 ]} in
  let day0 := (open_position "XYZ" 100 market_data None init).1 in
  let day1 := (update_position "XYZ" flat market_data day0).1 in
  let day2 := (update_position "XYZ" flat market_data day1).1 in
  let day3 := (update_position "XYZ" flat market_data day2).1 in
  let day4 := (update_position "XYZ" flat market_data day3).1 in
  let call := update_position "XYZ" flat market_data day4 in
  exists result,
    call.2 = inr result /\ is_closed result = true /\
    active_positions call.1 !! "XYZ" = None.
Proof.
  intros market_data flat day0 day1 day2 day3 day4 call.
  destruct (active_positions day4 !! "XYZ") as [p|] eqn:Hp; [|vm_compute in Hp; discriminate].
  assert (Hdays : (4 <= TradePosition.days_held p)%Z)
    by (vm_compute in Hp; injection Hp as <-; vm_compute; discriminate).
  destruct call.2 as [e | result] eqn:Hr; [vm_compute in Hr; discriminate|].
  assert (Hcall : call = (call.1, inr result)) by (rewrite <- Hr; apply surjective_pairing).
  destruct (time_exit_closes "XYZ" flat market_data day4 call.1 result p
              (reach_update day3 "XYZ" flat market_data
                 (reach_update day2 "XYZ" flat market_data
                    (reach_update day1 "XYZ" flat market_data
                       (reach_update day0 "XYZ" flat market_data
                          (reach_open init "XYZ" 100 market_data None reach_init)))))
              Hp Hdays Hcall) as (Hc & Hnone & _).
  exists result. split; [reflexivity|]. split; [exact Hc | exact Hnone].
Defined.

End Reachable.

(** ** What [open_position] reports *)

Section Reports.
Import UltimateRiskManager.

(** For a positive entry price, whenever [open_position] returns, the stop
    level it reports and stores lies between 75% and 98% of the entry price:
    the clamp of the adaptive stop reaches the caller, whatever the market
    data, the regime adjustments and the True-Range history.  The positions
    of the other symbols are untouched.  (Nothing is said of the reported
    [stop_distance_pct], which the source computes back from the stop
    level.) *)
Theorem open_position_stop_bounds (symbol : string) (entry_price : Q)
    (market_data : gmap string Q) (position_size : option Q)
    (self self' : UltimateRiskManager.t) (result : OpenResult) :
  0 < entry_price ->
  open_position symbol entry_price market_data position_size self = (self', inr result) ->
  0.75 * entry_price <= or_stop_level result /\
  or_stop_level result <= 0.98 * entry_price /\
  (exists p, active_positions self' !! symbol = Some p /\
             TradePosition.stop_level p = or_stop_level result) /\
  (forall other, other <> symbol ->
     active_positions self' !! other = active_positions self !! other).
Proof.
  intros Hpos Ho. apply open_position_trace in Ho as [_ Ho]. cbn zeta in Ho.
  destruct Ho as (_ & Hentry & regime & base_rules & rm1 & transition & adjustments &
                  stop_data & p & log & _ & _ & _ & Hs & Ha & _ & _ & _ & _ & _ & _ &
                  Hstop & -> & _).
  apply calculate_adaptive_stop_clamped in Hs as (Hlo & Hhi & Hlevel).
  rewrite Hlevel.
  split; [percent; nra|]. split; [percent; nra|].
  rewrite Ha. split.
  - exists p. rewrite lookup_insert_eq. split; [done|]. by rewrite Hstop, Hlevel.
  - intros other Hne. by rewrite lookup_insert_ne.
Qed.

Lemma open_position_stop_bounds_witness :
  exists self' result,
    open_position "XYZ" 10 {[ "vix" := 55; "true_range" := 4 ]} None init
      = (self', inr result) /\
    0.75 * 10 <= or_stop_level result /\
    or_stop_level result == 7.5.
Proof.
  destruct (open_position "XYZ" 10 {[ "vix" := 55; "true_range" := 4 ]} None init)
    as [self' [e | result]] eqn:Ho; [vm_compute in Ho; discriminate|].
  destruct (open_position_stop_bounds "XYZ" 10 {[ "vix" := 55; "true_range" := 4 ]} None
              init self' result ltac:(reflexivity) Ho) as (Hlo & _).
  exists self', result. split; [reflexivity|]. split; [exact Hlo|].
  vm_compute in Ho. injection Ho as _ <-. reflexivity.
Defined.

(** The transition flag [open_position] reports, for a reachable manager.
    On the first opening, when no market snapshot is kept yet, it is [True]
    and nothing is logged.  Afterwards the kept snapshot was built without a
    regime, so the flag says whether the regime of the new market data
    differs from bull_normal, whatever the earlier data were; and since
    [open_position] runs the detection itself and once more inside
    [calculate_adaptive_stop], on the same regime manager, a reported
    transition is appended twice to the adjustment history. *)
Theorem open_position_transition_flag (symbol : string) (entry_price : Q)
    (market_data : gmap string Q) (position_size : option Q)
    (self self' : UltimateRiskManager.t) (result : OpenResult) :
  reachable self ->
  open_position symbol entry_price market_data position_size self = (self', inr result) ->
  let current :=
    MarketState_new (default 20.0 (market_data !! "vix")) (market_data !! "t2108")
      (market_data !! "momentum_ratio") (Z.of_nat (length (regime_history self)) + 1) in
  let new_regime := _classify_regime_comprehensive current in
  let history := fun s => adjustment_history (regime_manager (stop_manager s)) in
  match current_market_state self with
  | None =>
      or_regime_transition_detected result = true /\ history self' = history self
  | Some previous =>
      or_regime_transition_detected result = bool_decide (new_regime <> BULL_NORMAL) /\
      exists log,
        tl_old_regime log = "bull_normal" /\
        tl_new_regime log = RegimeType_value new_regime /\
        history self' =
          history self ++ (if or_regime_transition_detected result then [log; log] else [])
  end.
Proof.
  intros Hreach Ho current new_regime history.
  destruct (reachable_ledger self Hreach) as (Hm & _).
  apply open_position_trace in Ho as [_ Ho]. cbn zeta in Ho. fold current in Ho.
  destruct Ho as (_ & Hentry & regime & base_rules & rm1 & transition & adjustments &
                  stop_data & p & log & _ & _ & Hd & Hs & _ & _ & _ & _ & _ & _ & _ &
                  _ & _ & _ & -> & _).
  assert (Hrm : regime_manager (stop_manager self')
                = (detect_regime_transition current (current_market_state self) rm1).1).
  { pose proof (calculate_adaptive_stop_regime_manager symbol entry_price
                  (default (entry_price * 0.02) (market_data !! "true_range"))
                  (apply_dynamic_adjustments base_rules adjustments) current
                  (current_market_state self)
                  (set_regime_manager rm1 (stop_manager self))) as H.
    by rewrite Hs in H. }
  unfold history. rewrite Hrm.
  destruct (current_market_state self) as [previous|] eqn:Hprev.
  - assert (Hmom : momentum_defined current (Some previous)).
    { destruct (detect_regime_transition_inv _ _ _ _ _ Hd)
        as [(? & _) | (? & ? & _ & ?)]; done. }
    destruct (detect_regime_transition_logged current previous Hmom) as [adjustment Hlog].
    rewrite (Hm previous Hprev) in Hlog. fold new_regime in Hlog.
    rewrite Hlog in Hd. injection Hd as <- <- <-.
    split; [done|]. rewrite Hlog. cbn [fst adjustment_history].
    eexists (mkTransitionLog _ _ _ _ _ _ _ _ _ _).
    split; [reflexivity|]. split; [reflexivity|].
    destruct (bool_decide (new_regime <> BULL_NORMAL)).
    + rewrite <- app_assoc. reflexivity.
    + by rewrite !app_nil_r.
  - cbn in Hd. injection Hd as <- <- _. done.
Qed.

Lemma open_position_transition_flag_witness :
  let calm : gmap string Q := {[ "vix" := 20 ]} in
  let crisis : gmap string Q := {[ "vix" := 55 ]} in
  let first := (open_position "AAA" 100 calm None init).1 in
  let second := open_position "BBB" 100 crisis None first in
  exists result,
    second.2 = inr result /\
    or_regime_transition_detected result = true /\
    length (adjustment_history (regime_manager (stop_manager second.1))) = 2%nat.
Proof.
  intros calm crisis first second.
  destruct second.2 as [e | result] eqn:Hr; [vm_compute in Hr; discriminate|].
  assert (Hcall : second = (second.1, inr result))
    by (rewrite <- Hr; apply surjective_pairing).
  pose proof (open_position_transition_flag "BBB" 100 crisis None first second.1 result
                (reach_open init "AAA" 100 calm None reach_init) Hcall) as H.
  cbn zeta in H.
  destruct (current_market_state first) as [previous|] eqn:Hprev;
    [|vm_compute in Hprev; discriminate].
  destruct H as (Hflag & log & _ & _ & Hhist).
  assert (Hreg : bool_decide
            (_classify_regime_comprehensive
               (MarketState_new (default 20.0 (crisis !! "vix")) (crisis !! "t2108")
                  (crisis !! "momentum_ratio") (Z.of_nat (length (regime_history first)) + 1))
             <> BULL_NORMAL) = true) by (vm_compute; reflexivity).
  rewrite Hreg in Hflag. rewrite Hflag in Hhist.
  exists result. split; [reflexivity|]. split; [exact Hflag|].
  rewrite Hhist, length_app. reflexivity.
Defined.

End Reports.

(** ** The defaults of [open_position] *)

Section Defaults.
Import UltimateRiskManager.

(** When [calculate_adaptive_stop] returns, the True-Range histories are
    those before the call with the observation recorded. *)
Lemma calculate_adaptive_stop_rolling symbol entry_price current_true_range base_rules
    market_state previous_state sm sm' stop_data :
  calculate_adaptive_stop symbol entry_price current_true_range base_rules
    market_state previous_state sm = (sm', inr stop_data) ->
  rolling_true_ranges sm'
  = update_rolling symbol current_true_range (rolling_true_ranges sm).
Proof.
  unfold calculate_adaptive_stop, Py.bind at 1, Py.zoom.
  destruct (detect_regime_transition market_state previous_state (regime_manager sm))
    as [rm' [e | [[transition new_regime] adjustment]]]; [done|].
  unfold Py.modify, Py.get, Py.lift, Py.ret, Py.bind.
  cbn -[Py.mean update_rolling Py.gt Py.div Py.min Py.max apply_dynamic_adjustments].
  destruct (if Py.gt _ 0 then _ else _) as [e | vf]; [done|].
  destruct (Py.div _ entry_price) as [e | d]; [done|].
  by intros [= <- _].
Qed.

(** The three ways [open_position] fails. *)
Lemma open_position_failures symbol entry_price market_data position_size self self' e :
  open_position symbol entry_price market_data position_size self = (self', inl e) ->
  (is_Some (active_positions self !! symbol) /\
   e = Py.ValueError ("Position " +:+ symbol +:+ " already exists")) \/
  (e = Py.ZeroDivisionError /\
   (entry_price == 0 \/
    ~ momentum_defined
        (MarketState_new (default 20.0 (market_data !! "vix")) (market_data !! "t2108")
           (market_data !! "momentum_ratio") (Z.of_nat (length (regime_history self)) + 1))
        (current_market_state self))).
Proof.
  intros Ho. destruct (active_positions self !! symbol) as [p|] eqn:Hp.
  - left. split; [eauto|]. revert Ho. unfold open_position, Py.bind at 1, Py.get.
    rewrite bool_decide_eq_true_2 by (rewrite Hp; eauto). by intros [= _ <-].
  - right.
    pose proof (open_position_outcome symbol entry_price market_data position_size self Hp)
      as Hout.
    cbn zeta in Hout. rewrite Ho in Hout. exact Hout.
Qed.

(** An open call whose market data omit [vix] can fail like any other: the
    second opening of a symbol is refused, with or without the key. *)
Lemma open_position_without_vix_can_fail :
  let market_data : gmap string Q := ∅ in
  let opened := (open_position "XYZ" 100 market_data None init).1 in
  market_data !! "vix" = None /\
  (open_position "XYZ" 100 market_data None opened).2
  = inl (Py.ValueError "Position XYZ already exists").
Proof. intros market_data opened. split; vm_compute; reflexivity. Qed.

(** C10 (amended). [open_position] works with the VIX of the market data,
    or 20.0 when the [vix] key is missing, and with their True Range, or 2%
    of the entry price when the [true_range] key is missing.  A missing key
    is never a reason to fail: on a mapping without [vix] the call has the
    outcome of the call on the mapping with [vix := 20.0], whose regime is
    bull_normal, and likewise for [true_range]; the only failures are a
    symbol that is already active, an entry price of zero and an undefined
    momentum ratio.  Outside these three cases the call returns, and the
    value it worked with is the one that reaches the books: the stored
    position has that VIX as [vix_at_entry] and the regime classified from
    it, the market snapshot kept is built from it, the stop reported and
    stored is the adaptive stop at that True Range, the symbol's rolling
    True-Range history ends with it, and the profit targets are those
    computed from it. *)
Theorem open_position_defaults (symbol : string) (entry_price : Q)
    (market_data : gmap string Q) (position_size : option Q) (self : UltimateRiskManager.t) :
  let vix_level := default 20.0 (market_data !! "vix") in
  let true_range := default (entry_price * 0.02) (market_data !! "true_range") in
  let previous := current_market_state self in
  let current :=
    MarketState_new vix_level (market_data !! "t2108") (market_data !! "momentum_ratio")
      (Z.of_nat (length (regime_history self)) + 1) in
  (market_data !! "vix" = None ->
   vix_level = 20.0 /\
   IntegratedRiskOverlay.classify_regime vix_level = inr (RegimeType_value BULL_NORMAL) /\
   open_position symbol entry_price market_data position_size self
   = open_position symbol entry_price (<["vix" := 20.0]> market_data) position_size self) /\
  (market_data !! "true_range" = None ->
   true_range = entry_price * 0.02 /\
   open_position symbol entry_price market_data position_size self
   = open_position symbol entry_price (<["true_range" := entry_price * 0.02]> market_data)
       position_size self) /\
  (forall self' e,
     open_position symbol entry_price market_data position_size self = (self', inl e) ->
     (is_Some (active_positions self !! symbol) /\
      e = Py.ValueError ("Position " +:+ symbol +:+ " already exists")) \/
     (e = Py.ZeroDivisionError /\
      (entry_price == 0 \/ ~ momentum_defined current previous))) /\
  (active_positions self !! symbol = None ->
   ~ entry_price == 0 ->
   momentum_defined current previous ->
   exists self' result p regime base_rules rm1 transition adjustments stop_data
          profit_levels history,
     open_position symbol entry_price market_data position_size self = (self', inr result) /\
     IntegratedRiskOverlay.classify_regime vix_level = inr regime /\
     or_regime result = regime /\
     active_positions self' !! symbol = Some p /\
     TradePosition.vix_at_entry p = vix_level /\
     TradePosition.regime_at_entry p = regime /\
     current_market_state self' = Some current /\
     IntegratedRiskOverlay.getitem IntegratedRiskOverlay.regime_configurations regime
       = inr base_rules /\
     detect_regime_transition current previous (regime_manager (stop_manager self))
       = (rm1, inr (transition, _classify_regime_comprehensive current, adjustments)) /\
     calculate_adaptive_stop symbol entry_price true_range
       (apply_dynamic_adjustments base_rules adjustments) current previous
       (set_regime_manager rm1 (stop_manager self))
       = (stop_manager self', inr stop_data) /\
     or_stop_level result = sd_stop_level stop_data /\
     TradePosition.stop_level p = sd_stop_level stop_data /\
     rolling_true_ranges (stop_manager self') !! symbol = Some history /\
     last history = Some true_range /\
     IntegratedRiskOverlay.calculate_dynamic_profits entry_price
       (apply_dynamic_adjustments base_rules adjustments) true_range = inr profit_levels /\
     or_profit_targets result = map IntegratedRiskOverlay.pt_price profit_levels /\
     TradePosition.profit_levels p = map IntegratedRiskOverlay.pt_price profit_levels).
Proof.
  intros vix_level true_range previous current.
  split; [|split; [|split]].
  - intros Hvix. subst vix_level. rewrite Hvix. split; [reflexivity|].
    split; [vm_compute; reflexivity|].
    unfold open_position.
    rewrite lookup_insert_eq, !lookup_insert_ne, Hvix by done. reflexivity.
  - intros Htr. subst true_range. rewrite Htr. split; [reflexivity|].
    unfold open_position.
    rewrite lookup_insert_eq, !lookup_insert_ne, Htr by done. reflexivity.
  - intros self' e Ho. exact (open_position_failures _ _ _ _ _ _ _ Ho).
  - intros Hnone Hentry Hmom.
    destruct (open_position symbol entry_price market_data position_size self)
      as [self' [e | result]] eqn:Ho.
    { apply open_position_failures in Ho as [[[? Hact] _] | [_ [Hz | Hm]]];
        [congruence | contradiction | contradiction]. }
    pose proof (open_position_trace _ _ _ _ _ _ _ Ho) as [_ Ht]. cbn zeta in Ht.
    fold vix_level true_range previous current in Ht.
    destruct Ht as (_ & _ & regime & base_rules & rm1 & transition & adjustments &
                    stop_data & p & log & Hc & Hg & Hd & Hs & Ha & _ & _ & _ & _ & _ & _ &
                    Hstop & Hlevel & _ & _ & _ & Hregime & Hvix & Hreg & Hcur &
                    profit_levels & Hp & Htargets & Hplevels).
    pose proof (calculate_adaptive_stop_rolling _ _ _ _ _ _ _ _ _ Hs) as Hroll.
    destruct (update_rolling_spec symbol true_range
                (rolling_true_ranges (set_regime_manager rm1 (stop_manager self))))
      as (Hupd & _ & Hlast).
    rewrite Hupd in Hroll.
    eexists self', result, p, regime, base_rules, rm1, transition, adjustments, stop_data,
      profit_levels, _.
    split; [reflexivity|]. split; [exact Hc|]. split; [exact Hregime|].
    split; [rewrite Ha; apply lookup_insert_eq|].
    split; [exact Hvix|]. split; [exact Hreg|]. split; [exact Hcur|].
    split; [exact Hg|]. split; [exact Hd|]. split; [exact Hs|].
    split; [exact Hlevel|]. split; [exact Hstop|].
    split; [rewrite Hroll; apply lookup_insert_eq|].
    split; [exact Hlast|]. split; [exact Hp|]. split; [exact Htargets | exact Hplevels].
Qed.

Lemma open_position_defaults_witness :
  exists self' result p history,
    open_position "XYZ" 100 ∅ None init = (self', inr result) /\
    or_regime result = "bull_normal"%string /\
    active_positions self' !! "XYZ" = Some p /\
    TradePosition.vix_at_entry p = 20.0 /\
    rolling_true_ranges (stop_manager self') !! "XYZ" = Some history /\
    last history = Some (100 * 0.02).
Proof.
  destruct (open_position_defaults "XYZ" 100 ∅ None init) as (Hvix & _ & _ & Hret).
  destruct (Hvix eq_refl) as (_ & Hclass & _).
  destruct (Hret eq_refl ltac:(lra) I)
    as (self' & result & p & regime & base_rules & rm1 & transition & adjustments &
        stop_data & profit_levels & history &
        Ho & Hc & Hr & Hp & Hv & _ & _ & _ & _ & _ & _ & _ & Hh & Hl & _).
  exists self', result, p, history.
  split; [exact Ho|]. split; [|split; [exact Hp|split; [exact Hv|split; [exact Hh | exact Hl]]]].
  rewrite Hr. cbn in Hclass, Hc. rewrite Hclass in Hc. by injection Hc as <-.
Defined.

End Defaults.

(** ** The service layer *)

Section Service.
Import UltimateRiskManager RiskManagementService.

Lemma valid_iff_no_error risk_manager symbol entry_price market_data position_size :
  valid (_validate_position_opening risk_manager symbol entry_price market_data
           position_size) = true <->
  bool_decide (is_Some (active_positions risk_manager !! symbol)) = false /\
  Py.lt (default 0 (market_data !! "vix")) 5
    || Py.gt (default 0 (market_data !! "vix")) 100 = false /\
  match position_size with
  | Some size => negb (Qeq_bool size 0) && Py.gt size alert_thresholds.position_concentration
  | None => false
  end = false.
Proof.
  unfold _validate_position_opening, validation_errors.
  destruct (bool_decide (is_Some _)), (_ || _), position_size as [size|];
    try destruct (_ && _); cbn; split; try done; intros (? & ? & ?); done.
Qed.

Lemma valid_reason risk_manager symbol entry_price market_data position_size :
  valid (_validate_position_opening risk_manager symbol entry_price market_data
           position_size) = true ->
  reason (_validate_position_opening risk_manager symbol entry_price market_data
            position_size) = "All validations passed".
Proof.
  unfold _validate_position_opening, validation_errors.
  destruct (bool_decide (is_Some _)), (_ || _), position_size as [size|];
    try destruct (_ && _); cbn; done.
Qed.

(** [_validate_position_opening] accepts an opening exactly when the symbol
    is not active, the market data carry a VIX between 5 and 100, and the
    position size is absent, zero or at most 25.  The VIX it reads defaults
    to 0, not to the 20 of [open_position]: market data without a VIX are
    rejected.  The entry price is not looked at. *)
Theorem validate_position_opening_accepts (risk_manager : UltimateRiskManager.t)
    (symbol : string) (entry_price : Q) (market_data : gmap string Q)
    (position_size : option Q) :
  let validation :=
    _validate_position_opening risk_manager symbol entry_price market_data position_size in
  (valid validation = true <->
   active_positions risk_manager !! symbol = None /\
   (exists vix, market_data !! "vix" = Some vix /\ 5 <= vix /\ vix <= 100) /\
   (forall size, position_size = Some size -> size == 0 \/ size <= 25)) /\
  (valid validation = true -> reason validation = "All validations passed") /\
  (market_data !! "vix" = None -> valid validation = false) /\
  valid validation
    = valid (_validate_position_opening risk_manager symbol 0 market_data position_size).
Proof.
  intros validation. subst validation.
  assert (Hiff : valid (_validate_position_opening risk_manager symbol entry_price
                          market_data position_size) = true <->
                 active_positions risk_manager !! symbol = None /\
                 (exists vix, market_data !! "vix" = Some vix /\ 5 <= vix /\ vix <= 100) /\
                 (forall size, position_size = Some size -> size == 0 \/ size <= 25)).
  { rewrite valid_iff_no_error. split.
    - intros (Hact & Hvix & Hsize).
      apply bool_decide_eq_false in Hact. apply orb_false_elim in Hvix as [Hlo Hhi].
      apply lt_false in Hlo. apply gt_false in Hhi.
      split; [by apply eq_None_not_Some|]. split.
      + destruct (market_data !! "vix") as [vix|]; cbn in Hlo, Hhi; [eauto | lra].
      + intros size ->. apply andb_false_iff in Hsize as [Hz | Hgt].
        * left. apply negb_false_iff in Hz. by apply Qeq_bool_iff.
        * right. apply gt_false in Hgt.
          unfold alert_thresholds.position_concentration in Hgt. lra.
    - intros (Hnone & (vix & Hvix & Hlo & Hhi) & Hsize).
      split; [apply bool_decide_eq_false; rewrite Hnone; by intros [? ?]|].
      rewrite Hvix. cbn -[Py.lt Py.gt]. split.
      + apply orb_false_intro; [by apply lt_false | by apply gt_false].
      + destruct position_size as [size|]; [|done].
        destruct (Hsize size eq_refl) as [Hz | Hle].
        * apply Qeq_bool_iff in Hz. by rewrite Hz.
        * apply andb_false_iff. right. apply gt_false.
          unfold alert_thresholds.position_concentration. lra. }
  split; [exact Hiff|]. split; [apply valid_reason|]. split; [|reflexivity].
  intros Hvix.
  destruct (valid _) eqn:Hv; [|done].
  destruct (proj1 Hiff eq_refl) as (_ & (vix & Hsome & _) & _). congruence.
Qed.

(** [_calculate_position_risk_score] never exceeds 100; it is the default
    50 when the entry price is zero; and it is not negative when the VIX and
    the True Range relative to the entry price are not. *)
Theorem position_risk_score_bounds (symbol : string) (entry_price : Q)
    (market_data : gmap string Q) :
  let score := _calculate_position_risk_score symbol entry_price market_data in
  score <= 100 /\
  (entry_price == 0 -> score = 50.0) /\
  (~ entry_price == 0 ->
   0 <= default 20 (market_data !! "vix") ->
   0 <= default (entry_price * 0.02) (market_data !! "true_range") / entry_price ->
   0 <= score).
Proof.
  intros score. subst score. unfold _calculate_position_risk_score.
  match goal with |- context [Py.div ?a entry_price] =>
    destruct (div_inv a entry_price _ eq_refl) as [[Hz ->] | [Hnz ->]]
  end.
  - split; [lra|]. split; [done | by intros].
  - split; [|split; [by intros|]].
    + match goal with |- Py.min ?x ?y <= _ =>
        destruct (min_spec x y) as [[? ->] | [? ->]] end; lra.
    + intros _ Hvix Htr.
      set (d := default (entry_price * 0.02) (market_data !! "true_range") / entry_price) in *.
      set (vix := default 20 (market_data !! "vix")) in *.
      pose proof (Qabs_nonneg (1.0 - default 1.0 (market_data !! "momentum_ratio"))) as Hm.
      set (m := Qabs _) in *.
      assert (Hv : 0 <= Py.min (vix / 50.0) 1.0).
      { destruct (min_spec (vix / 50.0) 1.0) as [[? ->] | [? ->]]; [lra|].
        apply Qle_shift_div_l; lra. }
      assert (Ht : 0 <= Py.min (d / 0.05) 1.0).
      { destruct (min_spec (d / 0.05) 1.0) as [[? ->] | [? ->]]; [lra|].
        apply Qle_shift_div_l; lra. }
      match goal with |- _ <= Py.min ?x ?y =>
        destruct (min_spec x y) as [[? ->] | [? ->]] end; lra.
Qed.

(** A validated opening goes through: when [_validate_position_opening]
    accepts, the entry price is not zero and the momentum ratio of the two
    snapshots is defined, the core [open_position] returns, and the symbol
    is then active. *)
Theorem validated_opening_succeeds (risk_manager : UltimateRiskManager.t)
    (symbol : string) (entry_price : Q) (market_data : gmap string Q)
    (position_size : option Q) :
  valid (_validate_position_opening risk_manager symbol entry_price market_data
           position_size) = true ->
  ~ entry_price == 0 ->
  momentum_defined
    (MarketState_new (default 20.0 (market_data !! "vix")) (market_data !! "t2108")
       (market_data !! "momentum_ratio")
       (Z.of_nat (length (regime_history risk_manager)) + 1))
    (current_market_state risk_manager) ->
  exists risk_manager' result,
    open_position symbol entry_price market_data position_size risk_manager
      = (risk_manager', inr result) /\
    is_Some (active_positions risk_manager' !! symbol) /\
    or_entry_price result = entry_price.
Proof.
  intros Hvalid Hentry Hmom.
  assert (Hnone : active_positions risk_manager !! symbol = None).
  { apply valid_iff_no_error in Hvalid as (Hact & _).
    apply bool_decide_eq_false in Hact. by apply eq_None_not_Some. }
  pose proof (open_position_outcome symbol entry_price market_data position_size
                risk_manager Hnone) as Hout. cbn zeta in Hout.
  destruct (open_position symbol entry_price market_data position_size risk_manager)
    as [risk_manager' r] eqn:Ho. cbn in Hout.
  destruct r as [e | result].
  { destruct Hout as [_ [Hz | Hm]]; contradiction. }
  exists risk_manager', result. split; [reflexivity|].
  apply open_position_trace in Ho as [_ Ho]. cbn zeta in Ho.
  destruct Ho as (_ & _ & regime & base_rules & rm1 & transition & adjustments &
                  stop_data & p & log & _ & _ & _ & _ & Ha & _ & _ & _ & _ & _ & _ &
                  _ & _ & _ & _ & Hprice & _).
  rewrite Ha, lookup_insert_eq. split; [eauto | exact Hprice].
Qed.

Lemma validated_opening_succeeds_witness :
  exists risk_manager' result,
    open_position "XYZ" 100 {[ "vix" := 20; "true_range" := 2 ]} (Some 10) init
      = (risk_manager', inr result) /\
    is_Some (active_positions risk_manager' !! "XYZ").
Proof.
  destruct (validated_opening_succeeds init "XYZ" 100
              {[ "vix" := 20; "true_range" := 2 ]} (Some 10))
    as (risk_manager' & result & Ho & Ha & _).
  - vm_compute. reflexivity.
  - intros H. vm_compute in H. discriminate.
  - exact I.
  - exists risk_manager', result. split; [exact Ho | exact Ha].
Defined.

End Service.
